(** * AICanvas4ValueInvesting backend: LLM JSON extraction, history schema
    normalisation and the JSONL record store.

    Shallow embedding of
    - [src/backend/utils/llm_json.py]        ([parse_llm_json]),
    - [src/backend/config/history_schema.py] ([history_data_template],
                                              [normalize_history_data]),
    - [src/backend/utils/storage.py]         ([Storage.save], [Storage.load],
                                              [Storage.get_latest],
                                              [Storage.save_and_replace]).

    Python text is a list of Unicode code points ([text]).  The parts of the
    Python standard library and of [langchain_core] that the code calls
    ([str.strip], [re.sub]/[re.search] with the code's patterns, [json.loads],
    [json.dumps], [JsonOutputParser.parse], [parse_json_markdown]) are
    written out below as they behave, so that every function of the
    repository can be evaluated on concrete inputs. *)

From Stdlib Require Import ZArith String Ascii List Bool Lia.
Import ListNotations.

(* ================================================================= *)
(** ** Text *)

Definition text := list Z.

(** An ASCII Rocq string as a list of code points. *)
Definition u (s : string) : text :=
  map (fun a => Z.of_nat (nat_of_ascii a)) (list_ascii_of_string s).

(** Test inputs are written with [uq]: an ASCII string in which each
    apostrophe stands for a double quote. *)
Definition uq (s : string) : text :=
  map (fun c => if Z.eqb c 39 then 34%Z else c) (u s).

Fixpoint text_eqb (a b : text) : bool :=
  match a, b with
  | [], [] => true
  | x :: a', y :: b' => Z.eqb x y && text_eqb a' b'
  | _, _ => false
  end.

Definition is_nil {A} (l : list A) : bool :=
  match l with [] => true | _ => false end.

(** [str.isspace] of CPython on a single code point (also the class [\s]
    of [re] on [str] patterns). *)
Definition py_isspace (c : Z) : bool :=
  ((9 <=? c) && (c <=? 13))%Z || ((28 <=? c) && (c <=? 32))%Z
  || (c =? 133)%Z || (c =? 160)%Z || (c =? 5760)%Z
  || ((8192 <=? c) && (c <=? 8202))%Z || (c =? 8232)%Z || (c =? 8233)%Z
  || (c =? 8239)%Z || (c =? 8287)%Z || (c =? 12288)%Z.

Fixpoint lstrip_by (p : Z -> bool) (s : text) : text :=
  match s with
  | [] => []
  | c :: r => if p c then lstrip_by p r else s
  end.

Definition rstrip_by (p : Z -> bool) (s : text) : text :=
  rev (lstrip_by p (rev s)).

Definition strip_by (p : Z -> bool) (s : text) : text :=
  rstrip_by p (lstrip_by p s).

(** [s.strip()] *)
Definition py_strip (s : text) : text := strip_by py_isspace s.

(** [prefix] removed from the front of [s], if [s] starts with it. *)
Fixpoint drop_prefix (prefix s : text) : option text :=
  match prefix, s with
  | [], _ => Some s
  | p :: prefix', c :: s' => if Z.eqb p c then drop_prefix prefix' s' else None
  | _ :: _, [] => None
  end.

(* ================================================================= *)
(** ** JSON values as Python holds them *)

(** A float is kept as the decimal literal it was read from (sign, integer
    digits, fraction digits, exponent part); [NaN] and the infinities are
    the constants [json] accepts.  Float rounding is not modelled. *)
Inductive pyfloat : Type :=
| FNaN
| FInf (neg : bool)
| FLit (neg : bool) (ipart frac expo : text).

(** [None], [bool], [int], [float], [str], [list] and [dict] (a dict as
    its items in insertion order). *)
Inductive json : Type :=
| JNull
| JBool (b : bool)
| JInt (z : Z)
| JFloat (f : pyfloat)
| JStr (s : text)
| JArr (xs : list json)
| JObj (kvs : list (text * json)).

Definition dict := list (text * json).

(** [d.get(k)] *)
Fixpoint dict_get (k : text) (d : dict) : option json :=
  match d with
  | [] => None
  | (k', v) :: d' => if text_eqb k k' then Some v else dict_get k d'
  end.

(** [k in d] *)
Definition dict_has (k : text) (d : dict) : bool :=
  match dict_get k d with Some _ => true | None => false end.

(** [d[k] = v]: an existing key keeps its position, a new key goes last. *)
Fixpoint dict_set (k : text) (v : json) (d : dict) : dict :=
  match d with
  | [] => [(k, v)]
  | (k', v') :: d' =>
      if text_eqb k k' then (k', v) :: d' else (k', v') :: dict_set k v d'
  end.

Definition float_is_zero (f : pyfloat) : bool :=
  match f with
  | FLit _ ip fr _ => forallb (Z.eqb 48) ip && forallb (Z.eqb 48) fr
  | _ => false
  end.

(** [bool(v)] *)
Definition truthy (v : json) : bool :=
  match v with
  | JNull => false
  | JBool b => b
  | JInt z => negb (Z.eqb z 0)
  | JFloat f => negb (float_is_zero f)
  | JStr s => negb (is_nil s)
  | JArr xs => negb (is_nil xs)
  | JObj kvs => negb (is_nil kvs)
  end.

(** [bool(d.get(k))], where a missing key gives [None]. *)
Definition opt_truthy (o : option json) : bool :=
  match o with Some v => truthy v | None => false end.

Definition opt_json (o : option json) : json :=
  match o with Some v => v | None => JNull end.

(** [d.get(k) != t] for a [str] [t]: only a [str] with the same code
    points compares equal. *)
Definition py_ne_str (o : option json) (t : text) : bool :=
  match o with
  | Some (JStr s) => negb (text_eqb s t)
  | _ => true
  end.

(* ================================================================= *)
(** ** The interpreter's limits *)

(** Two limits of CPython bound what [json.loads] and [json.dumps] accept:
    - [recursion_room]: how many nested lists and dicts the call may still
      enter. Both the C scanner and the C encoder call
      [Py_EnterRecursiveCall] on each [{] or [[] they enter (each list or
      dict they write), and it raises [RecursionError] when the
      interpreter's recursion limit is used up. The room depends on the
      version, on [sys.setrecursionlimit] and on the frames already on the
      stack; the program makes its [json] calls a few frames apart, and one
      figure is taken for all of them.
    - [int_max_str_digits]: [sys.get_int_max_str_digits()], [0] meaning no
      limit. Converting an [int] from or to more decimal digits than that
      raises [ValueError].
    The definitions below hold for any values; the concrete evaluations use
    [cpython_defaults]. *)
Class PyLimits : Type := {
  recursion_room : nat;
  int_max_str_digits : nat
}.

(* ================================================================= *)
(** ** [json.loads] (CPython's C scanner, [_json.c]) *)

Inductive result (A E : Type) : Type :=
| Ok (a : A)
| Err (e : E).
Arguments Ok {A E} a.
Arguments Err {A E} e.

(** What [json.loads] and [json.dumps] raise besides [JSONDecodeError]:
    [RecursionError], and the [ValueError] of an [int] with too many
    digits. *)
Inductive limit_error : Type :=
| RecursionError
| IntDigitsError.

(** A scanner step: the value and the rest of the input, an error message
    with the length of the input left at the error position, or an
    exception other than a decoding error. *)
Inductive decoded (A : Type) : Type :=
| Decoded (v : A) (rest : text)
| DecodeFail (msg : string) (at_rest : nat)
| DecodeRaise (e : limit_error).
Arguments Decoded {A} v rest.
Arguments DecodeFail {A} msg at_rest.
Arguments DecodeRaise {A} e.

(** What [json.loads] raises: [json.JSONDecodeError(msg, doc, pos)], or
    one of the [limit_error]s. *)
Inductive loads_error : Type :=
| DecodeError (msg : string) (pos : nat)
| LoadsRaise (e : limit_error).

Section Scanner.
Context `{PyLimits}.

Definition json_ws (c : Z) : bool :=
  (c =? 32)%Z || (c =? 9)%Z || (c =? 10)%Z || (c =? 13)%Z.

Fixpoint skip_ws (s : text) : text :=
  match s with
  | [] => []
  | c :: r => if json_ws c then skip_ws r else s
  end.

Definition is_digit (c : Z) : bool := ((48 <=? c) && (c <=? 57))%Z.

Definition is_hex (c : Z) : bool :=
  is_digit c || ((65 <=? c) && (c <=? 70))%Z || ((97 <=? c) && (c <=? 102))%Z.

Definition hex_val (c : Z) : Z :=
  if is_digit c then (c - 48)%Z
  else if ((65 <=? c) && (c <=? 70))%Z then (c - 55)%Z else (c - 87)%Z.

Definition hex4 (a b c d : Z) : option Z :=
  if is_hex a && is_hex b && is_hex c && is_hex d
  then Some (((hex_val a * 16 + hex_val b) * 16 + hex_val c) * 16 + hex_val d)%Z
  else None.

(** The one-character escapes: a backslash followed by a double quote,
    a backslash, a slash or one of [b f n r t]. *)
Definition simple_escape (e : Z) : option Z :=
  if (e =? 34)%Z then Some 34%Z
  else if (e =? 92)%Z then Some 92%Z
  else if (e =? 47)%Z then Some 47%Z
  else if (e =? 98)%Z then Some 8%Z
  else if (e =? 102)%Z then Some 12%Z
  else if (e =? 110)%Z then Some 10%Z
  else if (e =? 114)%Z then Some 13%Z
  else if (e =? 116)%Z then Some 9%Z
  else None.

Definition is_high_surrogate (c : Z) : bool := ((55296 <=? c) && (c <=? 56319))%Z.
Definition is_low_surrogate (c : Z) : bool := ((56320 <=? c) && (c <=? 57343))%Z.

Definition join_surrogates (hi lo : Z) : Z :=
  (65536 + Z.lor (Z.shiftl (Z.land hi 1023) 10) (Z.land lo 1023))%Z.

(** [scanstring_unicode]: the body of a string after its opening quote;
    [begin] is the input length at the opening quote, [acc] the code
    points read so far (reversed). *)
Fixpoint scan_chars (strict : bool) (begin : nat) (acc : text) (s : text)
  : decoded text :=
  match s with
  | [] => DecodeFail "Unterminated string starting at" begin
  | c :: r =>
    if (c =? 34)%Z then Decoded (rev acc) r
    else if (c =? 92)%Z then
      match r with
      | [] => DecodeFail "Unterminated string starting at" begin
      | e :: r1 =>
        if (e =? 117)%Z then
          match r1 with
          | h1 :: h2 :: h3 :: h4 :: r2 =>
            if is_nil r2 then DecodeFail "Invalid \uXXXX escape" (length r) else
            match hex4 h1 h2 h3 h4 with
            | None => DecodeFail "Invalid \uXXXX escape" (length r)
            | Some cp =>
              if is_high_surrogate cp then
                match r2 with
                | b :: v :: k1 :: k2 :: k3 :: k4 :: r3 =>
                  if (b =? 92)%Z && (v =? 117)%Z && negb (is_nil r3) then
                    match hex4 k1 k2 k3 k4 with
                    | None => DecodeFail "Invalid \uXXXX escape" (length (v :: k1 :: k2 :: k3 :: k4 :: r3))
                    | Some cp2 =>
                      if is_low_surrogate cp2
                      then scan_chars strict begin (join_surrogates cp cp2 :: acc) r3
                      else scan_chars strict begin (cp :: acc) r2
                    end
                  else scan_chars strict begin (cp :: acc) r2
                | _ => scan_chars strict begin (cp :: acc) r2
                end
              else scan_chars strict begin (cp :: acc) r2
            end
          | _ => DecodeFail "Invalid \uXXXX escape" (length r)
          end
        else
          match simple_escape e with
          | Some c' => scan_chars strict begin (c' :: acc) r1
          | None => DecodeFail "Invalid \escape" (length s)
          end
      end
    else if strict && (c <=? 31)%Z then DecodeFail "Invalid control character at" (length s)
    else scan_chars strict begin (c :: acc) r
  end.

Fixpoint span_digits (s : text) : text * text :=
  match s with
  | [] => ([], [])
  | c :: r =>
    if is_digit c then let (ds, r') := span_digits r in (c :: ds, r') else ([], s)
  end.

Definition digits_value (ds : text) : Z :=
  fold_left (fun acc d => (acc * 10 + (d - 48))%Z) ds 0%Z.

(** [([eE][-+]?\d+)?], giving back nothing when no digit follows. *)
Definition scan_exponent (s : text) : text * text :=
  match s with
  | e :: r =>
    if (e =? 101)%Z || (e =? 69)%Z then
      let '(sg, r1) :=
        match r with
        | c :: r' => if (c =? 43)%Z || (c =? 45)%Z then ([c], r') else ([], r)
        | [] => ([], r)
        end in
      let (ds, r2) := span_digits r1 in
      if is_nil ds then ([], s) else (e :: sg ++ ds, r2)
    else ([], s)
  | [] => ([], s)
  end.

(** Whether [int] conversion of a decimal number of [n] digits (the sign
    apart) raises [ValueError]: [n] exceeds [sys.get_int_max_str_digits()],
    and the limit is not [0]. *)
Definition int_digits_over (n : nat) : bool :=
  negb (Nat.eqb int_max_str_digits 0) && Nat.ltb int_max_str_digits n.

(** [_match_number_unicode]: an optional minus sign, then [0] or a digit
    [1-9] followed by digits, then an optional fraction (a dot and at least
    one digit), then an optional exponent. A match without fraction and
    exponent is an [int] ([PyLong_FromString], which checks the digit
    limit), any other a [float]. *)
Definition scan_number (s : text) : option (decoded json) :=
  let '(neg, s1) :=
    match s with
    | c :: r => if (c =? 45)%Z then (true, r) else (false, s)
    | [] => (false, s)
    end in
  match s1 with
  | [] => None
  | c :: r =>
    let ip :=
      if ((49 <=? c) && (c <=? 57))%Z then let (ds, r') := span_digits r in Some (c :: ds, r')
      else if (c =? 48)%Z then Some ([c], r) else None in
    match ip with
    | None => None
    | Some (ids, r1) =>
      let '(fr, r2) :=
        match r1 with
        | d :: e :: r' =>
          if (d =? 46)%Z && is_digit e then let (fs, r'') := span_digits r' in (e :: fs, r'')
          else ([], r1)
        | _ => ([], r1)
        end in
      let (ex, r3) := scan_exponent r2 in
      if is_nil fr && is_nil ex then
        if int_digits_over (length ids) then Some (DecodeRaise IntDigitsError)
        else Some (Decoded (JInt (if neg then (- digits_value ids)%Z else digits_value ids)) r3)
      else Some (Decoded (JFloat (FLit neg ids fr ex)) r3)
    end
  end.

(** The named constants [null], [true], [false], [NaN], [Infinity],
    [-Infinity]. *)
Definition scan_constant (s : text) : option (json * text) :=
  match drop_prefix (u "null") s with Some r => Some (JNull, r) | None =>
  match drop_prefix (u "true") s with Some r => Some (JBool true, r) | None =>
  match drop_prefix (u "false") s with Some r => Some (JBool false, r) | None =>
  match drop_prefix (u "NaN") s with Some r => Some (JFloat FNaN, r) | None =>
  match drop_prefix (u "Infinity") s with Some r => Some (JFloat (FInf false), r) | None =>
  match drop_prefix (u "-Infinity") s with Some r => Some (JFloat (FInf true), r) | None =>
    None end end end end end end.

(** The element loop of [_parse_array_unicode]; [sv] scans one value,
    [k] bounds the number of elements. *)
Fixpoint array_items (sv : text -> decoded json) (k : nat) (acc : list json) (s : text)
  : decoded (list json) :=
  match k with
  | O => DecodeFail "Expecting value" (length s)
  | S k' =>
    match sv s with
    | DecodeFail m p => DecodeFail m p
    | DecodeRaise e => DecodeRaise e
    | Decoded v r =>
      match skip_ws r with
      | c :: r' =>
        if (c =? 93)%Z then Decoded (rev (v :: acc)) r'
        else if (c =? 44)%Z then array_items sv k' (v :: acc) (skip_ws r')
        else DecodeFail "Expecting ',' delimiter" (length (c :: r'))
      | [] => DecodeFail "Expecting ',' delimiter" 0
      end
    end
  end.

(** The member loop of [_parse_object_unicode]; members are stored with
    [dict] item assignment. *)
Fixpoint object_members (strict : bool) (sv : text -> decoded json) (k : nat)
  (acc : dict) (s : text) : decoded dict :=
  match k with
  | O => DecodeFail "Expecting value" (length s)
  | S k' =>
    match s with
    | c :: r =>
      if (c =? 34)%Z then
        match scan_chars strict (length s) [] r with
        | DecodeFail m p => DecodeFail m p
        | DecodeRaise e => DecodeRaise e
        | Decoded key r1 =>
          match skip_ws r1 with
          | d :: r2 =>
            if (d =? 58)%Z then
              match sv (skip_ws r2) with
              | DecodeFail m p => DecodeFail m p
              | DecodeRaise e => DecodeRaise e
              | Decoded v r3 =>
                let acc' := dict_set key v acc in
                match skip_ws r3 with
                | e :: r4 =>
                  if (e =? 125)%Z then Decoded acc' r4
                  else if (e =? 44)%Z then object_members strict sv k' acc' (skip_ws r4)
                  else DecodeFail "Expecting ',' delimiter" (length (e :: r4))
                | [] => DecodeFail "Expecting ',' delimiter" 0
                end
              end
            else DecodeFail "Expecting ':' delimiter" (length (d :: r2))
          | [] => DecodeFail "Expecting ':' delimiter" 0
          end
        end
      else DecodeFail "Expecting property name enclosed in double quotes" (length s)
    | [] => DecodeFail "Expecting property name enclosed in double quotes" 0
    end
  end.

Definition scan_array (sv : text -> decoded json) (s : text) : decoded json :=
  let s1 := skip_ws s in
  let items :=
    match array_items sv (length s1) [] s1 with
    | Decoded xs r => Decoded (JArr xs) r
    | DecodeFail m p => DecodeFail m p
    | DecodeRaise e => DecodeRaise e
    end in
  match s1 with
  | c :: r => if (c =? 93)%Z then Decoded (JArr []) r else items
  | [] => items
  end.

Definition scan_object (strict : bool) (sv : text -> decoded json) (s : text) : decoded json :=
  let s1 := skip_ws s in
  let members :=
    match object_members strict sv (length s1) [] s1 with
    | Decoded kvs r => Decoded (JObj kvs) r
    | DecodeFail m p => DecodeFail m p
    | DecodeRaise e => DecodeRaise e
    end in
  match s1 with
  | c :: r => if (c =? 125)%Z then Decoded (JObj []) r else members
  | [] => members
  end.

(** [scan_once_unicode]; [room] is the number of lists and dicts that may
    still be entered: with none left, [_parse_object_unicode] and
    [_parse_array_unicode] raise [RecursionError] on their
    [Py_EnterRecursiveCall], even for an empty container. *)
Fixpoint scan_value (strict : bool) (room : nat) (s : text) {struct room} : decoded json :=
  match s with
  | [] => DecodeFail "Expecting value" 0
  | c :: r =>
    if (c =? 34)%Z then
      match scan_chars strict (length s) [] r with
      | Decoded str r' => Decoded (JStr str) r'
      | DecodeFail m p => DecodeFail m p
      | DecodeRaise e => DecodeRaise e
      end
    else if (c =? 123)%Z then
      match room with
      | O => DecodeRaise RecursionError
      | S room' => scan_object strict (scan_value strict room') r
      end
    else if (c =? 91)%Z then
      match room with
      | O => DecodeRaise RecursionError
      | S room' => scan_array (scan_value strict room') r
      end
    else
      match scan_constant s with
      | Some (v, r') => Decoded v r'
      | None =>
        match scan_number s with
        | Some d => d
        | None => DecodeFail "Expecting value" (length s)
        end
      end
  end.

(** [json.loads(s, strict=strict)], called with [recursion_room]
    containers left to enter. *)
Definition json_loads_with (strict : bool) (s : text) : result json loads_error :=
  let go :=
    let s1 := skip_ws s in
    match scan_value strict recursion_room s1 with
    | DecodeFail m rest => Err (DecodeError m (length s - rest))
    | DecodeRaise e => Err (LoadsRaise e)
    | Decoded v r =>
      match skip_ws r with
      | [] => Ok v
      | r' => Err (DecodeError "Extra data" (length s - length r'))
      end
    end in
  match s with
  | c :: _ =>
    if (c =? 65279)%Z
    then Err (DecodeError "Unexpected UTF-8 BOM (decode using utf-8-sig)" 0)
    else go
  | [] => go
  end.

(** [json.loads(s)] *)
Definition json_loads (s : text) : result json loads_error := json_loads_with true s.

(* ================================================================= *)
(** ** [json.dumps(obj, ensure_ascii=False)] *)

Definition hex_lower (n : Z) : Z := if (n <? 10)%Z then (48 + n)%Z else (87 + n)%Z.

(** [encode_basestring]: quote, backslash and the control characters are
    escaped, everything else is written as it is. *)
Definition escape_char (c : Z) : text :=
  if (c =? 34)%Z then [92; 34]%Z
  else if (c =? 92)%Z then [92; 92]%Z
  else if (c =? 10)%Z then [92; 110]%Z
  else if (c =? 13)%Z then [92; 114]%Z
  else if (c =? 9)%Z then [92; 116]%Z
  else if (c =? 8)%Z then [92; 98]%Z
  else if (c =? 12)%Z then [92; 102]%Z
  else if (c <? 32)%Z then [92; 117; 48; 48; hex_lower (c / 16); hex_lower (c mod 16)]%Z
  else [c].

Definition dumps_str (s : text) : text := [34%Z] ++ flat_map escape_char s ++ [34%Z].

(** Decimal digits of a natural number; [fuel] bounds their number. *)
Fixpoint nat_digits (fuel : nat) (n : Z) (acc : text) : text :=
  match fuel with
  | O => acc
  | S f =>
    let acc' := (48 + n mod 10)%Z :: acc in
    if (n <? 10)%Z then acc' else nat_digits f (n / 10) acc'
  end.

Definition digits_of (n : Z) : text := nat_digits (S (Z.to_nat (Z.log2 (Z.max n 1)))) n [].

(** [int.__repr__] (its digit limit is checked by [dumps_raise]) *)
Definition dumps_int (z : Z) : text :=
  if (z <? 0)%Z then 45%Z :: digits_of (- z) else digits_of z.

(** [float.__repr__] writes the shortest decimal that reads back as the
    same double, which is in general not the literal the float was read
    from ([1.50] is written [1.5], [1e2] is written [100.0]). Floats are
    kept as their literal here (see [pyfloat]), and [dumps_float] writes
    that literal back: a text [json.loads] reads as the same float, but
    not the characters CPython writes. *)
Definition dumps_float (f : pyfloat) : text :=
  match f with
  | FNaN => u "NaN"
  | FInf false => u "Infinity"
  | FInf true => u "-Infinity"
  | FLit neg ip fr ex =>
    (if neg then [45%Z] else []) ++ ip ++ (if is_nil fr then [] else 46%Z :: fr) ++ ex
  end.

(** Items are separated by a comma and a space, keys from values by a
    colon and a space. *)
Fixpoint dumps (v : json) : text :=
  match v with
  | JNull => u "null"
  | JBool true => u "true"
  | JBool false => u "false"
  | JInt z => dumps_int z
  | JFloat f => dumps_float f
  | JStr s => dumps_str s
  | JArr xs =>
    [91%Z] ++
    (fix items (xs : list json) : text :=
       match xs with
       | [] => []
       | x :: xs' => dumps x ++ (if is_nil xs' then [] else [44; 32]%Z) ++ items xs'
       end) xs
    ++ [93%Z]
  | JObj kvs =>
    [123%Z] ++
    (fix members (kvs : list (text * json)) : text :=
       match kvs with
       | [] => []
       | (k, x) :: kvs' =>
         dumps_str k ++ [58; 32]%Z ++ dumps x ++ (if is_nil kvs' then [] else [44; 32]%Z)
         ++ members kvs'
       end) kvs
    ++ [125%Z]
  end.

(** The exception [json.dumps(v)] raises, called with [room] containers
    left to enter: the C encoder calls [Py_EnterRecursiveCall] before
    writing each list or dict ([RecursionError] with none left), and the
    [repr] of an [int] raises [ValueError] beyond the digit limit. Keys are
    strings and raise nothing. The first exception in writing order is the
    one raised; [None] when [json.dumps] returns [dumps v]. *)
Fixpoint dumps_raise (room : nat) (v : json) : option limit_error :=
  match v with
  | JInt z => if int_digits_over (length (digits_of (Z.abs z))) then Some IntDigitsError else None
  | JArr xs =>
    match room with
    | O => Some RecursionError
    | S room' =>
      (fix items (xs : list json) : option limit_error :=
         match xs with
         | [] => None
         | x :: xs' => match dumps_raise room' x with Some e => Some e | None => items xs' end
         end) xs
    end
  | JObj kvs =>
    match room with
    | O => Some RecursionError
    | S room' =>
      (fix members (kvs : list (text * json)) : option limit_error :=
         match kvs with
         | [] => None
         | (_, x) :: kvs' => match dumps_raise room' x with Some e => Some e | None => members kvs' end
         end) kvs
    end
  | _ => None
  end.

End Scanner.

(* ================================================================= *)
(** ** [langchain_core]: [JsonOutputParser.parse] and [parse_json_markdown] *)

Module LangChain.

Section LC.
Context `{PyLimits}.

(** [parse_partial_json]'s character walk: inside strings a raw newline
    becomes the two characters backslash and [n]; outside strings the open
    brackets are pushed (as their closers) and a closer must match the top
    of the stack, otherwise the walk stops ([None], the function returns
    [None]).  Pieces are accumulated in reverse. *)
Fixpoint walk (in_str escaped : bool) (stack : text) (acc : list text) (s : text)
  : option (bool * bool * text * list text) :=
  match s with
  | [] => Some (in_str, escaped, stack, acc)
  | c :: r =>
    if in_str then
      if (c =? 34)%Z && negb escaped then walk false escaped stack ([c] :: acc) r
      else if (c =? 10)%Z && negb escaped then walk true escaped stack ([92; 110]%Z :: acc) r
      else if (c =? 92)%Z then walk true (negb escaped) stack ([c] :: acc) r
      else walk true false stack ([c] :: acc) r
    else if (c =? 34)%Z then walk true false stack ([c] :: acc) r
    else if (c =? 123)%Z then walk false escaped (125%Z :: stack) ([c] :: acc) r
    else if (c =? 91)%Z then walk false escaped (93%Z :: stack) ([c] :: acc) r
    else if (c =? 125)%Z || (c =? 93)%Z then
      match stack with
      | d :: st => if (d =? c)%Z then walk false escaped st ([c] :: acc) r else None
      | [] => None
      end
    else walk false escaped stack ([c] :: acc) r
  end.

(** The retry loop: parse the pieces followed by the closers, dropping the
    last piece after each [JSONDecodeError]; any other outcome of
    [json.loads] ends the loop and is the function's ([Some]), [None] when
    the pieces run out. *)
Fixpoint retry (closers : text) (acc : list text) : option (result json loads_error) :=
  match acc with
  | [] => None
  | _ :: rest =>
    match json_loads_with false (concat (rev acc) ++ closers) with
    | Err (DecodeError _ _) => retry closers rest
    | r => Some r
    end
  end.

(** [parse_partial_json(s)] (with [strict=False]); a [None] return is
    Python's [None], i.e. [JNull]. Only [JSONDecodeError] is caught. *)
Definition parse_partial_json (s : text) : result json loads_error :=
  match json_loads_with false s with
  | Err (DecodeError _ _) =>
    match walk false false [] [] s with
    | None => Ok JNull
    | Some (in_str, esc, stack, acc) =>
      let acc1 := if in_str then [34%Z] :: (if esc then tl acc else acc) else acc in
      match retry stack acc1 with
      | Some r => r
      | None => json_loads_with false s
      end
    end
  | r => r
  end.

Definition action_input_key : text := [34%Z] ++ u "action_input" ++ [34%Z].

(** Up to the first double quote (the lazy group [(.*?)] followed by a
    quote): the part before it and the rest after it. *)
Fixpoint break_at_quote (s : text) : option (text * text) :=
  match s with
  | [] => None
  | c :: r =>
    if (c =? 34)%Z then Some ([], r)
    else match break_at_quote r with
         | Some (a, b) => Some (c :: a, b)
         | None => None
         end
  end.

(** A match of the pattern of [_custom_parser] at the front of [s]: the
    key, a colon, whitespace and a quote (group 1), the text up to the
    next quote (group 2), and the rest after that quote. *)
Definition match_action_input (s : text) : option (text * text * text) :=
  match drop_prefix action_input_key s with
  | Some (c :: r1) =>
    if (c =? 58)%Z then
      let ws := firstn (length r1 - length (lstrip_by py_isspace r1)) r1 in
      match lstrip_by py_isspace r1 with
      | q :: r3 =>
        if (q =? 34)%Z then
          match break_at_quote r3 with
          | Some (g2, rest) => Some (action_input_key ++ [58%Z] ++ ws ++ [34%Z], g2, rest)
          | None => None
          end
        else None
      | [] => None
      end
    else None
  | _ => None
  end.

(** [_replace_new_line] on group 2 (which holds no quote). *)
Definition escape_ws (c : Z) : text :=
  if (c =? 10)%Z then [92; 110]%Z
  else if (c =? 13)%Z then [92; 114]%Z
  else if (c =? 9)%Z then [92; 116]%Z
  else [c].

Fixpoint custom_parser_go (fuel : nat) (s : text) : text :=
  match fuel with
  | O => s
  | S f =>
    match s with
    | [] => []
    | c :: r =>
      match match_action_input s with
      | Some (g1, g2, rest) => g1 ++ flat_map escape_ws g2 ++ [34%Z] ++ custom_parser_go f rest
      | None => c :: custom_parser_go f r
      end
    end
  end.

(** [_custom_parser]: [re.sub] of that pattern over the whole text. *)
Definition custom_parser (s : text) : text := custom_parser_go (length s) s.

(** [_json_strip_chars]: space, newline, carriage return, tab, backtick. *)
Definition json_strip_char (c : Z) : bool :=
  (c =? 32)%Z || (c =? 10)%Z || (c =? 13)%Z || (c =? 9)%Z || (c =? 96)%Z.

(** [_parse_json] *)
Definition parse_json (s : text) : result json loads_error :=
  parse_partial_json (custom_parser (strip_by json_strip_char s)).

(** Group 2 of the search of [_json_markdown_re] (three backticks, an
    optional [json], then everything up to the end): the text after the
    first fence marker and its optional [json] tag. *)
Fixpoint fence_body (s : text) : option text :=
  match s with
  | [] => None
  | _ :: r =>
    match drop_prefix (u "```") s with
    | Some b => Some (match drop_prefix (u "json") b with Some b' => b' | None => b end)
    | None => fence_body r
    end
  end.

(** [parse_json_markdown(s)]: the second attempt is made after a
    [JSONDecodeError] only. *)
Definition parse_json_markdown (s : text) : result json loads_error :=
  match parse_json s with
  | Err (DecodeError _ _) => parse_json (match fence_body s with Some b => b | None => s end)
  | r => r
  end.

(** [JsonOutputParser().parse(text)]: a [JSONDecodeError] becomes an
    [OutputParserException]; both are failures here, as are the other
    exceptions, which pass through. *)
Definition output_parser_parse (s : text) : result json loads_error :=
  parse_json_markdown (py_strip s).

End LC.

End LangChain.

Section Program.
Context `{PyLimits}.

(* ================================================================= *)
(** ** [parse_llm_json] (src/backend/utils/llm_json.py) *)

(** First [re.sub] of step 2: a fence marker at the very start, its
    optional [json] tag and the whitespace after them are removed. *)
Definition strip_leading_fence (s : text) : text :=
  match drop_prefix (u "```") s with
  | None => s
  | Some r =>
    lstrip_by py_isspace (match drop_prefix (u "json") r with Some r' => r' | None => r end)
  end.

(** Second [re.sub] of step 2: the fence at the very end, or just before
    a final newline, goes together with the whitespace run before it. *)
Definition strip_trailing_fence (s : text) : text :=
  let fence := u "```" in
  let r := rev s in
  match drop_prefix (rev fence) r with
  | Some before => rev (lstrip_by py_isspace before)
  | None =>
    match drop_prefix (10%Z :: rev fence) r with
    | Some before => rev (lstrip_by py_isspace before) ++ [10%Z]
    | None => s
    end
  end.

(** Prefix of [l] up to and including the last [x] ([[]] if none). *)
Definition upto_last (x : Z) (l : text) : text :=
  rev (lstrip_by (fun c => negb (Z.eqb c x)) (rev l)).

(** The greedy [re.search] of step 4: from the first
    opening brace or bracket that has a matching closer somewhere after it
    to the last such closer. *)
Fixpoint first_json_span (s : text) : option text :=
  match s with
  | [] => None
  | c :: r =>
    if (c =? 123)%Z && existsb (Z.eqb 125) r then Some (c :: upto_last 125 r)
    else if (c =? 91)%Z && existsb (Z.eqb 93) r then Some (c :: upto_last 93 r)
    else first_json_span r
  end.

(** The outcome of [parse_llm_json]: the parsed value, or the [ValueError]
    (the spec's MalformedResponse) with the snippet [cleaned[:800]] and the
    exception caught last (a [JSONDecodeError], or one of the
    [limit_error]s: every stage catches [Exception]). *)
Inductive llm_result : Type :=
| Parsed (v : json)
| MalformedResponse (snippet : text) (cause : loads_error).

(** Step 2 of [parse_llm_json]: both fence substitutions, then [strip()]. *)
Definition clean_fences (raw : text) : text :=
  py_strip (strip_trailing_fence (strip_leading_fence raw)).

Definition parse_llm_json (txt : text) : llm_result :=
  let raw := py_strip txt in
  (* 1) LangChain parser *)
  match LangChain.output_parser_parse raw with
  | Ok v => Parsed v
  | Err _ =>
    (* 2) strip markdown code fences *)
    let cleaned := clean_fences raw in
    (* 3) LangChain markdown helper *)
    match LangChain.parse_json_markdown cleaned with
    | Ok v => Parsed v
    | Err _ =>
      (* 4) first JSON object/array substring *)
      let stage4 :=
        match first_json_span cleaned with
        | Some candidate =>
          match json_loads candidate with Ok v => Some v | Err _ => None end
        | None => None
        end in
      match stage4 with
      | Some v => Parsed v
      | None =>
        (* 5) raw json.loads *)
        match json_loads cleaned with
        | Ok v => Parsed v
        | Err e => MalformedResponse (firstn 800 cleaned) e
        end
      end
    end
  end.

(* ================================================================= *)
(** ** History schema (src/backend/config/history_schema.py) *)

(** [history_data_template(ticker)] *)
Definition history_data_template (ticker : text) : dict :=
  [ (u "ticker", JStr ticker);
    (u "company_name", JStr []);
    (u "currency", JStr []);
    (u "business_model", JObj []);
    (u "moat_analysis", JObj []);
    (u "radar_scores", JObj []);
    (u "north_star_metrics", JArr []);
    (u "analysis_normal", JObj []);
    (u "analysis_broken", JObj []);
    (u "master_views", JObj []);
    (u "valuation_type", JStr []);
    (u "valuation_params", JObj []);
    (u "valuation_explanation", JObj []);
    (u "react_summary", JStr []);
    (u "north_star_analysis", JStr []);
    (u "valuation_adjustment_reasoning", JStr []);
    (u "fair_value_range", JObj []);
    (u "valuation_verdict", JStr []);
    (u "margin_of_safety", JStr []);
    (u "verdict_reasoning", JStr []);
    (u "financial_snapshot", JObj []);
    (u "reasoning_trace", JStr []) ].

(** [ticker or ""] for [ticker : Optional[str]] *)
Definition hint_text (ticker : option text) : text :=
  match ticker with Some t => t | None => [] end.

Definition is_null (v : json) : bool := match v with JNull => true | _ => false end.

(** [for k in base.keys(): if k in data and data[k] is not None: base[k] = data[k]] *)
Definition copy_known_keys (data : dict) (base : dict) : dict :=
  fold_left
    (fun b k =>
       match dict_get k data with
       | Some x => if is_null x then b else dict_set k x b
       | None => b
       end)
    (map fst base) base.

(** [normalize_history_data(data, ticker=ticker)]; [data] is any value,
    only a [dict] contributes. *)
Definition normalize_history_data (data : json) (ticker : option text) : dict :=
  let base := history_data_template (hint_text ticker) in
  let base1 := match data with JObj d => copy_known_keys d base | _ => base end in
  let base2 :=
    if negb (is_nil (hint_text ticker)) then dict_set (u "ticker") (JStr (hint_text ticker)) base1
    else base1 in
  match data with
  | JObj d =>
    if negb (opt_truthy (dict_get (u "ticker") base2)) && opt_truthy (dict_get (u "ticker") d)
    then dict_set (u "ticker") (opt_json (dict_get (u "ticker") d)) base2
    else base2
  | _ => base2
  end.

(** Whether a parsing step raised. *)
Definition failed {A E} (r : result A E) : bool :=
  match r with Ok _ => false | Err _ => true end.

(** Whether [json.loads] raised [JSONDecodeError]. *)
Definition decode_failed {A} (r : result A loads_error) : bool :=
  match r with Err (DecodeError _ _) => true | _ => false end.

Definition schema_keys : list text := map fst (history_data_template []).

(* ================================================================= *)
(** ** The JSONL store (src/backend/utils/storage.py) *)

(** The backing file is its decoded text, [None] when it does not exist. *)
Definition file_state := option text.

(** Exceptions that escape the store's methods. *)
Inductive py_error : Type :=
| TypeError
| AttributeError
| UnicodeEncodeError
| JsonRaise (e : limit_error).

(** Universal newlines of text-mode reading: [\r\n] and [\r] become [\n]. *)
Fixpoint translate_newlines (s : text) : text :=
  match s with
  | [] => []
  | c :: r =>
    if (c =? 13)%Z then
      10%Z :: match r with
              | d :: r' => if (d =? 10)%Z then translate_newlines r' else translate_newlines r
              | [] => []
              end
    else c :: translate_newlines r
  end.

Fixpoint split_lines_aux (cur : text) (s : text) : list text :=
  match s with
  | [] => if is_nil cur then [] else [rev cur]
  | c :: r =>
    if (c =? 10)%Z then rev (c :: cur) :: split_lines_aux [] r
    else split_lines_aux (c :: cur) r
  end.

(** [for line in f]: the lines, each with its newline except maybe the last. *)
Definition read_lines (s : text) : list text := split_lines_aux [] (translate_newlines s).

(** [json.dumps(record, ensure_ascii=False) + "\n"] *)
Definition record_line (r : json) : text := dumps r ++ [10%Z].

(** UTF-8 can encode every code point but the surrogates. *)
Definition encodable (s : text) : bool :=
  forallb (fun c => negb ((55296 <=? c) && (c <=? 57343))%Z) s.

(** [{"timestamp": ..., "ticker": ..., "price": ..., "data": ...}] *)
Definition make_record (ts ticker : text) (price data : json) : json :=
  JObj [ (u "timestamp", JStr ts); (u "ticker", JStr ticker);
         (u "price", price); (u "data", data) ].

(** [timestamp or datetime.now().isoformat()], with [now] the clock reading. *)
Definition choose_timestamp (timestamp : option text) (now : text) : text :=
  match timestamp with
  | Some ts => if is_nil ts then now else ts
  | None => now
  end.

(** [Storage.save]: opening in append mode creates the file, then
    [json.dumps] runs, and the record line is written in one [write]
    call. *)
Definition save (file : file_state) (now ticker : text) (data price : json)
  (timestamp : option text) : result json py_error * file_state :=
  let record := make_record (choose_timestamp timestamp now) ticker price data in
  let old := match file with Some t => t | None => [] end in
  match dumps_raise recursion_room record with
  | Some e => (Err (JsonRaise e), Some old)
  | None =>
    if encodable (record_line record)
    then (Ok record, Some (old ++ record_line record))
    else (Err UnicodeEncodeError, Some old)
  end.

(** The body of [Storage.load]'s loop for a parsed line: the missing
    [price] is added, then [data.ticker] and [ticker] are filled from each
    other; anything but a dict raises. *)
Definition load_fixup (record : json) : result json py_error :=
  match record with
  | JObj kvs =>
    let kvs1 := if dict_has (u "price") kvs then kvs else dict_set (u "price") JNull kvs in
    match dict_get (u "data") kvs1 with
    | Some (JObj d) =>
      let d1 :=
        if negb (opt_truthy (dict_get (u "ticker") d)) && opt_truthy (dict_get (u "ticker") kvs1)
        then dict_set (u "ticker") (opt_json (dict_get (u "ticker") kvs1)) d else d in
      let kvs2 := dict_set (u "data") (JObj d1) kvs1 in
      if negb (opt_truthy (dict_get (u "ticker") kvs2)) && opt_truthy (dict_get (u "ticker") d1)
      then Ok (JObj (dict_set (u "ticker") (opt_json (dict_get (u "ticker") d1)) kvs2))
      else Ok (JObj kvs2)
    | _ => Ok (JObj kvs1)
    end
  | JArr xs =>
    (* ["price" not in record] is a membership test, [record["price"] = None]
       a TypeError; when present, [record.get] an AttributeError *)
    if existsb (fun x => match x with JStr s => text_eqb s (u "price") | _ => false end) xs
    then Err AttributeError else Err TypeError
  | JStr s =>
    if existsb (fun i => text_eqb (firstn 5 (skipn i s)) (u "price")) (seq 0 (length s))
    then Err AttributeError else Err TypeError
  | _ => Err TypeError
  end.

(** [if ticker_filter and record.get("ticker") != ticker_filter: continue] *)
Definition filtered_out (ticker_filter : option text) (record : json) : bool :=
  match ticker_filter, record with
  | Some t, JObj kvs => negb (is_nil t) && py_ne_str (dict_get (u "ticker") kvs) t
  | Some t, _ => negb (is_nil t)
  | None, _ => false
  end.

(** The loop of [Storage.load]; [acc] holds the kept records newest first,
    which is [results[::-1]]. Only [JSONDecodeError] is caught. *)
Fixpoint load_lines (ticker_filter : option text) (lines : list text) (acc : list json)
  : result (list json) py_error :=
  match lines with
  | [] => Ok acc
  | l :: ls =>
    if is_nil (py_strip l) then load_lines ticker_filter ls acc
    else
      match json_loads l with
      | Err (DecodeError _ _) => load_lines ticker_filter ls acc
      | Err (LoadsRaise e) => Err (JsonRaise e)
      | Ok r =>
        match load_fixup r with
        | Err e => Err e
        | Ok r' =>
          if filtered_out ticker_filter r' then load_lines ticker_filter ls acc
          else load_lines ticker_filter ls (r' :: acc)
        end
      end
  end.

(** [Storage.load(ticker_filter)] *)
Definition load (file : file_state) (ticker_filter : option text) : result (list json) py_error :=
  match file with
  | None => Ok []
  | Some s => load_lines ticker_filter (read_lines s) []
  end.

(** [Storage.get_latest(ticker)] *)
Definition get_latest (file : file_state) (ticker : option text) : result (option json) py_error :=
  match load file ticker with
  | Ok (r :: _) => Ok (Some r)
  | Ok [] => Ok None
  | Err e => Err e
  end.

(** The read loop of [Storage.save_and_replace]: parsed records whose
    [record.get("ticker")] differs from [ticker] are kept; [record.get] on
    anything but a dict raises, and only [JSONDecodeError] is caught. *)
Fixpoint replace_keep (ticker : text) (lines : list text) : result (list json) py_error :=
  match lines with
  | [] => Ok []
  | l :: ls =>
    if is_nil (py_strip l) then replace_keep ticker ls
    else
      match json_loads l with
      | Err (DecodeError _ _) => replace_keep ticker ls
      | Err (LoadsRaise e) => Err (JsonRaise e)
      | Ok (JObj kvs) =>
        if py_ne_str (dict_get (u "ticker") kvs) ticker then
          match replace_keep ticker ls with
          | Ok rs => Ok (JObj kvs :: rs)
          | Err e => Err e
          end
        else replace_keep ticker ls
      | Ok _ => Err AttributeError
      end
  end.

(** Writing the records one [json.dumps] and one [write] call each into
    the truncated file; a failing call leaves what was written before it. *)
Fixpoint write_records (written : text) (records : list json) : result unit py_error * text :=
  match records with
  | [] => (Ok tt, written)
  | r :: rs =>
    match dumps_raise recursion_room r with
    | Some e => (Err (JsonRaise e), written)
    | None =>
      if encodable (record_line r) then write_records (written ++ record_line r) rs
      else (Err UnicodeEncodeError, written)
    end
  end.

(** [Storage.save_and_replace] *)
Definition save_and_replace (file : file_state) (now ticker : text) (data price : json)
  (timestamp : option text) : result json py_error * file_state :=
  let kept := match file with None => Ok [] | Some s => replace_keep ticker (read_lines s) end in
  match kept with
  | Err e => (Err e, file)
  | Ok all_records =>
    let new_record := make_record (choose_timestamp timestamp now) ticker price data in
    match write_records [] (all_records ++ [new_record]) with
    | (Ok _, s) => (Ok new_record, Some s)
    | (Err e, s) => (Err e, Some s)
    end
  end.

(* ================================================================= *)
(** ** Model replies in [AIEngine] (src/backend/ai_engine.py) *)

(** The first [re.sub] of [_clean_json]: the pattern [^```(?:json)?\n]
    replaced by the empty string. Without [re.MULTILINE] the anchor [^]
    matches only at the start, and the optional group is tried first. *)
Definition sub_fence_open (s : text) : text :=
  match drop_prefix (u "```json" ++ [10%Z]) s with
  | Some r => r
  | None => match drop_prefix (u "```" ++ [10%Z]) s with Some r => r | None => s end
  end.

(** The second [re.sub]: the pattern [\n```$] replaced by the empty
    string; [$] matches at the end of the string or before a newline that
    ends it. *)
Definition sub_fence_close (s : text) : text :=
  match drop_prefix (rev (10%Z :: u "```")) (rev s) with
  | Some r => rev r
  | None =>
    match drop_prefix (rev (10%Z :: u "```" ++ [10%Z])) (rev s) with
    | Some r => rev (10%Z :: r)
    | None => s
    end
  end.

(** [AIEngine._clean_json] *)
Definition clean_json (content : text) : text :=
  let content := py_strip content in
  let content :=
    match drop_prefix (u "```") content with
    | Some _ => sub_fence_close (sub_fence_open content)
    | None => content
    end in
  py_strip content.

(** Exceptions that escape [AIEngine]'s methods: the [ValueError] raised
    for a [JSONDecodeError], an [AttributeError], and the exceptions of
    [json.loads] that pass through. *)
Inductive engine_error : Type :=
| ValueError
| EngineAttributeError
| EngineRaise (e : limit_error).

(** [json.loads(self._clean_json(response.content))] in [AIEngine.analyze],
    [challenge] and both steps of [react_earnings]; a [JSONDecodeError]
    becomes [ValueError], nothing else is caught. *)
Definition parse_reply (content : text) : result json engine_error :=
  match json_loads (clean_json content) with
  | Ok v => Ok v
  | Err (DecodeError _ _) => Err ValueError
  | Err (LoadsRaise e) => Err (EngineRaise e)
  end.

(** [d.get(k, default)] *)
Definition py_get (d : dict) (k : text) (default : json) : json :=
  match dict_get k d with Some x => x | None => default end.

(** [merged_result] of [AIEngine.react_earnings] *)
Definition react_merge (result_qual result_val : dict) : dict :=
  [ (u "react_summary", py_get result_qual (u "react_summary") (JStr []));
    (u "north_star_analysis", py_get result_qual (u "north_star_analysis") (JStr []));
    (u "new_radar_scores", py_get result_qual (u "new_radar_scores") (JObj []));
    (u "new_analysis_normal", py_get result_qual (u "new_analysis_normal") (JObj []));
    (u "master_views", py_get result_qual (u "master_views") (JObj []));
    (u "valuation_adjustment_reasoning", py_get result_qual (u "valuation_adjustment_reasoning") (JStr []));
    (u "valuation_type", py_get result_val (u "valuation_type") (JStr []));
    (u "valuation_params", py_get result_val (u "valuation_params") (JObj []));
    (u "valuation_explanation", py_get result_val (u "valuation_explanation") (JObj []));
    (u "fair_value_range", py_get result_val (u "fair_value_range") (JObj []));
    (u "valuation_verdict", py_get result_val (u "valuation_verdict") (JStr (u "HOLD")));
    (u "margin_of_safety", py_get result_val (u "margin_of_safety") (JStr []));
    (u "verdict_reasoning", py_get result_val (u "verdict_reasoning") (JStr [])) ].

(** [AIEngine.react_earnings] with [reply_qual] and [reply_val] the model's
    answers to the two prompts: building the first prompt calls [.items()]
    or [.get] on [financial_snapshot["metrics"]], [old_context["radar_scores"]]
    and [old_context["analysis_normal"]] (each [{}] when missing), building
    the second calls [.get] on the first parsed answer, the merge on the
    second; on anything but a dict these raise [AttributeError]. *)
Definition engine_react_earnings (old_context financial_snapshot : dict) (reply_qual reply_val : text)
  : result dict engine_error :=
  let metrics := py_get financial_snapshot (u "metrics") (JObj []) in
  let old_radar := py_get old_context (u "radar_scores") (JObj []) in
  let analysis_normal := py_get old_context (u "analysis_normal") (JObj []) in
  match metrics, old_radar, analysis_normal with
  | JObj _, JObj _, JObj _ =>
    match parse_reply reply_qual with
    | Err e => Err e
    | Ok (JObj q) =>
      match parse_reply reply_val with
      | Err e => Err e
      | Ok (JObj v) => Ok (react_merge q v)
      | Ok _ => Err EngineAttributeError
      end
    | Ok _ => Err EngineAttributeError
    end
  | _, _, _ => Err EngineAttributeError
  end.

(* ================================================================= *)
(** ** Routes (src/backend/server.py) *)

(** [d.update(other)] for a dict [other]: its items set in order. *)
Definition dict_update (d other : dict) : dict :=
  fold_left (fun acc kv => dict_set (fst kv) (snd kv) acc) other d.

(** What a route answers: a JSON body, or the status of an [HTTPException]
    (500 for an exception FastAPI does not expect). *)
Inductive http_response : Type :=
| HttpOk (body : json)
| HttpError (status : Z).

(** [data = latest.get("data", {})] followed by
    [if not isinstance(data, dict): data = {}] *)
Definition stored_data (latest : dict) : dict :=
  match dict_get (u "data") latest with Some (JObj d) => d | _ => [] end.

(** [{"status": "updated", "data": saved.get("data")}] *)
Definition updated_body (saved : json) : json :=
  JObj [(u "status", JStr (u "updated"));
        (u "data", match saved with JObj s => opt_json (dict_get (u "data") s) | _ => JNull end)].

(** [update_metrics] ([POST /api/update-metrics]); [now] is the clock
    reading [save_and_replace] takes for the timestamp. Exceptions other
    than [HTTPException] become 500. *)
Definition update_metrics (file : file_state) (now ticker : text) (north_star_metrics : list json)
  : http_response * file_state :=
  match get_latest file (Some ticker) with
  | Err _ => (HttpError 500, file)
  | Ok None => (HttpError 404, file)
  | Ok (Some latest) =>
    if negb (truthy latest) then (HttpError 404, file) else
    match latest with
    | JObj kvs =>
      let data := dict_set (u "north_star_metrics") (JArr north_star_metrics) (stored_data kvs) in
      let data := normalize_history_data (JObj data) (Some ticker) in
      match save_and_replace file now ticker (JObj data) (opt_json (dict_get (u "price") kvs)) None with
      | (Ok saved, file') => (HttpOk (updated_body saved), file')
      | (Err _, file') => (HttpError 500, file')
      end
    | _ => (HttpError 500, file)
    end
  end.

(** [update_header] ([POST /api/update-header]), [price] being [JNull]
    for a missing [req.price]. A missing [financial_snapshot] is set to
    [{}] and then updated in place, so it ends up last; [.update] on
    anything but a dict raises [AttributeError], which becomes 500. *)
Definition update_header (file : file_state) (now ticker : text) (price : json) (financial_snapshot : dict)
  : http_response * file_state :=
  match get_latest file (Some ticker) with
  | Err _ => (HttpError 500, file)
  | Ok None => (HttpError 404, file)
  | Ok (Some latest) =>
    if negb (truthy latest) then (HttpError 404, file) else
    match latest with
    | JObj kvs =>
      let data := stored_data kvs in
      let snapshot :=
        match dict_get (u "financial_snapshot") data with
        | None => Some []
        | Some (JObj o) => Some o
        | Some _ => None
        end in
      match snapshot with
      | None => (HttpError 500, file)
      | Some o =>
        let data := dict_set (u "financial_snapshot") (JObj (dict_update o financial_snapshot)) data in
        let data := normalize_history_data (JObj data) (Some ticker) in
        let price := if is_null price then opt_json (dict_get (u "price") kvs) else price in
        match save_and_replace file now ticker (JObj data) price None with
        | (Ok saved, file') => (HttpOk (updated_body saved), file')
        | (Err _, file') => (HttpError 500, file')
        end
      end
    | _ => (HttpError 500, file)
    end
  end.

(** [save_history] ([POST /api/save]); [None] when the ticker is not a
    [str] or the timestamp a truthy non-[str], which the model leaves out. *)
Definition api_save (file : file_state) (now : text) (item : dict) : option (http_response * file_state) :=
  let ticker :=
    match dict_get (u "ticker") item with
    | None => Some (u "UNKNOWN")
    | Some (JStr t) => Some t
    | Some _ => None
    end in
  let timestamp :=
    match dict_get (u "timestamp") item with
    | None => Some None
    | Some (JStr ts) => Some (Some ts)
    | Some v => if truthy v then None else Some None
    end in
  let data := match dict_get (u "data") item with Some d => d | None => JObj [] end in
  match ticker, timestamp with
  | Some t, Some ts =>
    let data := match data with JObj d => JObj (normalize_history_data (JObj d) (Some t)) | _ => data end in
    match save file now t data (opt_json (dict_get (u "price") item)) ts with
    | (Ok _, file') => Some (HttpOk (JObj [(u "status", JStr (u "saved"))]), file')
    | (Err _, file') => Some (HttpError 500, file')
    end
  | _, _ => None
  end.

(** [analyze] ([POST /api/analyze]) with [reply] the model's answer and
    [env_ok] whether [OPENAI_API_KEY] is set; the [HTTPException] of
    [get_env_config] is caught by [except Exception] and becomes 502 too. *)
Definition api_analyze (file : file_state) (env_ok : bool) (now ticker : text) (price : json) (reply : text)
  : http_response * file_state :=
  if negb env_ok then (HttpError 502, file) else
  match parse_reply reply with
  | Err _ => (HttpError 502, file)
  | Ok result =>
    match save_and_replace file now ticker result price None with
    | (Ok _, file') => (HttpOk result, file')
    | (Err _, file') => (HttpError 502, file')
    end
  end.

(** The parameters of [AIEngine.react_earnings] after [self], each with
    whether it has a default. *)
Definition react_earnings_params : list (text * bool) :=
  [ (u "api_key", false); (u "base_url", false); (u "model_name", false);
    (u "old_context", false); (u "financial_snapshot", false); (u "north_star_metrics", true) ].

(** Binding a call made with keyword arguments only: an unknown keyword, or
    a parameter without default left unbound, raises [TypeError]. *)
Definition binds_kwargs (params : list (text * bool)) (kws : list text) : bool :=
  forallb (fun k => existsb (fun p => text_eqb (fst p) k) params) kws &&
  forallb (fun p => snd p || existsb (text_eqb (fst p)) kws) params.

(** The keywords of the call in [react_earnings] ([POST /api/react]). *)
Definition api_react_call_keywords : list text :=
  [ u "api_key"; u "base_url"; u "model_name"; u "context"; u "financial_snapshot";
    u "north_star_metrics" ].

(** [react_earnings] ([POST /api/react]); [None] when the ticker it would
    save under is not a [str], which the model leaves out. Every exception,
    the [HTTPException] of [get_env_config] included, becomes 500. *)
Definition api_react (file : file_state) (env_ok : bool) (now : text) (old_context financial_snapshot : dict)
  (price : json) (reply_qual reply_val : text) : option (http_response * file_state) :=
  if negb env_ok then Some (HttpError 500, file) else
  if negb (binds_kwargs react_earnings_params api_react_call_keywords) then Some (HttpError 500, file) else
  match engine_react_earnings old_context financial_snapshot reply_qual reply_val with
  | Err _ => Some (HttpError 500, file)
  | Ok result =>
    let ticker :=
      if opt_truthy (dict_get (u "ticker") result) then opt_json (dict_get (u "ticker") result)
      else py_get old_context (u "ticker") (JStr (u "UNKNOWN")) in
    match ticker with
    | JStr t =>
      match save_and_replace file now t (JObj result) price None with
      | (Ok _, file') => Some (HttpOk (JObj result), file')
      | (Err _, file') => Some (HttpError 500, file')
      end
    | _ => None
    end
  end.

(* ================================================================= *)
(** ** Predicates and auxiliary functions used by the proofs *)

(** The value [normalize_history_data] copies for a template key: the
    input's value when present and not [None], else the default. *)
Definition pick (d : dict) (k : text) (dv : json) : json :=
  match dict_get k d with
  | Some x => if is_null x then dv else x
  | None => dv
  end.

Definition pick_kv (d : dict) (kv : text * json) : text * json :=
  (fst kv, pick d (fst kv) (snd kv)).

(** No key occurs twice. *)
Fixpoint keys_distinct (ks : list text) : bool :=
  match ks with
  | [] => true
  | k :: ks' => negb (existsb (text_eqb k) ks') && keys_distinct ks'
  end.

(** The result of [normalize_history_data] key by key, in template order. *)
Definition normalize_expected (data : json) (ticker : option text) : dict :=
  map (fun kv =>
         (fst kv,
          if text_eqb (fst kv) (u "ticker") && negb (is_nil (hint_text ticker))
          then JStr (hint_text ticker)
          else match data with JObj d => pick d (fst kv) (snd kv) | _ => snd kv end))
      (history_data_template []).

(** Text that is empty or ends in a newline: appending to it starts a new line. *)
Definition ends_line (a : text) : Prop := a = [] \/ exists a', a = a' ++ [10%Z].

(** Text without [\n] or [\r], which universal newlines would split. *)
Definition no_newline (b : text) : bool :=
  forallb (fun c => negb ((c =? 10)%Z || (c =? 13)%Z)) b.

(** The shape of the values [json.loads] can return: code points in
    range, float literals as the number grammar has them, objects without
    repeated keys. *)
Definition wf_char (c : Z) : bool := ((0 <=? c) && (c <=? 1114111))%Z.
Definition wf_text (s : text) : bool := forallb wf_char s.

Definition wf_exponent (ex : text) : bool :=
  match ex with
  | [] => true
  | e :: r =>
    ((e =? 101)%Z || (e =? 69)%Z) &&
    match r with
    | c :: ds =>
      if (c =? 43)%Z || (c =? 45)%Z then negb (is_nil ds) && forallb is_digit ds
      else forallb is_digit r
    | [] => false
    end
  end.

Definition wf_ipart (ip : text) : bool :=
  match ip with
  | [c] => is_digit c
  | c :: ds => ((49 <=? c) && (c <=? 57))%Z && forallb is_digit ds
  | [] => false
  end.

Definition wf_float (f : pyfloat) : bool :=
  match f with
  | FLit _ ip fr ex =>
    wf_ipart ip && forallb is_digit fr && wf_exponent ex && negb (is_nil fr && is_nil ex)
  | _ => true
  end.

Fixpoint wf_value (v : json) : bool :=
  match v with
  | JFloat f => wf_float f
  | JStr s => wf_text s
  | JArr xs =>
    (fix all (xs : list json) : bool :=
       match xs with [] => true | x :: xs' => wf_value x && all xs' end) xs
  | JObj kvs =>
    keys_distinct (map fst kvs) &&
    (fix all (kvs : list (text * json)) : bool :=
       match kvs with [] => true | (k, x) :: kvs' => wf_text k && wf_value x && all kvs' end) kvs
  | _ => true
  end.

(** [json.dumps] returns on [v]: it raises neither [RecursionError] nor
    [ValueError]. *)
Definition dumps_ok (v : json) : bool :=
  match dumps_raise recursion_room v with None => true | Some _ => false end.

(** Values [json.loads] can return and [json.dumps] writes back: the shape
    above, within the interpreter's limits. *)
Definition wf_json (v : json) : bool := wf_value v && dumps_ok v.

(** The separators-and-items part of [dumps] on arrays and objects. *)
Fixpoint dumps_items (xs : list json) : text :=
  match xs with
  | [] => []
  | x :: xs' => dumps x ++ (if is_nil xs' then [] else [44; 32]%Z) ++ dumps_items xs'
  end.

Fixpoint dumps_members (kvs : list (text * json)) : text :=
  match kvs with
  | [] => []
  | (k, x) :: kvs' =>
    dumps_str k ++ [58; 32]%Z ++ dumps x ++ (if is_nil kvs' then [] else [44; 32]%Z)
    ++ dumps_members kvs'
  end.

(** The characters a JSON value can start with: a quote, a brace, a
    bracket, the first letters of the constants, a minus sign, a digit. *)
Definition value_start (c : Z) : bool :=
  (c =? 34)%Z || (c =? 123)%Z || (c =? 91)%Z || (c =? 110)%Z || (c =? 116)%Z
  || (c =? 102)%Z || (c =? 78)%Z || (c =? 73)%Z || (c =? 45)%Z || is_digit c.

(** A character that cannot continue a number literal (or the end). *)
Definition number_stop (s : text) : bool :=
  match s with
  | [] => true
  | c :: _ => negb (is_digit c || (c =? 46)%Z || (c =? 101)%Z || (c =? 69)%Z)
  end.

(** Induction on [json] through the nested lists. *)
Section json_rect.
Variable P : json -> Prop.
Hypothesis HNull : P JNull.
Hypothesis HBool : forall b, P (JBool b).
Hypothesis HInt : forall z, P (JInt z).
Hypothesis HFloat : forall f, P (JFloat f).
Hypothesis HStr : forall s, P (JStr s).
Hypothesis HArr : forall xs, Forall P xs -> P (JArr xs).
Hypothesis HObj : forall kvs, Forall (fun kv => P (snd kv)) kvs -> P (JObj kvs).

Fixpoint json_ind' (v : json) : P v :=
  match v with
  | JNull => HNull
  | JBool b => HBool b
  | JInt z => HInt z
  | JFloat f => HFloat f
  | JStr s => HStr s
  | JArr xs =>
    HArr xs ((fix go (xs : list json) : Forall P xs :=
                match xs with
                | [] => Forall_nil _
                | x :: xs' => Forall_cons x (json_ind' x) (go xs')
                end) xs)
  | JObj kvs =>
    HObj kvs ((fix go (kvs : list (text * json)) : Forall (fun kv => P (snd kv)) kvs :=
                 match kvs with
                 | [] => Forall_nil _
                 | (k, x) :: kvs' => Forall_cons (k, x) (json_ind' x) (go kvs')
                 end) kvs)
  end.
End json_rect.

(** The text of the backing file, empty when it does not exist. *)
Definition file_text (file : file_state) : text := match file with Some t => t | None => [] end.
(** A record as [Storage.load] returns it after its compatibility fix-ups. *)
Definition loaded_form (r : json) : json := match load_fixup r with Ok r' => r' | Err _ => r end.
(** Every code point is above [\r] (13). *)
Definition above_cr (s : text) : bool := forallb (fun c => (14 <=? c)%Z) s.

(** A log whose last line lacks its newline. *)
Definition old_no_newline : text := uq "{'ticker': 'u', 'data': {}}".

(** Older lines whose ticker is only in [data.ticker]. *)
Definition legacy_line_empty_ticker : text :=
  uq "{'timestamp': '2024-01-01T00:00:00', 'ticker': '', 'price': null, 'data': {'ticker': 'AAPL'}}" ++ [10%Z].
Definition legacy_line_no_ticker : text := uq "{'data': {'ticker': 'AAPL'}}" ++ [10%Z].

(** Every line of the log that parses holds a value [json.dumps] writes
    back and UTF-8 can encode. *)
Definition well_stored (file : file_state) : Prop :=
  forall l r, In l (read_lines (file_text file)) -> json_loads l = Ok r ->
  wf_json r = true /\ encodable (record_line r) = true.

(** Every line of the log that parses holds a dict with a truthy
    [ticker], as [Storage.save] and [Storage.save_and_replace] write them,
    which [json.dumps] writes back and UTF-8 can encode; and no line makes
    [json.loads] raise anything but [JSONDecodeError]. *)
Definition tickered_store (file : file_state) : Prop :=
  forall l, In l (read_lines (file_text file)) ->
  match json_loads l with
  | Ok r => exists kvs, r = JObj kvs /\ opt_truthy (dict_get (u "ticker") kvs) = true /\
                        wf_json r = true /\ encodable (record_line r) = true
  | Err (DecodeError _ _) => True
  | Err (LoadsRaise _) => False
  end.

End Program.

(** The figures the evaluations below use: the default
    [sys.getrecursionlimit()] of 1000, counted from an almost empty stack,
    and the default 4300 digits. CPython versions count the C calls of
    [json] against different limits (3.12 and later against a separate C
    recursion limit), so the inputs that must raise [RecursionError] on
    every version are nested 100000 deep. *)
#[export] Instance cpython_defaults : PyLimits := {|
  recursion_room := 1000;
  int_max_str_digits := 4300
|}.

Ltac text_ne := let H := fresh in intro H; vm_compute in H; discriminate H.

(** Checks [well_stored] on a concrete log, line by line. *)
Ltac store_lines_check :=
  let l := fresh "l" in let r := fresh "r" in let Hin := fresh "Hin" in let Hj := fresh "Hj" in
  intros l r Hin Hj; vm_compute in Hin;
  repeat (destruct Hin as [Hin|Hin]; [subst l; vm_compute in Hj; injection Hj as <-|]);
  try destruct Hin.

(** Checks [tickered_store] on a concrete log, line by line. *)
Ltac tickered_lines_check :=
  let l := fresh "l" in let Hin := fresh "Hin" in
  intros l Hin; vm_compute in Hin;
  repeat (destruct Hin as [Hin|Hin];
          [subst l; vm_compute;
           first [exact I | eexists; split; [reflexivity | vm_compute; repeat split]] |]);
  try destruct Hin.

(** Characters the walk of [parse_partial_json] copies as they are outside
    strings: anything but a quote or a bracket. *)
Definition walk_plain (c : Z) : bool :=
  negb ((c =? 34)%Z || (c =? 123)%Z || (c =? 91)%Z || (c =? 125)%Z || (c =? 93)%Z).

(** Normal form of the reversed one-character pieces of a text. *)
Ltac pieces_norm :=
  repeat progress (cbn [map rev app]; rewrite ?map_app, ?rev_app_distr);
  rewrite <- ?app_assoc; cbn [app].

Section Proofs.
Context `{LIM : PyLimits}.

(* ================================================================= *)
(** ** [parse_llm_json] *)

(** *** The first character the scanner sees *)
Lemma scan_value_unfold (strict : bool) (room : nat) (s : text) :
  scan_value strict room s =
  match s with
  | [] => DecodeFail "Expecting value" 0
  | c :: r =>
    if (c =? 34)%Z then
      match scan_chars strict (length s) [] r with
      | Decoded str r' => Decoded (JStr str) r'
      | DecodeFail m p => DecodeFail m p
      | DecodeRaise e => DecodeRaise e
      end
    else if (c =? 123)%Z then
      match room with
      | O => DecodeRaise RecursionError
      | S room' => scan_object strict (scan_value strict room') r
      end
    else if (c =? 91)%Z then
      match room with
      | O => DecodeRaise RecursionError
      | S room' => scan_array (scan_value strict room') r
      end
    else
      match scan_constant s with
      | Some (v, r') => Decoded v r'
      | None =>
        match scan_number s with
        | Some d => d
        | None => DecodeFail "Expecting value" (length s)
        end
      end
  end.
Proof. destruct room; reflexivity. Qed.

Lemma value_start_false (c : Z) :
  value_start c = false ->
  (c <> 34 /\ c <> 123 /\ c <> 91 /\ c <> 110 /\ c <> 116 /\ c <> 102 /\ c <> 78 /\ c <> 73 /\ c <> 45
   /\ (c < 48 \/ 57 < c))%Z.
Proof.
  unfold value_start, is_digit. intros H.
  repeat rewrite orb_false_iff in H. rewrite andb_false_iff, !Z.leb_gt, !Z.eqb_neq in H.
  intuition lia.
Qed.

Lemma drop_prefix_cons_ne (k : Z) (ks : text) (c : Z) (r : text) :
  k <> c -> drop_prefix (k :: ks) (c :: r) = None.
Proof. intros H. simpl. rewrite (proj2 (Z.eqb_neq k c) H). reflexivity. Qed.

(** A text starting with anything else is no JSON value, whatever the room. *)
Lemma scan_value_no_start (strict : bool) (room : nat) (c : Z) (r : text) :
  value_start c = false ->
  scan_value strict room (c :: r) = DecodeFail "Expecting value" (length (c :: r)).
Proof.
  intros H. apply value_start_false in H.
  destruct H as (H34 & H123 & H91 & H110 & H116 & H102 & H78 & H73 & H45 & Hd).
  rewrite scan_value_unfold.
  rewrite (proj2 (Z.eqb_neq c 34) H34), (proj2 (Z.eqb_neq c 123) H123), (proj2 (Z.eqb_neq c 91) H91).
  unfold scan_constant, scan_number.
  change (u "null") with (110 :: [117; 108; 108])%Z.
  change (u "true") with (116 :: [114; 117; 101])%Z.
  change (u "false") with (102 :: [97; 108; 115; 101])%Z.
  change (u "NaN") with (78 :: [97; 78])%Z.
  change (u "Infinity") with (73 :: [110; 102; 105; 110; 105; 116; 121])%Z.
  change (u "-Infinity") with (45 :: [73; 110; 102; 105; 110; 105; 116; 121])%Z.
  rewrite !drop_prefix_cons_ne by congruence.
  rewrite (proj2 (Z.eqb_neq c 45) H45).
  replace ((49 <=? c)%Z && (c <=? 57)%Z) with false
    by (symmetry; apply andb_false_iff; destruct Hd; [left|right]; apply Z.leb_gt; lia).
  replace (c =? 48)%Z with false by (symmetry; apply Z.eqb_neq; lia).
  reflexivity.
Qed.

Lemma py_isspace_no_start (c : Z) : py_isspace c = true -> value_start c = false.
Proof.
  unfold py_isspace, value_start, is_digit. intros H.
  repeat rewrite orb_true_iff in H. rewrite !andb_true_iff, !Z.leb_le, !Z.eqb_eq in H.
  repeat rewrite orb_false_iff. rewrite andb_false_iff, !Z.leb_gt, !Z.eqb_neq.
  intuition lia.
Qed.

Lemma forallb_skip_ws (p : Z -> bool) (s : text) : forallb p s = true -> forallb p (skip_ws s) = true.
Proof.
  induction s as [|c s IH]; simpl; [reflexivity|].
  rewrite andb_true_iff. intros [Hc Hs]. destruct (json_ws c); [apply IH, Hs|].
  simpl. rewrite Hc, Hs. reflexivity.
Qed.

(** [json.loads] of a blank text raises [JSONDecodeError]. *)
Lemma json_loads_blank (strict : bool) (s : text) :
  forallb py_isspace s = true -> decode_failed (json_loads_with strict s) = true.
Proof.
  intros H.
  assert (Hgo : forall s0, decode_failed
    (let s1 := skip_ws s0 in
     match scan_value strict recursion_room s1 with
     | DecodeFail m rest => Err (DecodeError m (length s0 - rest))
     | DecodeRaise e => Err (LoadsRaise e)
     | Decoded v r =>
       match skip_ws r with
       | [] => Ok v
       | r' => Err (DecodeError "Extra data" (length s0 - length r'))
       end
     end) = true -> decode_failed (json_loads_with strict s0) = true).
  { intros s0 G. unfold json_loads_with. destruct s0 as [|c0 r0]; [exact G|].
    destruct (c0 =? 65279)%Z; [reflexivity|exact G]. }
  apply Hgo. cbn zeta. apply forallb_skip_ws in H.
  destruct (skip_ws s) as [|c r] eqn:E; [rewrite scan_value_unfold; reflexivity|].
  simpl in H. apply andb_true_iff in H as [Hc _].
  rewrite scan_value_no_start by (apply py_isspace_no_start; exact Hc). reflexivity.
Qed.

Lemma lstrip_by_forallb (p : Z -> bool) (s : text) : lstrip_by p s = [] -> forallb p s = true.
Proof.
  induction s as [|c s IH]; simpl; [reflexivity|].
  destruct (p c) eqn:E; [intros H; rewrite IH by exact H; reflexivity|discriminate].
Qed.

Lemma forallb_py_strip_nil (s : text) : is_nil (py_strip s) = true -> forallb py_isspace s = true.
Proof.
  unfold py_strip, strip_by, rstrip_by. intros H.
  apply lstrip_by_forallb.
  destruct (lstrip_by py_isspace s) as [|c r] eqn:E; [reflexivity|exfalso].
  assert (Hc : py_isspace c = false).
  { clear H. revert c r E. induction s as [|x s IH]; simpl; intros c r E; [discriminate|].
    destruct (py_isspace x) eqn:Ex; [exact (IH c r E)|]. injection E as -> ->. exact Ex. }
  assert (Hne : forall x, lstrip_by py_isspace (x ++ [c]) <> []).
  { induction x as [|y x IHx]; simpl; [rewrite Hc; discriminate|].
    destruct (py_isspace y); [exact IHx|discriminate]. }
  cbn [rev] in H. destruct (lstrip_by py_isspace (rev r ++ [c])) as [|z l] eqn:F; [exact (Hne _ F)|].
  cbn [rev] in H. destruct (rev l ++ [z]) eqn:G; [|discriminate H].
  apply app_eq_nil in G as [_ G]. discriminate.
Qed.

(** C8: when all five stages fail, [parse_llm_json] raises the
    MalformedResponse error, carrying the first 800 characters of the
    cleaned text and the exception of the last stage. *)
Theorem parse_llm_json_all_stages_fail (txt : text) (e : loads_error) :
  failed (LangChain.output_parser_parse (py_strip txt)) = true ->
  failed (LangChain.parse_json_markdown (clean_fences (py_strip txt))) = true ->
  match first_json_span (clean_fences (py_strip txt)) with
  | Some cand => failed (json_loads cand)
  | None => true
  end = true ->
  json_loads (clean_fences (py_strip txt)) = Err e ->
  parse_llm_json txt = MalformedResponse (firstn 800 (clean_fences (py_strip txt))) e.
Proof.
  intros H1 H2 H3 H4. unfold parse_llm_json.
  destruct (LangChain.output_parser_parse (py_strip txt)); [discriminate|].
  destruct (LangChain.parse_json_markdown (clean_fences (py_strip txt))); [discriminate|].
  destruct (first_json_span (clean_fences (py_strip txt))) as [cand|].
  - destruct (json_loads cand); [discriminate|]. rewrite H4. reflexivity.
  - rewrite H4. reflexivity.
Qed.

(* ================================================================= *)
(** ** Lemmas about the embedding *)

(** *** Dictionaries and [normalize_history_data] *)
Lemma text_eqb_eq (a b : text) : text_eqb a b = true <-> a = b.
Proof.
  revert b; induction a as [|x a IH]; intros [|y b]; simpl; try (split; congruence).
  rewrite andb_true_iff, Z.eqb_eq, IH. split; [intros [-> ->]; reflexivity | intros H; injection H; auto].
Qed.

Lemma text_eqb_refl (a : text) : text_eqb a a = true.
Proof. apply text_eqb_eq; reflexivity. Qed.

Lemma text_eqb_neq (a b : text) : a <> b -> text_eqb a b = false.
Proof. intros H. destruct (text_eqb a b) eqn:E; [apply text_eqb_eq in E; contradiction|reflexivity]. Qed.

Lemma dict_set_app (k : text) (x : json) (l1 l2 : dict) (v : json) :
  ~ In k (map fst l1) -> dict_set k x (l1 ++ (k, v) :: l2) = l1 ++ (k, x) :: l2.
Proof.
  induction l1 as [|[k' v'] l1 IH]; simpl; intros H.
  - rewrite text_eqb_refl. reflexivity.
  - rewrite text_eqb_neq by (intros ->; apply H; left; reflexivity).
    rewrite IH by tauto. reflexivity.
Qed.

Lemma copy_known_keys_eq (d base : dict) :
  NoDup (map fst base) -> copy_known_keys d base = map (pick_kv d) base.
Proof.
  unfold copy_known_keys. intros Hnd.
  assert (G : forall pre post, NoDup (map fst (pre ++ post)) ->
    fold_left (fun b k => match dict_get k d with
                          | Some x => if is_null x then b else dict_set k x b
                          | None => b end)
      (map fst post) (map (pick_kv d) pre ++ post) = map (pick_kv d) (pre ++ post)).
  { intros pre post. revert pre. induction post as [|[k dv] post IH]; intros pre H.
    - simpl. rewrite !app_nil_r. reflexivity.
    - cbn [map fst fold_left].
      assert (Hk : ~ In k (map fst (map (pick_kv d) pre))).
      { rewrite map_map. simpl. rewrite map_app in H. simpl in H.
        apply NoDup_remove_2 in H. intros Hin. apply H. apply in_or_app. left.
        replace (map (fun x => fst x) pre) with (map fst pre) in Hin by reflexivity. exact Hin. }
      assert (Ep : pick_kv d (k, dv) =
        (k, match dict_get k d with Some x => if is_null x then dv else x | None => dv end))
        by reflexivity.
      destruct (dict_get k d) as [x|] eqn:Hd; [destruct (is_null x) eqn:Ex|];
        [|rewrite dict_set_app by exact Hk|];
        match goal with |- fold_left _ _ ?b = _ =>
          replace b with (map (pick_kv d) (pre ++ [(k, dv)]) ++ post) end;
        solve [rewrite IH; rewrite <- app_assoc; [reflexivity | exact H]
              | rewrite map_app, <- app_assoc; simpl; rewrite Ep; reflexivity]. }
  apply (G [] base). exact Hnd.
Qed.

Lemma keys_distinct_NoDup (ks : list text) : keys_distinct ks = true -> NoDup ks.
Proof.
  induction ks as [|k ks IH]; simpl; intros H; constructor.
  - apply andb_true_iff in H as [H _]. intros Hin. apply negb_true_iff in H.
    assert (existsb (text_eqb k) ks = true) by (apply existsb_exists; exists k; split; [exact Hin|apply text_eqb_refl]).
    congruence.
  - apply IH. apply andb_true_iff in H as [_ H]. exact H.
Qed.

Lemma template_keys (h : text) : map fst (history_data_template h) = schema_keys.
Proof. reflexivity. Qed.

Lemma template_NoDup (h : text) : NoDup (map fst (history_data_template h)).
Proof. rewrite template_keys. apply keys_distinct_NoDup. vm_compute. reflexivity. Qed.

Lemma normalize_history_data_eq (data : json) (ticker : option text) :
  normalize_history_data data ticker = normalize_expected data ticker.
Proof.
  unfold normalize_history_data, normalize_expected.
  destruct data as [| | | | | |d]; try (destruct (hint_text ticker) as [|c cs]; reflexivity).
  rewrite copy_known_keys_eq by apply template_NoDup.
  destruct (hint_text ticker) as [|c cs].
  - simpl. unfold pick at 1. simpl.
    destruct (dict_get (u "ticker") d) as [x|]; [|reflexivity].
    destruct x as [|b|z|f|s|xs|kvs]; simpl; try reflexivity;
      [destruct b | destruct (z =? 0)%Z | destruct (float_is_zero f)
      | destruct s | destruct xs | destruct kvs]; reflexivity.
  - reflexivity.
Qed.

Lemma dict_get_In (k : text) (v : json) (l : dict) :
  NoDup (map fst l) -> In (k, v) l -> dict_get k l = Some v.
Proof.
  induction l as [|[k' v'] l IH]; simpl; intros Hnd Hin; [contradiction|].
  inversion Hnd as [|? ? Hn Hnd']; subst.
  destruct Hin as [E|Hin].
  - injection E as -> ->. rewrite text_eqb_refl. reflexivity.
  - rewrite text_eqb_neq; [apply IH; assumption|].
    intros ->. apply Hn. apply (in_map fst _ _ Hin).
Qed.

Lemma dict_get_notin (k : text) (l : dict) : ~ In k (map fst l) -> dict_get k l = None.
Proof.
  induction l as [|[k' v'] l IH]; simpl; intros H; [reflexivity|].
  rewrite text_eqb_neq by (intros ->; apply H; left; reflexivity). apply IH. tauto.
Qed.

Lemma normalize_expected_keys (data : json) (ticker : option text) :
  map fst (normalize_expected data ticker) = schema_keys.
Proof. unfold normalize_expected. rewrite map_map. reflexivity. Qed.

Lemma template_not_null (k : text) (dv : json) :
  In (k, dv) (history_data_template []) -> is_null dv = false.
Proof. simpl. intros H. repeat (destruct H as [H|H]; [injection H as _ <-; reflexivity|]). contradiction. Qed.

Lemma pick_not_null (d : dict) (k : text) (dv : json) :
  is_null dv = false -> is_null (pick d k dv) = false.
Proof. unfold pick. destruct (dict_get k d) as [x|]; [destruct (is_null x) eqn:E|]; auto. Qed.

(** C4: [normalize_history_data] is idempotent: normalising its own output
    again, with the same ticker hint, gives the same dictionary.  (It is a
    Rocq function, so it is pure by construction.) *)
Lemma normalize_idem (m : json) (h : option text) :
  normalize_history_data (JObj (normalize_history_data m h)) h = normalize_history_data m h.
Proof.
  rewrite !normalize_history_data_eq.
  unfold normalize_expected at 1. apply map_ext_in. intros [k dv] Hin. simpl. f_equal.
  destruct (text_eqb k (u "ticker") && negb (is_nil (hint_text h))) eqn:E; [reflexivity|].
  unfold pick at 1.
  erewrite dict_get_In.
  2: { rewrite normalize_expected_keys. rewrite <- (template_keys []). apply template_NoDup. }
  2: { unfold normalize_expected. exact (in_map _ _ _ Hin). }
  simpl. rewrite E.
  assert (Hn : is_null (match m with JObj d => pick d k dv | _ => dv end) = false).
  { destruct m; try apply pick_not_null; eapply template_not_null; exact Hin. }
  rewrite Hn. reflexivity.
Qed.

(** C3 (as amended): the keys of [normalize_history_data data ticker] are
    the template's, in its order; the [ticker] key holds the non-empty hint
    when there is one; in every other case a template key holds the
    input's value for it when the input is a dict holding a non-[None] value
    there (the value itself, not a copy of its contents), else the default;
    no other key is present. *)
Theorem normalize_history_data_fields (data : json) (ticker : option text) :
  map fst (normalize_history_data data ticker) = schema_keys /\
  (forall k dv, In (k, dv) (history_data_template []) ->
     dict_get k (normalize_history_data data ticker)
     = Some (if text_eqb k (u "ticker") && negb (is_nil (hint_text ticker))
             then JStr (hint_text ticker)
             else match data with
                  | JObj d => match dict_get k d with
                              | Some x => if is_null x then dv else x
                              | None => dv
                              end
                  | _ => dv
                  end)) /\
  (forall k, ~ In k schema_keys -> dict_get k (normalize_history_data data ticker) = None).
Proof.
  rewrite normalize_history_data_eq. split; [|split].
  - apply normalize_expected_keys.
  - intros k dv Hin. apply dict_get_In.
    + rewrite normalize_expected_keys, <- (template_keys []). apply template_NoDup.
    + unfold normalize_expected. exact (in_map _ _ _ Hin).
  - intros k Hk. apply dict_get_notin. rewrite normalize_expected_keys. exact Hk.
Qed.

(** C3, counterexample to the unamended claim: a non-null [ticker] of the
    input is not copied when a ticker hint is given. *)
Lemma normalize_hint_overrides_input :
  dict_get (u "ticker") [(u "ticker", JStr (u "A"))] = Some (JStr (u "A")) /\
  dict_get (u "ticker") (normalize_history_data (JObj [(u "ticker", JStr (u "A"))]) (Some (u "B")))
  = Some (JStr (u "B")).
Proof. vm_compute. split; reflexivity. Qed.

(** C5: a non-empty ticker hint is the output's ticker; without one, a
    truthy [ticker] of the input dict is the output's ticker. *)
Theorem normalize_ticker_resolution (data : json) (ticker : option text) :
  (is_nil (hint_text ticker) = false ->
     dict_get (u "ticker") (normalize_history_data data ticker) = Some (JStr (hint_text ticker))) /\
  (forall d, is_nil (hint_text ticker) = true -> data = JObj d ->
     opt_truthy (dict_get (u "ticker") d) = true ->
     dict_get (u "ticker") (normalize_history_data data ticker) = dict_get (u "ticker") d).
Proof.
  rewrite normalize_history_data_eq. split.
  - intros H. simpl. rewrite H. reflexivity.
  - intros d H -> Ht. simpl. rewrite H. simpl. unfold pick.
    destruct (dict_get (u "ticker") d) as [[]|]; simpl in *; congruence.
Qed.

(** C5, on concrete inputs. *)
Lemma normalize_ticker_resolution_witness :
  dict_get (u "ticker") (normalize_history_data (JObj [(u "ticker", JStr (u "A"))]) (Some (u "B")))
  = Some (JStr (u "B")) /\
  dict_get (u "ticker") (normalize_history_data (JObj [(u "ticker", JStr (u "A"))]) None)
  = Some (JStr (u "A")).
Proof.
  split.
  - apply (proj1 (normalize_ticker_resolution (JObj [(u "ticker", JStr (u "A"))]) (Some (u "B")))).
    reflexivity.
  - apply (proj2 (normalize_ticker_resolution (JObj [(u "ticker", JStr (u "A"))]) None)
             [(u "ticker", JStr (u "A"))]); reflexivity.
Defined.

(** *** Lines of the log and [Storage.load] *)
Lemma translate_newlines_cr (d : Z) (r : text) :
  translate_newlines (13%Z :: d :: r)
  = 10%Z :: (if (d =? 10)%Z then translate_newlines r else translate_newlines (d :: r)).
Proof. reflexivity. Qed.

Lemma translate_newlines_other (c : Z) (r : text) :
  (c =? 13)%Z = false -> translate_newlines (c :: r) = c :: translate_newlines r.
Proof. intros H. simpl. rewrite H. reflexivity. Qed.

Lemma translate_newlines_app_lf (a x : text) :
  translate_newlines (a ++ 10%Z :: x) = translate_newlines (a ++ [10%Z]) ++ translate_newlines x.
Proof.
  assert (G : forall n a, length a <= n ->
            translate_newlines (a ++ 10%Z :: x) = translate_newlines (a ++ [10%Z]) ++ translate_newlines x).
  { induction n as [|n IH]; intros [|c a'] Hl; simpl in Hl; try lia; try reflexivity.
    rewrite <- !app_comm_cons.
    destruct (c =? 13)%Z eqn:Ec.
    - apply Z.eqb_eq in Ec. subst c.
      destruct a' as [|d a'']; [reflexivity|].
      rewrite <- !app_comm_cons, !translate_newlines_cr. simpl in Hl.
      destruct (d =? 10)%Z.
      + rewrite IH by lia. reflexivity.
      + rewrite !app_comm_cons, IH by (simpl; lia). reflexivity.
    - rewrite !translate_newlines_other by exact Ec. rewrite IH by lia. reflexivity. }
  apply (G (length a)). lia.
Qed.

Lemma translate_newlines_ends_lf (a : text) :
  exists t, translate_newlines (a ++ [10%Z]) = t ++ [10%Z].
Proof.
  assert (G : forall n a, length a <= n -> exists t, translate_newlines (a ++ [10%Z]) = t ++ [10%Z]).
  { induction n as [|n IH]; intros [|c a'] Hl; simpl in Hl; try lia; try (exists []; reflexivity).
    rewrite <- !app_comm_cons.
    destruct (c =? 13)%Z eqn:Ec.
    - apply Z.eqb_eq in Ec. subst c.
      destruct a' as [|d a'']; [exists []; reflexivity|].
      rewrite <- !app_comm_cons, !translate_newlines_cr. simpl in Hl.
      destruct (d =? 10)%Z.
      + destruct (IH a'') as [t Ht]; [lia|]. rewrite Ht. exists (10%Z :: t). reflexivity.
      + destruct (IH (d :: a'')) as [t Ht]; [simpl; lia|]. rewrite app_comm_cons, Ht.
        exists (10%Z :: t). reflexivity.
    - rewrite translate_newlines_other by exact Ec.
      destruct (IH a') as [t Ht]; [lia|]. rewrite Ht. exists (c :: t). reflexivity. }
  apply (G (length a)). lia.
Qed.

Lemma split_lines_aux_app_lf (cur t x : text) :
  split_lines_aux cur (t ++ 10%Z :: x) = split_lines_aux cur (t ++ [10%Z]) ++ split_lines_aux [] x.
Proof.
  revert cur; induction t as [|c t IH]; intros cur; simpl.
  - reflexivity.
  - destruct (c =? 10)%Z; rewrite IH; reflexivity.
Qed.

Lemma read_lines_app (a x : text) :
  ends_line a -> read_lines (a ++ x) = read_lines a ++ read_lines x.
Proof.
  intros [->|[a' ->]]; [reflexivity|].
  unfold read_lines. rewrite <- app_assoc. simpl.
  rewrite translate_newlines_app_lf.
  destruct (translate_newlines_ends_lf a') as [t ->].
  rewrite <- app_assoc. simpl. rewrite split_lines_aux_app_lf. reflexivity.
Qed.

Lemma translate_newlines_plain (b x : text) :
  no_newline b = true -> translate_newlines (b ++ x) = b ++ translate_newlines x.
Proof.
  induction b as [|c b IH]; simpl; intros H; [reflexivity|].
  apply andb_true_iff in H as [Hc H]. apply negb_true_iff, orb_false_iff in Hc as [_ Hc].
  rewrite Hc, IH by exact H. reflexivity.
Qed.

Lemma split_lines_aux_plain (cur b : text) :
  no_newline b = true -> split_lines_aux cur (b ++ [10%Z]) = [rev cur ++ b ++ [10%Z]].
Proof.
  revert cur; induction b as [|c b IH]; simpl; intros cur H.
  - reflexivity.
  - apply andb_true_iff in H as [Hc H]. apply negb_true_iff, orb_false_iff in Hc as [Hc _].
    rewrite Hc, IH by exact H. simpl. rewrite <- app_assoc. reflexivity.
Qed.

Lemma read_lines_line (b x : text) :
  no_newline b = true -> read_lines (b ++ 10%Z :: x) = (b ++ [10%Z]) :: read_lines x.
Proof.
  intros H. unfold read_lines.
  rewrite translate_newlines_plain by exact H. simpl.
  rewrite split_lines_aux_app_lf, split_lines_aux_plain by exact H. reflexivity.
Qed.

Lemma load_lines_app (f : option text) (l1 l2 : list text) (acc : list json) :
  load_lines f (l1 ++ l2) acc
  = match load_lines f l1 acc with Ok acc' => load_lines f l2 acc' | Err e => Err e end.
Proof.
  revert acc; induction l1 as [|l l1 IH]; intros acc; simpl; [reflexivity|].
  destruct (is_nil (py_strip l)); [apply IH|].
  destruct (json_loads l) as [r|[m p|e]]; [| apply IH | reflexivity].
  destruct (load_fixup r) as [r'|]; [|reflexivity].
  destruct (filtered_out f r'); apply IH.
Qed.

Lemma load_lines_skip (f : option text) (l : text) (ls : list text) (acc : list json) :
  (is_nil (py_strip l) || decode_failed (json_loads l)) = true ->
  load_lines f (l :: ls) acc = load_lines f ls acc.
Proof.
  intros H. simpl. destruct (is_nil (py_strip l)); [reflexivity|].
  destruct (json_loads l) as [|[m p|e]]; [discriminate|reflexivity|discriminate].
Qed.

Lemma load_lines_raise (f : option text) (l : text) (ls : list text) (acc : list json) (e : limit_error) :
  json_loads l = Err (LoadsRaise e) -> load_lines f (l :: ls) acc = Err (JsonRaise e).
Proof.
  intros H. cbn [load_lines]. destruct (is_nil (py_strip l)) eqn:E.
  - apply forallb_py_strip_nil in E. apply (json_loads_blank true) in E.
    unfold json_loads in H. rewrite H in E. discriminate.
  - rewrite H. reflexivity.
Qed.

(** C7 (as amended): a missing file loads as []; removing a blank line or
    a line [json.loads] rejects with [JSONDecodeError] changes nothing
    [Storage.load] returns (the other lines are read as before); the
    spec's file with one corrupt line between two valid ones gives two
    records (as soon as one dict may be entered). But a line on which
    [json.loads] raises [RecursionError] or the [ValueError] of the digit
    limit makes the whole load raise it, once the lines before it loaded. *)
Theorem load_skips_bad_lines (f : option text) :
  load None f = Ok [] /\
  (forall a b c, ends_line a -> no_newline b = true ->
     (is_nil (py_strip (b ++ [10%Z])) || decode_failed (json_loads (b ++ [10%Z]))) = true ->
     load (Some (a ++ b ++ 10%Z :: c)) f = load (Some (a ++ c)) f) /\
  (forall a b c e acc, ends_line a -> no_newline b = true ->
     json_loads (b ++ [10%Z]) = Err (LoadsRaise e) ->
     load (Some a) f = Ok acc ->
     load (Some (a ++ b ++ 10%Z :: c)) f = Err (JsonRaise e)) /\
  (0 < recursion_room ->
   match load (Some (uq "{'ticker': 'A'}" ++ [10%Z] ++ u "{oops" ++ [10%Z] ++ uq "{'ticker': 'B'}" ++ [10%Z])) None with
   | Ok l => length l = 2
   | Err _ => False
   end).
Proof.
  split; [reflexivity|split; [|split]].
  - intros a b c Ha Hb Hbad. unfold load.
    rewrite (read_lines_app a _ Ha), (read_lines_app a c Ha), read_lines_line by exact Hb.
    rewrite !load_lines_app. destruct (load_lines f (read_lines a) []) as [acc|]; [|reflexivity].
    apply load_lines_skip. exact Hbad.
  - intros a b c e acc Ha Hb He Hacc. unfold load in *.
    rewrite (read_lines_app a _ Ha), read_lines_line by exact Hb.
    rewrite load_lines_app, Hacc. apply load_lines_raise. exact He.
  - destruct LIM as [[|[|room]] lim]; intros Hr; [simpl in Hr; lia| |]; vm_compute; reflexivity.
Qed.

(** C9: [Storage.get_latest] is the first element of [Storage.load] with
    the same filter, [None] exactly when that list is empty (and raises
    exactly when [load] raises). *)
Theorem get_latest_first_of_load (file : file_state) (f : option text) :
  get_latest file f = match load file f with Ok l => Ok (hd_error l) | Err e => Err e end /\
  (get_latest file f = Ok None <-> load file f = Ok []) /\
  (forall r rs, load file f = Ok (r :: rs) -> get_latest file f = Ok (Some r)).
Proof.
  unfold get_latest. destruct (load file f) as [[|r rs]|e]; repeat split; intros; try congruence.
Qed.

(** *** [json.loads] reads back what [json.dumps] writes *)
Lemma dumps_arr (xs : list json) : dumps (JArr xs) = [91%Z] ++ dumps_items xs ++ [93%Z].
Proof. reflexivity. Qed.

Lemma dumps_obj (kvs : list (text * json)) : dumps (JObj kvs) = [123%Z] ++ dumps_members kvs ++ [125%Z].
Proof. reflexivity. Qed.

Lemma wf_arr (xs : list json) : wf_value (JArr xs) = forallb wf_value xs.
Proof. simpl. induction xs as [|x xs IH]; simpl; [reflexivity|]. rewrite IH. reflexivity. Qed.

Lemma wf_obj (kvs : list (text * json)) :
  wf_value (JObj kvs) = keys_distinct (map fst kvs) && forallb (fun kv => wf_text (fst kv) && wf_value (snd kv)) kvs.
Proof. simpl. f_equal. induction kvs as [|[k x] kvs IH]; simpl; [reflexivity|]. rewrite IH. reflexivity. Qed.

Lemma wf_json_value (v : json) : wf_json v = true -> wf_value v = true.
Proof. unfold wf_json. intros H. apply andb_true_iff in H as [H _]. exact H. Qed.

Lemma wf_json_raise (v : json) : wf_json v = true -> dumps_raise recursion_room v = None.
Proof.
  unfold wf_json, dumps_ok. intros H. apply andb_true_iff in H as [_ H].
  destruct (dumps_raise recursion_room v); [discriminate|reflexivity].
Qed.

Lemma dumps_raise_arr (n : nat) (xs : list json) :
  dumps_raise (S n) (JArr xs) = None -> Forall (fun x => dumps_raise n x = None) xs.
Proof.
  simpl. induction xs as [|x xs IH]; intros H; [constructor|].
  destruct (dumps_raise n x) eqn:E; [discriminate|]. constructor; [exact E|apply IH, H].
Qed.

Lemma dumps_raise_obj (n : nat) (kvs : list (text * json)) :
  dumps_raise (S n) (JObj kvs) = None -> Forall (fun kv => dumps_raise n (snd kv) = None) kvs.
Proof.
  simpl. induction kvs as [|[k x] kvs IH]; intros H; [constructor|].
  destruct (dumps_raise n x) eqn:E; [discriminate|]. constructor; [exact E|apply IH, H].
Qed.

Lemma scan_chars_escape (strict : bool) (b : nat) (acc : text) (c : Z) (x : Z) (X : text) :
  wf_char c = true ->
  scan_chars strict b acc (escape_char c ++ x :: X) = scan_chars strict b (c :: acc) (x :: X).
Proof.
  unfold wf_char. intros Hc. apply andb_true_iff in Hc as [H0 H1].
  apply Z.leb_le in H0. apply Z.leb_le in H1.
  destruct (Z.ltb_spec c 32) as [Hlt|Hge].
  - assert (E : c = 0%Z \/ c = 1%Z \/ c = 2%Z \/ c = 3%Z \/ c = 4%Z \/ c = 5%Z \/ c = 6%Z \/ c = 7%Z \/ c = 8%Z \/ c = 9%Z \/ c = 10%Z \/ c = 11%Z \/ c = 12%Z \/ c = 13%Z \/ c = 14%Z \/ c = 15%Z \/ c = 16%Z \/ c = 17%Z \/ c = 18%Z \/ c = 19%Z \/ c = 20%Z \/ c = 21%Z \/ c = 22%Z \/ c = 23%Z \/ c = 24%Z \/ c = 25%Z \/ c = 26%Z \/ c = 27%Z \/ c = 28%Z \/ c = 29%Z \/ c = 30%Z \/ c = 31%Z) by lia.
    repeat (destruct E as [E|E]; [subst c; reflexivity|]). subst c. reflexivity.
  - unfold escape_char.
    destruct (Z.eqb_spec c 34); [subst c; reflexivity|].
    destruct (Z.eqb_spec c 92); [subst c; reflexivity|].
    rewrite (proj2 (Z.eqb_neq c 10)), (proj2 (Z.eqb_neq c 13)), (proj2 (Z.eqb_neq c 9)),
      (proj2 (Z.eqb_neq c 8)), (proj2 (Z.eqb_neq c 12)), (proj2 (Z.ltb_ge c 32)) by lia.
    simpl. rewrite (proj2 (Z.eqb_neq c 34)), (proj2 (Z.eqb_neq c 92)) by assumption.
    rewrite (proj2 (Z.leb_gt c 31)) by lia. rewrite andb_false_r. reflexivity.
Qed.

Lemma scan_chars_dumps (strict : bool) (b : nat) (acc s rest : text) :
  wf_text s = true ->
  scan_chars strict b acc (flat_map escape_char s ++ 34%Z :: rest) = Decoded (rev acc ++ s) rest.
Proof.
  revert acc; induction s as [|c s IH]; intros acc Hs; simpl.
  - rewrite app_nil_r. reflexivity.
  - unfold wf_text in Hs. simpl in Hs. apply andb_true_iff in Hs as [Hc Hs].
    rewrite <- app_assoc.
    destruct (flat_map escape_char s ++ 34%Z :: rest) as [|x X] eqn:E.
    { destruct (flat_map escape_char s); discriminate. }
    rewrite scan_chars_escape by exact Hc. rewrite IH by exact Hs.
    simpl. rewrite <- app_assoc. reflexivity.
Qed.

Lemma span_digits_app (D R : text) :
  forallb is_digit D = true ->
  match R with [] => true | c :: _ => negb (is_digit c) end = true ->
  span_digits (D ++ R) = (D, R).
Proof.
  induction D as [|d D IH]; simpl; intros HD HR.
  - destruct R as [|c R]; [reflexivity|]. simpl. apply negb_true_iff in HR. rewrite HR. reflexivity.
  - apply andb_true_iff in HD as [Hd HD]. rewrite Hd, IH by assumption. reflexivity.
Qed.

Lemma digits_value_snoc (D : text) (d : Z) :
  digits_value (D ++ [d]) = (digits_value D * 10 + (d - 48))%Z.
Proof. unfold digits_value. rewrite fold_left_app. reflexivity. Qed.

Lemma is_digit_add (d : Z) : (0 <= d < 10)%Z -> is_digit (48 + d) = true.
Proof. intros H. unfold is_digit. apply andb_true_iff; split; apply Z.leb_le; lia. Qed.

Lemma digits_value_single (x : Z) : digits_value [x] = (x - 48)%Z.
Proof. unfold digits_value. simpl. lia. Qed.

Lemma nat_digits_S (f : nat) (n : Z) (acc : text) :
  nat_digits (S f) n acc
  = if (n <? 10)%Z then (48 + n mod 10)%Z :: acc else nat_digits f (n / 10) ((48 + n mod 10)%Z :: acc).
Proof. reflexivity. Qed.

Lemma nat_digits_spec (f : nat) : forall (n : Z) (acc : text),
  (0 <= n < 10 ^ Z.of_nat (S f))%Z ->
  exists D, nat_digits (S f) n acc = D ++ acc /\ forallb is_digit D = true /\
            digits_value D = n /\
            match D with d :: _ => (0 < n -> 49 <= d)%Z | [] => False end.
Proof.
  induction f as [|f IH]; intros n acc Hn.
  - assert (Hlt : (n < 10)%Z) by (simpl in Hn; lia).
    exists [(48 + n mod 10)%Z].
    split; [cbn [nat_digits]; rewrite (proj2 (Z.ltb_lt n 10) Hlt); reflexivity|].
    rewrite Z.mod_small by lia.
    split; [cbn [forallb]; rewrite is_digit_add by lia; reflexivity|].
    rewrite digits_value_single. split; lia.
  - rewrite nat_digits_S. destruct (Z.ltb_spec n 10) as [Hlt|Hge].
    + exists [(48 + n mod 10)%Z].
      split; [reflexivity|]. rewrite Z.mod_small by lia.
      split; [cbn [forallb]; rewrite is_digit_add by lia; reflexivity|].
      rewrite digits_value_single. split; lia.
    + destruct (IH (n / 10)%Z ((48 + n mod 10)%Z :: acc)) as [D [HD [Hdig [Hval Hhd]]]].
      { split; [apply Z.div_pos; lia|]. apply Z.div_lt_upper_bound; [lia|].
        rewrite Nat2Z.inj_succ, Z.pow_succ_r in Hn by lia. lia. }
      exists (D ++ [(48 + n mod 10)%Z]). rewrite HD, <- app_assoc. split; [reflexivity|].
      pose proof (Z.mod_pos_bound n 10 ltac:(lia)).
      split; [|split].
      * rewrite forallb_app, Hdig. cbn [forallb]. rewrite is_digit_add by lia. reflexivity.
      * rewrite digits_value_snoc, Hval. pose proof (Z.div_mod n 10 ltac:(lia)). lia.
      * destruct D as [|d D]; [contradiction|]. simpl. intros _. apply Hhd.
        apply Z.div_str_pos. lia.
Qed.

Lemma digits_of_spec (n : Z) :
  (0 <= n)%Z ->
  exists D, digits_of n = D /\ forallb is_digit D = true /\ digits_value D = n /\
            match D with d :: _ => (0 < n -> 49 <= d)%Z | [] => False end.
Proof.
  intros Hn. unfold digits_of.
  destruct (nat_digits_spec (Z.to_nat (Z.log2 (Z.max n 1))) n []) as [D [HD H]].
  - split; [exact Hn|].
    rewrite Nat2Z.inj_succ, Z2Nat.id by (apply Z.log2_nonneg).
    destruct (Z.log2_spec (Z.max n 1)) as [_ Hup]; [lia|].
    apply Z.lt_le_trans with (2 ^ Z.succ (Z.log2 (Z.max n 1)))%Z; [lia|].
    apply Z.pow_le_mono_l. split; [lia|lia].
  - exists D. rewrite HD, app_nil_r. split; [reflexivity|exact H].
Qed.

Lemma number_stop_no_digit (rest : text) :
  number_stop rest = true -> match rest with [] => true | c :: _ => negb (is_digit c) end = true.
Proof.
  destruct rest as [|c r]; simpl; [reflexivity|]. intros H.
  destruct (is_digit c); [discriminate|reflexivity].
Qed.

Lemma scan_exponent_ok (ex rest : text) :
  wf_exponent ex = true -> number_stop rest = true -> scan_exponent (ex ++ rest) = (ex, rest).
Proof.
  intros Hwf Hstop. destruct ex as [|e r].
  - destruct rest as [|c rest]; [reflexivity|]. simpl in Hstop. unfold scan_exponent. cbn [app].
    destruct (c =? 101)%Z; [destruct (is_digit c || (c =? 46))%Z; simpl in Hstop; discriminate|].
    destruct (c =? 69)%Z; [destruct (is_digit c || (c =? 46))%Z; simpl in Hstop; discriminate|].
    reflexivity.
  - simpl in Hwf. apply andb_true_iff in Hwf as [He Hr].
    unfold scan_exponent. cbn [app]. rewrite He.
    destruct r as [|c ds]; [discriminate|]. cbn [app].
    destruct ((c =? 43)%Z || (c =? 45)%Z) eqn:Hc.
    + apply andb_true_iff in Hr as [Hne Hds].
      rewrite span_digits_app by (exact Hds || exact (number_stop_no_digit rest Hstop)).
      destruct ds; [discriminate|]. reflexivity.
    + change (c :: ds ++ rest) with ((c :: ds) ++ rest).
      rewrite span_digits_app by (exact Hr || exact (number_stop_no_digit rest Hstop)).
      reflexivity.
Qed.

Lemma scan_number_lit (neg : bool) (ip fr ex rest : text) :
  wf_ipart ip = true -> forallb is_digit fr = true -> wf_exponent ex = true -> number_stop rest = true ->
  scan_number ((if neg then [45%Z] else []) ++ ip ++ (if is_nil fr then [] else 46%Z :: fr) ++ ex ++ rest)
  = Some (if is_nil fr && is_nil ex
          then if int_digits_over (length ip) then DecodeRaise IntDigitsError
               else Decoded (JInt (if neg then (- digits_value ip)%Z else digits_value ip)) rest
          else Decoded (JFloat (FLit neg ip fr ex)) rest).
Proof.
  intros Hip Hfr Hex Hstop.
  remember ((if is_nil fr then [] else 46%Z :: fr) ++ ex ++ rest) as R eqn:HRdef.
  assert (HR : match R with [] => true | c :: _ => negb (is_digit c) end = true).
  { subst R. destruct fr as [|f fr]; [|reflexivity]. destruct ex as [|e ex].
    - apply number_stop_no_digit. exact Hstop.
    - simpl in Hex |- *. apply andb_true_iff in Hex as [He _].
      apply orb_true_iff in He as [He|He]; apply Z.eqb_eq in He; subst e; reflexivity. }
  assert (HF : match R return list Z * text with
               | d :: e :: r' =>
                 if (d =? 46)%Z && is_digit e then let (fs, r'') := span_digits r' in (e :: fs, r'')
                 else @pair (list Z) text [] R
               | _ => @pair (list Z) text [] R
               end = (fr, ex ++ rest)).
  { subst R. destruct fr as [|f fr].
    - simpl. destruct ex as [|e ex].
      + destruct rest as [|c [|c' rest]]; try reflexivity. simpl in Hstop |- *.
        destruct (c =? 46)%Z; [destruct (is_digit c); discriminate|reflexivity].
      + simpl in Hex |- *. apply andb_true_iff in Hex as [He _].
        apply orb_true_iff in He as [He|He]; apply Z.eqb_eq in He; subst e; simpl;
          destruct (ex ++ rest); reflexivity.
    - simpl in Hfr |- *. apply andb_true_iff in Hfr as [Hf Hfr]. rewrite Hf.
      rewrite span_digits_app; [reflexivity|exact Hfr|].
      destruct ex as [|e ex]; [apply number_stop_no_digit; exact Hstop|].
      simpl in Hex |- *. apply andb_true_iff in Hex as [He _].
      apply orb_true_iff in He as [He|He]; apply Z.eqb_eq in He; subst e; reflexivity. }
  assert (HI : forall c ds, c :: ds = ip ->
             (if ((49 <=? c) && (c <=? 57))%Z then let (ds', r') := span_digits (ds ++ R) in Some (c :: ds', r')
              else if (c =? 48)%Z then Some ([c], ds ++ R) else None) = Some (ip, R)).
  { intros c ds <-. destruct ds as [|d ds].
    - simpl in Hip. unfold is_digit in Hip. rewrite app_nil_l.
      destruct ((49 <=? c) && (c <=? 57))%Z eqn:E1.
      + assert (E : span_digits R = ([], R)) by exact (span_digits_app [] R eq_refl HR).
        rewrite E. reflexivity.
      + assert (c = 48)%Z.
        { apply andb_true_iff in Hip as [A B]. apply Z.leb_le in A. apply Z.leb_le in B.
          apply andb_false_iff in E1 as [E1|E1]; [apply Z.leb_gt in E1|apply Z.leb_gt in E1]; lia. }
        subst c. reflexivity.
    - simpl in Hip. apply andb_true_iff in Hip as [Hc Hds]. rewrite Hc.
      rewrite span_digits_app by assumption. reflexivity. }
  destruct ip as [|c ds]; [discriminate|]. specialize (HI c ds eq_refl).
  assert (Hc : (48 <= c <= 57)%Z).
  { destruct ds as [|d ds]; simpl in Hip.
    - unfold is_digit in Hip. apply andb_true_iff in Hip as [A B].
      apply Z.leb_le in A. apply Z.leb_le in B. lia.
    - apply andb_true_iff in Hip as [H _]. apply andb_true_iff in H as [A B].
      apply Z.leb_le in A. apply Z.leb_le in B. lia. }
  assert (Hc45 : (c =? 45)%Z = false) by (apply Z.eqb_neq; lia).
  unfold scan_number. destruct neg; cbn [app]; cbv beta iota zeta;
    [rewrite Z.eqb_refl | rewrite Hc45]; cbv beta iota zeta; rewrite HI; cbv beta iota zeta;
    rewrite HF; cbv beta iota zeta; rewrite scan_exponent_ok by assumption;
    destruct (is_nil fr && is_nil ex); try destruct (int_digits_over (length (c :: ds))); reflexivity.
Qed.

Lemma scan_constant_number (c : Z) (r : text) :
  (is_digit c || ((c =? 45)%Z && match r with d :: _ => is_digit d | [] => false end)) = true ->
  scan_constant (c :: r) = None.
Proof.
  intros H. apply orb_true_iff in H as [H|H].
  - unfold is_digit in H. apply andb_true_iff in H as [A B].
    apply Z.leb_le in A. apply Z.leb_le in B.
    assert (E : c = 48%Z \/ c = 49%Z \/ c = 50%Z \/ c = 51%Z \/ c = 52%Z \/ c = 53%Z \/
                c = 54%Z \/ c = 55%Z \/ c = 56%Z \/ c = 57%Z) by lia.
    repeat (destruct E as [E|E]; [subst c; reflexivity|]). subst c. reflexivity.
  - apply andb_true_iff in H as [H45 H]. apply Z.eqb_eq in H45. subst c.
    destruct r as [|d r]; [discriminate|].
    unfold is_digit in H. apply andb_true_iff in H as [A B].
    apply Z.leb_le in A. apply Z.leb_le in B.
    assert (E : d = 48%Z \/ d = 49%Z \/ d = 50%Z \/ d = 51%Z \/ d = 52%Z \/ d = 53%Z \/
                d = 54%Z \/ d = 55%Z \/ d = 56%Z \/ d = 57%Z) by lia.
    repeat (destruct E as [E|E]; [subst d; reflexivity|]). subst d. reflexivity.
Qed.

Lemma scan_value_scalar (strict : bool) (room : nat) (c : Z) (r : text) :
  (c =? 34)%Z = false -> (c =? 123)%Z = false -> (c =? 91)%Z = false ->
  scan_value strict room (c :: r)
  = match scan_constant (c :: r) with
    | Some (v, r') => Decoded v r'
    | None =>
      match scan_number (c :: r) with
      | Some d => d
      | None => DecodeFail "Expecting value" (length (c :: r))
      end
    end.
Proof. intros H1 H2 H3. rewrite scan_value_unfold, H1, H2, H3. reflexivity. Qed.

Lemma digits_of_wf (n : Z) :
  (0 <= n)%Z -> wf_ipart (digits_of n) = true /\ digits_value (digits_of n) = n.
Proof.
  intros Hn. destruct (Z.eq_dec n 0) as [->|Hnz]; [split; reflexivity|].
  destruct (digits_of_spec n Hn) as [D [-> [Hd [Hv Hh]]]]. split; [|exact Hv].
  destruct D as [|d [|d' ds]]; [contradiction| |].
  - simpl in Hd |- *. destruct (is_digit d); [reflexivity|discriminate].
  - specialize (Hh ltac:(lia)). simpl in Hd |- *.
    apply andb_true_iff in Hd as [Hd Hds]. rewrite Hds.
    unfold is_digit in Hd. apply andb_true_iff in Hd as [_ B]. rewrite B.
    rewrite (proj2 (Z.leb_le 49 d) Hh). reflexivity.
Qed.

Lemma wf_ipart_head (ip : text) :
  wf_ipart ip = true -> exists c ds, ip = c :: ds /\ is_digit c = true.
Proof.
  destruct ip as [|c [|d ds]]; simpl; intros H; [discriminate| |].
  - exists c, []. split; [reflexivity|exact H].
  - exists c, (d :: ds). split; [reflexivity|].
    apply andb_true_iff in H as [H _]. apply andb_true_iff in H as [A B].
    apply Z.leb_le in A. unfold is_digit. rewrite B, (proj2 (Z.leb_le 48 c)) by lia. reflexivity.
Qed.

Lemma digit_not_special (c : Z) :
  is_digit c = true ->
  (c =? 34)%Z = false /\ (c =? 123)%Z = false /\ (c =? 91)%Z = false /\ (c =? 45)%Z = false.
Proof.
  unfold is_digit. intros H. apply andb_true_iff in H as [A B].
  apply Z.leb_le in A. apply Z.leb_le in B.
  repeat split; apply Z.eqb_neq; lia.
Qed.

Lemma scan_value_number_lit (strict : bool) (room : nat) (neg : bool) (ip fr ex rest : text) :
  wf_ipart ip = true -> forallb is_digit fr = true -> wf_exponent ex = true -> number_stop rest = true ->
  scan_value strict room
    ((if neg then [45%Z] else []) ++ ip ++ (if is_nil fr then [] else 46%Z :: fr) ++ ex ++ rest)
  = if is_nil fr && is_nil ex
    then if int_digits_over (length ip) then DecodeRaise IntDigitsError
         else Decoded (JInt (if neg then (- digits_value ip)%Z else digits_value ip)) rest
    else Decoded (JFloat (FLit neg ip fr ex)) rest.
Proof.
  intros Hip Hfr Hex Hstop.
  pose proof (scan_number_lit neg ip fr ex rest Hip Hfr Hex Hstop) as Hn.
  destruct (wf_ipart_head ip Hip) as [c [ds [-> Hc]]].
  destruct (digit_not_special c Hc) as [H34 [H123 [H91 H45]]].
  destruct neg; cbn [app] in Hn |- *.
  - rewrite scan_value_scalar by reflexivity.
    rewrite scan_constant_number by (rewrite Hc; reflexivity).
    rewrite Hn. reflexivity.
  - rewrite scan_value_scalar by assumption.
    rewrite scan_constant_number by (rewrite Hc; reflexivity).
    rewrite Hn. reflexivity.
Qed.

Lemma digit_props (c : Z) :
  is_digit c = true -> json_ws c = false /\ (c =? 93)%Z = false /\ (c =? 125)%Z = false /\
                       (c =? 65279)%Z = false.
Proof.
  unfold is_digit, json_ws. intros H. apply andb_true_iff in H as [A B].
  apply Z.leb_le in A. apply Z.leb_le in B.
  rewrite (proj2 (Z.eqb_neq c 32)), (proj2 (Z.eqb_neq c 9)), (proj2 (Z.eqb_neq c 10)),
    (proj2 (Z.eqb_neq c 13)), (proj2 (Z.eqb_neq c 93)), (proj2 (Z.eqb_neq c 125)),
    (proj2 (Z.eqb_neq c 65279)) by lia.
  repeat split.
Qed.

Lemma dumps_head (v : json) :
  wf_value v = true ->
  exists c r, dumps v = c :: r /\ json_ws c = false /\ (c =? 93)%Z = false /\ (c =? 125)%Z = false /\
              (c =? 65279)%Z = false.
Proof.
  intros Hwf. destruct v as [|b|z|f|s|xs|kvs].
  - eexists _, _. split; [reflexivity|]. repeat split.
  - destruct b; (eexists _, _; split; [reflexivity|]; repeat split).
  - change (dumps (JInt z)) with (dumps_int z). unfold dumps_int.
    destruct (Z.ltb_spec z 0).
    + eexists _, _. split; [reflexivity|]. repeat split.
    + destruct (digits_of_wf z) as [Hw _]; [lia|].
      destruct (wf_ipart_head _ Hw) as [c [ds [E Hc]]]. rewrite E.
      exists c, ds. split; [reflexivity|]. apply digit_props. exact Hc.
  - destruct f as [|neg|neg ip fr ex].
    + eexists _, _. split; [reflexivity|]. repeat split.
    + destruct neg; (eexists _, _; split; [reflexivity|]; repeat split).
    + simpl in Hwf. apply andb_true_iff in Hwf as [Hwf _]. apply andb_true_iff in Hwf as [Hwf _].
      apply andb_true_iff in Hwf as [Hip _].
      destruct neg.
      * eexists _, _. split; [reflexivity|]. repeat split.
      * destruct (wf_ipart_head _ Hip) as [c [ds [E Hc]]]. subst ip.
        exists c, (ds ++ (if is_nil fr then [] else 46%Z :: fr) ++ ex). split; [reflexivity|].
        apply digit_props. exact Hc.
  - eexists _, _. split; [reflexivity|]. repeat split.
  - rewrite dumps_arr. eexists _, _. split; [reflexivity|]. repeat split.
  - rewrite dumps_obj. eexists _, _. split; [reflexivity|]. repeat split.
Qed.

Lemma skip_ws_dumps (v : json) (X : text) :
  wf_value v = true -> skip_ws (dumps v ++ X) = dumps v ++ X.
Proof.
  intros Hwf. destruct (dumps_head v Hwf) as [c [r [E [Hws _]]]]. rewrite E. simpl. rewrite Hws. reflexivity.
Qed.

Lemma array_items_S (sv : text -> decoded json) (k : nat) (acc : list json) (s : text) :
  array_items sv (S k) acc s =
  match sv s with
  | DecodeFail m p => DecodeFail m p
  | DecodeRaise e => DecodeRaise e
  | Decoded v r =>
    match skip_ws r with
    | c :: r' =>
      if (c =? 93)%Z then Decoded (rev (v :: acc)) r'
      else if (c =? 44)%Z then array_items sv k (v :: acc) (skip_ws r')
      else DecodeFail "Expecting ',' delimiter" (length (c :: r'))
    | [] => DecodeFail "Expecting ',' delimiter" 0
    end
  end.
Proof. reflexivity. Qed.

Lemma dict_set_new (k : text) (v : json) (acc : dict) :
  ~ In k (map fst acc) -> dict_set k v acc = acc ++ [(k, v)].
Proof.
  induction acc as [|[k' v'] acc IH]; simpl; intros H; [reflexivity|].
  rewrite text_eqb_neq by (intros ->; apply H; left; reflexivity). rewrite IH by tauto. reflexivity.
Qed.

(** The loops of the scanner over what [dumps] writes, given that the
    values read back with [room] containers left to enter. *)
Section Loops.
Variable strict : bool.
Variable room : nat.
Hypothesis IHroom : forall v rest, wf_value v = true -> dumps_raise room v = None -> number_stop rest = true ->
  scan_value strict room (dumps v ++ rest) = Decoded v rest.

Lemma array_items_dumps (xs : list json) : forall (acc : list json) (rest : text) (k : nat),
  xs <> [] -> Forall (fun x => wf_value x = true /\ dumps_raise room x = None) xs -> length xs <= k ->
  array_items (scan_value strict room) k acc (dumps_items xs ++ 93%Z :: rest) = Decoded (rev acc ++ xs) rest.
Proof.
  induction xs as [|x xs IH]; intros acc rest k Hne Hall Hk; [contradiction|].
  destruct k as [|k]; [simpl in Hk; lia|].
  inversion Hall as [|? ? [Hwx Hdx] Hall']; subst.
  cbn [dumps_items]. rewrite <- !app_assoc. rewrite array_items_S.
  destruct xs as [|y ys].
  - rewrite IHroom by (auto; reflexivity). reflexivity.
  - rewrite IHroom by (auto; reflexivity).
    inversion Hall' as [|? ? [Hwy _] _]; subst.
    set (X := dumps_items (y :: ys) ++ 93%Z :: rest).
    assert (Hskip : skip_ws X = X).
    { subst X. cbn [dumps_items]. rewrite <- !app_assoc. apply skip_ws_dumps. exact Hwy. }
    change ((if is_nil (y :: ys) then [] else [44; 32]%Z) ++ X) with (44%Z :: 32%Z :: X).
    change (skip_ws (44%Z :: 32%Z :: X)) with (44%Z :: 32%Z :: X).
    cbv iota. replace (44 =? 93)%Z with false by reflexivity. rewrite Z.eqb_refl. cbv iota.
    change (skip_ws (32%Z :: X)) with (skip_ws X). rewrite Hskip. subst X.
    rewrite IH; [| discriminate | exact Hall' | simpl in Hk |- *; lia].
    simpl. rewrite <- app_assoc. reflexivity.
Qed.

Lemma object_members_dumps (kvs : list (text * json)) : forall (acc : dict) (rest : text) (k : nat),
  kvs <> [] ->
  Forall (fun kv => wf_text (fst kv) = true /\ wf_value (snd kv) = true /\ dumps_raise room (snd kv) = None) kvs ->
  NoDup (map fst (acc ++ kvs)) -> length kvs <= k ->
  object_members strict (scan_value strict room) k acc (dumps_members kvs ++ 125%Z :: rest)
  = Decoded (acc ++ kvs) rest.
Proof.
  induction kvs as [|[key x] kvs IH]; intros acc rest k Hne Hall Hnd Hk; [contradiction|].
  destruct k as [|k]; [simpl in Hk; lia|].
  inversion Hall as [|? ? [Hwk [Hwx Hdx]] Hall']; subst. simpl in Hwk, Hwx, Hdx.
  assert (Hkey : ~ In key (map fst acc)).
  { rewrite map_app in Hnd. simpl in Hnd. apply NoDup_remove_2 in Hnd.
    intros Hin. apply Hnd. apply in_or_app. left. exact Hin. }
  assert (Hnd' : NoDup (map fst ((acc ++ [(key, x)]) ++ kvs))) by (rewrite <- app_assoc; exact Hnd).
  cbn [dumps_members]. unfold dumps_str. rewrite <- !app_assoc. cbn [app].
  set (Y := dumps x ++ (if is_nil kvs then [] else [44; 32]%Z) ++ dumps_members kvs ++ 125%Z :: rest).
  cbn [object_members]. rewrite Z.eqb_refl. rewrite scan_chars_dumps by exact Hwk.
  change (skip_ws (58%Z :: 32%Z :: Y)) with (58%Z :: 32%Z :: Y).
  cbv iota. rewrite Z.eqb_refl. change (skip_ws (32%Z :: Y)) with (skip_ws Y).
  subst Y. rewrite skip_ws_dumps by exact Hwx.
  rewrite IHroom by (auto; destruct kvs; reflexivity).
  rewrite dict_set_new by exact Hkey. simpl rev. rewrite app_nil_l.
  destruct kvs as [|[key2 x2] kvs2].
  - reflexivity.
  - inversion Hall' as [|? ? [_ [Hwy _]] _]; subst.
    set (X := dumps_members ((key2, x2) :: kvs2) ++ 125%Z :: rest).
    change ((if is_nil ((key2, x2) :: kvs2) then [] else [44; 32]%Z) ++ X) with (44%Z :: 32%Z :: X).
    change (skip_ws (44%Z :: 32%Z :: X)) with (44%Z :: 32%Z :: X).
    cbv iota. replace (44 =? 125)%Z with false by reflexivity. rewrite Z.eqb_refl. cbv iota.
    change (skip_ws (32%Z :: X)) with (skip_ws X).
    assert (Hskip : skip_ws X = X) by reflexivity. rewrite Hskip. subst X.
    rewrite IH; [rewrite <- app_assoc; reflexivity | discriminate | exact Hall' | exact Hnd' |
                 simpl in Hk |- *; lia].
Qed.
End Loops.

Lemma length_dumps_items (xs : list json) :
  Forall (fun x => wf_value x = true) xs -> length xs <= length (dumps_items xs).
Proof.
  induction xs as [|x xs IH]; intros Hall; [simpl; lia|].
  inversion Hall as [|? ? Hx Hall']; subst.
  destruct (dumps_head x Hx) as [c [r [E _]]].
  cbn [dumps_items]. rewrite !length_app, E. specialize (IH Hall'). simpl. lia.
Qed.

Lemma length_dumps_members (kvs : list (text * json)) : length kvs <= length (dumps_members kvs).
Proof.
  induction kvs as [|[k x] kvs IH]; [simpl; lia|].
  cbn [dumps_members]. unfold dumps_str. rewrite !length_app. simpl. lia.
Qed.

Lemma forall_wf_arr (xs : list json) (n : nat) :
  wf_value (JArr xs) = true -> dumps_raise (S n) (JArr xs) = None ->
  Forall (fun x => wf_value x = true /\ dumps_raise n x = None) xs.
Proof.
  intros Hw Hd. rewrite wf_arr in Hw. apply dumps_raise_arr in Hd.
  rewrite Forall_forall in Hd |- *. intros x Hx. split.
  - rewrite forallb_forall in Hw. apply Hw. exact Hx.
  - apply Hd. exact Hx.
Qed.

Lemma forall_wf_obj (kvs : list (text * json)) (n : nat) :
  wf_value (JObj kvs) = true -> dumps_raise (S n) (JObj kvs) = None ->
  Forall (fun kv => wf_text (fst kv) = true /\ wf_value (snd kv) = true /\ dumps_raise n (snd kv) = None) kvs
  /\ NoDup (map fst kvs).
Proof.
  intros Hw Hd. rewrite wf_obj in Hw. apply andb_true_iff in Hw as [Hk Hw].
  split; [|apply keys_distinct_NoDup; exact Hk].
  apply dumps_raise_obj in Hd.
  rewrite Forall_forall in Hd |- *. rewrite forallb_forall in Hw. intros kv Hkv.
  specialize (Hw kv Hkv). apply andb_true_iff in Hw as [H1 H2].
  repeat split; [exact H1|exact H2|apply Hd, Hkv].
Qed.

Lemma dumps_raise_int (room : nat) (z : Z) :
  dumps_raise room (JInt z) =
  if int_digits_over (length (digits_of (Z.abs z))) then Some IntDigitsError else None.
Proof. destruct room; reflexivity. Qed.

Lemma scan_value_dumps_int (strict : bool) (room : nat) (z : Z) (rest : text) :
  dumps_raise room (JInt z) = None -> number_stop rest = true ->
  scan_value strict room (dumps (JInt z) ++ rest) = Decoded (JInt z) rest.
Proof.
  intros Hd Hstop. rewrite dumps_raise_int in Hd.
  change (dumps (JInt z)) with (dumps_int z). unfold dumps_int.
  destruct (Z.ltb_spec z 0) as [Hneg|Hpos].
  - destruct (digits_of_wf (- z)) as [Hw Hv]; [lia|].
    pose proof (scan_value_number_lit strict room true (digits_of (- z)) [] [] rest Hw eq_refl eq_refl Hstop) as H.
    cbn [is_nil andb app] in H. rewrite Hv, Z.opp_involutive in H.
    rewrite (Z.abs_neq z) in Hd by lia.
    destruct (int_digits_over (length (digits_of (- z)))); [discriminate Hd|exact H].
  - destruct (digits_of_wf z) as [Hw Hv]; [lia|].
    pose proof (scan_value_number_lit strict room false (digits_of z) [] [] rest Hw eq_refl eq_refl Hstop) as H.
    cbn [is_nil andb app] in H. rewrite Hv in H.
    rewrite (Z.abs_eq z) in Hd by lia.
    destruct (int_digits_over (length (digits_of z))); [discriminate Hd|exact H].
Qed.

Lemma scan_value_dumps_float (strict : bool) (room : nat) (fl : pyfloat) (rest : text) :
  wf_value (JFloat fl) = true -> number_stop rest = true ->
  scan_value strict room (dumps (JFloat fl) ++ rest) = Decoded (JFloat fl) rest.
Proof.
  intros Hwf Hstop. destruct fl as [|neg|neg ip fr ex].
  - rewrite scan_value_unfold; reflexivity.
  - destruct neg; rewrite scan_value_unfold; reflexivity.
  - simpl in Hwf. unfold wf_float in Hwf.
    apply andb_true_iff in Hwf as [Hwf Hnz]. apply andb_true_iff in Hwf as [Hwf Hex].
    apply andb_true_iff in Hwf as [Hip Hfr].
    pose proof (scan_value_number_lit strict room neg ip fr ex rest Hip Hfr Hex Hstop) as H.
    apply negb_true_iff in Hnz. rewrite Hnz in H.
    change (dumps (JFloat (FLit neg ip fr ex))) with
      ((if neg then [45%Z] else []) ++ ip ++ (if is_nil fr then [] else 46%Z :: fr) ++ ex).
    rewrite <- !app_assoc. exact H.
Qed.

(** [json.loads] reads back what [json.dumps] writes, when [json.dumps]
    does not raise with the same room: the scanner enters the containers
    the encoder enters, and reads the [int]s the encoder writes. *)
Lemma scan_value_dumps (strict : bool) (room : nat) : forall (v : json) (rest : text),
  wf_value v = true -> dumps_raise room v = None -> number_stop rest = true ->
  scan_value strict room (dumps v ++ rest) = Decoded v rest.
Proof.
  induction room as [|room IH]; intros v rest Hwf Hd Hstop;
    destruct v as [|b|z|fl|s|xs|kvs]; try discriminate Hd.
  all: try (rewrite scan_value_unfold; reflexivity).
  all: try (destruct b; rewrite scan_value_unfold; reflexivity).
  all: try (apply scan_value_dumps_float; assumption).
  all: try (change (dumps (JStr s)) with ([34%Z] ++ flat_map escape_char s ++ [34%Z]);
            rewrite <- !app_assoc; cbn [app]; rewrite scan_value_unfold; cbv iota beta;
            rewrite Z.eqb_refl; rewrite scan_chars_dumps by exact Hwf; reflexivity).
  all: try (apply scan_value_dumps_int; assumption).
  - pose proof (forall_wf_arr xs room Hwf Hd) as Hall.
    rewrite dumps_arr, <- !app_assoc. cbn [app].
    change (scan_value strict (S room) (91%Z :: dumps_items xs ++ 93%Z :: rest))
      with (scan_array (scan_value strict room) (dumps_items xs ++ 93%Z :: rest)).
    unfold scan_array.
    destruct xs as [|x xs']; [reflexivity|].
    inversion Hall as [|? ? [Hwx _] _]; subst.
    assert (Hs : skip_ws (dumps_items (x :: xs') ++ 93%Z :: rest) = dumps_items (x :: xs') ++ 93%Z :: rest).
    { cbn [dumps_items]. rewrite <- !app_assoc. apply skip_ws_dumps. exact Hwx. }
    rewrite Hs.
    rewrite array_items_dumps; [| exact IH | discriminate | exact Hall |].
    2: { rewrite length_app. pose proof (length_dumps_items (x :: xs')) as Lx.
         assert (Forall (fun y => wf_value y = true) (x :: xs')) by
           (eapply Forall_impl; [|exact Hall]; intros y [Hy _]; exact Hy).
         specialize (Lx H). lia. }
    destruct (dumps_head x Hwx) as [c [r [E [_ [H93 _]]]]].
    cbn [dumps_items]. rewrite <- !app_assoc, E. cbn [app]. rewrite H93. reflexivity.
  - destruct (forall_wf_obj kvs room Hwf Hd) as [Hall Hnd].
    rewrite dumps_obj, <- !app_assoc. cbn [app].
    change (scan_value strict (S room) (123%Z :: dumps_members kvs ++ 125%Z :: rest))
      with (scan_object strict (scan_value strict room) (dumps_members kvs ++ 125%Z :: rest)).
    unfold scan_object.
    destruct kvs as [|[k x] kvs']; [reflexivity|].
    change (skip_ws (dumps_members ((k, x) :: kvs') ++ 125%Z :: rest))
      with (dumps_members ((k, x) :: kvs') ++ 125%Z :: rest).
    rewrite object_members_dumps; [| exact IH | discriminate | exact Hall | exact Hnd |].
    2: { rewrite length_app. pose proof (length_dumps_members ((k, x) :: kvs')). lia. }
    reflexivity.
Qed.

Lemma skip_ws_all (X : text) : forallb json_ws X = true -> skip_ws X = [].
Proof.
  induction X as [|c X IH]; simpl; [reflexivity|].
  intros H. apply andb_true_iff in H as [Hc H]. rewrite Hc. apply IH, H.
Qed.

Lemma number_stop_ws (X : text) : forallb json_ws X = true -> number_stop X = true.
Proof.
  destruct X as [|c X]; simpl; [reflexivity|]. intros H. apply andb_true_iff in H as [Hc _].
  unfold json_ws in Hc. unfold is_digit.
  repeat rewrite orb_true_iff in Hc. rewrite !Z.eqb_eq in Hc.
  destruct Hc as [[[->| ->]| ->]| ->]; reflexivity.
Qed.

(** [json.loads(json.dumps(v) + ws)] is [v], for [ws] JSON whitespace. *)
Lemma json_loads_with_dumps (strict : bool) (v : json) (X : text) :
  wf_json v = true -> forallb json_ws X = true -> json_loads_with strict (dumps v ++ X) = Ok v.
Proof.
  intros Hwf HX. pose proof (wf_json_value v Hwf) as Hv. pose proof (wf_json_raise v Hwf) as Hr.
  destruct (dumps_head v Hv) as [c [r [E [Hws [_ [_ Hbom]]]]]].
  unfold json_loads_with.
  rewrite (skip_ws_dumps v X Hv), (scan_value_dumps strict _ v X Hv Hr (number_stop_ws X HX)).
  rewrite (skip_ws_all X HX).
  rewrite E. cbn [app]. rewrite Hbom. reflexivity.
Qed.

Lemma json_loads_line (v : json) :
  wf_json v = true -> json_loads (dumps v ++ [10%Z]) = Ok v.
Proof. intros Hwf. apply json_loads_with_dumps; [exact Hwf|reflexivity]. Qed.

(** *** A record line is one line *)
Lemma above_cr_app (a b : text) : above_cr (a ++ b) = above_cr a && above_cr b.
Proof. unfold above_cr. apply forallb_app. Qed.

Lemma above_cr_no_newline (s : text) : above_cr s = true -> no_newline s = true.
Proof.
  induction s as [|c s IH]; simpl; intros H; [reflexivity|].
  apply andb_true_iff in H as [Hc H]. apply Z.leb_le in Hc.
  rewrite (proj2 (Z.eqb_neq c 10)), (proj2 (Z.eqb_neq c 13)) by lia. simpl. apply IH, H.
Qed.

Lemma above_cr_digits (s : text) : forallb is_digit s = true -> above_cr s = true.
Proof.
  induction s as [|c s IH]; simpl; intros H; [reflexivity|].
  apply andb_true_iff in H as [Hc H]. unfold is_digit in Hc.
  apply andb_true_iff in Hc as [Hc _]. apply Z.leb_le in Hc.
  rewrite (proj2 (Z.leb_le 14 c)) by lia. apply IH, H.
Qed.

Lemma hex_lower_big (n : Z) : (0 <= n)%Z -> (14 <=? hex_lower n)%Z = true.
Proof. intros H. unfold hex_lower. destruct (n <? 10)%Z; apply Z.leb_le; lia. Qed.

Lemma escape_char_big (c : Z) : (0 <= c)%Z -> above_cr (escape_char c) = true.
Proof.
  intros Hc. unfold escape_char.
  destruct (c =? 34)%Z; [reflexivity|]. destruct (c =? 92)%Z; [reflexivity|].
  destruct (c =? 10)%Z; [reflexivity|]. destruct (c =? 13)%Z; [reflexivity|].
  destruct (c =? 9)%Z; [reflexivity|]. destruct (c =? 8)%Z; [reflexivity|].
  destruct (c =? 12)%Z; [reflexivity|].
  destruct (Z.ltb_spec c 32).
  - unfold above_cr. cbn [forallb].
    rewrite (hex_lower_big (c / 16)) by (apply Z.div_pos; lia).
    rewrite (hex_lower_big (c mod 16)) by (apply Z.mod_pos_bound; lia). reflexivity.
  - unfold above_cr. cbn [forallb]. rewrite (proj2 (Z.leb_le 14 c)) by lia. reflexivity.
Qed.

Lemma escape_text_big (s : text) : wf_text s = true -> above_cr (flat_map escape_char s) = true.
Proof.
  induction s as [|c s IH]; simpl; intros H; [reflexivity|].
  apply andb_true_iff in H as [Hc H]. unfold wf_char in Hc.
  apply andb_true_iff in Hc as [Hc _]. apply Z.leb_le in Hc.
  rewrite above_cr_app, escape_char_big, IH by assumption. reflexivity.
Qed.

Lemma dumps_str_big (s : text) : wf_text s = true -> above_cr (dumps_str s) = true.
Proof. intros H. unfold dumps_str. rewrite !above_cr_app, escape_text_big by exact H. reflexivity. Qed.

Lemma wf_ipart_digits (ip : text) : wf_ipart ip = true -> forallb is_digit ip = true.
Proof.
  destruct ip as [|c [|d ds]]; simpl; intros H; [discriminate| rewrite H; reflexivity|].
  apply andb_true_iff in H as [H Hds]. apply andb_true_iff in H as [A B].
  apply Z.leb_le in A. unfold is_digit. rewrite B, (proj2 (Z.leb_le 48 c)) by lia.
  simpl in Hds. exact Hds.
Qed.

Lemma wf_exponent_big (ex : text) : wf_exponent ex = true -> above_cr ex = true.
Proof.
  destruct ex as [|e r]; [reflexivity|]. simpl. intros H.
  apply andb_true_iff in H as [He H].
  assert (Hb : (14 <=? e)%Z = true)
    by (apply orb_true_iff in He as [He|He]; apply Z.eqb_eq in He; subst; reflexivity).
  rewrite Hb. simpl. destruct r as [|c ds]; [discriminate|].
  destruct ((c =? 43)%Z || (c =? 45)%Z) eqn:Hc.
  - apply andb_true_iff in H as [_ H]. simpl.
    assert (Hcb : (14 <=? c)%Z = true)
      by (apply orb_true_iff in Hc as [Hc|Hc]; apply Z.eqb_eq in Hc; subst; reflexivity).
    rewrite Hcb. apply above_cr_digits, H.
  - apply above_cr_digits, H.
Qed.

Lemma dumps_big (v : json) : wf_value v = true -> above_cr (dumps v) = true.
Proof.
  induction v as [|b|z|f|s|xs IH|kvs IH] using json_ind'; intros Hwf.
  - reflexivity.
  - destruct b; reflexivity.
  - change (dumps (JInt z)) with (dumps_int z). unfold dumps_int.
    destruct (Z.ltb_spec z 0).
    + destruct (digits_of_spec (- z)) as [D [-> [Hd _]]]; [lia|].
      unfold above_cr. cbn [forallb]. apply above_cr_digits, Hd.
    + destruct (digits_of_spec z) as [D [-> [Hd _]]]; [lia|]. apply above_cr_digits, Hd.
  - destruct f as [|neg|neg ip fr ex]; [reflexivity|destruct neg; reflexivity|].
    simpl in Hwf. unfold wf_float in Hwf.
    apply andb_true_iff in Hwf as [Hwf _]. apply andb_true_iff in Hwf as [Hwf Hex].
    apply andb_true_iff in Hwf as [Hip Hfr].
    change (dumps (JFloat (FLit neg ip fr ex)))
      with ((if neg then [45%Z] else []) ++ ip ++ (if is_nil fr then [] else 46%Z :: fr) ++ ex).
    rewrite !above_cr_app, (above_cr_digits ip (wf_ipart_digits ip Hip)), (wf_exponent_big ex Hex).
    pose proof (above_cr_digits fr Hfr) as Hfr'.
    destruct neg, (is_nil fr); unfold above_cr in *; simpl; rewrite ?Hfr'; reflexivity.
  - apply dumps_str_big, Hwf.
  - rewrite dumps_arr, !above_cr_app. rewrite wf_arr in Hwf.
    assert (above_cr (dumps_items xs) = true) as ->; [|reflexivity].
    induction xs as [|x xs IHxs]; [reflexivity|].
    inversion IH as [|? ? Hx IH']; subst. simpl in Hwf. apply andb_true_iff in Hwf as [Hw Hwf].
    cbn [dumps_items]. rewrite !above_cr_app, Hx, IHxs by assumption.
    destruct (is_nil xs); reflexivity.
  - rewrite dumps_obj, !above_cr_app. rewrite wf_obj in Hwf. apply andb_true_iff in Hwf as [_ Hwf].
    assert (above_cr (dumps_members kvs) = true) as ->; [|reflexivity].
    induction kvs as [|[k x] kvs IHkvs]; [reflexivity|].
    inversion IH as [|? ? Hx IH']; subst. simpl in Hwf, Hx.
    apply andb_true_iff in Hwf as [Hw Hwf]. apply andb_true_iff in Hw as [Hk Hw].
    cbn [dumps_members]. rewrite !above_cr_app, Hx, IHkvs, dumps_str_big by assumption.
    destruct (is_nil kvs); reflexivity.
Qed.

Lemma dumps_no_newline (v : json) : wf_json v = true -> no_newline (dumps v) = true.
Proof. intros H. apply above_cr_no_newline, dumps_big, wf_json_value, H. Qed.

(** *** [Storage.save] *)
Lemma is_nil_rev (l : text) : is_nil (rev l) = is_nil l.
Proof.
  destruct l as [|c l]; [reflexivity|]. simpl.
  destruct (rev l ++ [c]) eqn:E; [|reflexivity].
  apply app_eq_nil in E as [_ E]. discriminate.
Qed.

Lemma lstrip_keeps (p : Z -> bool) (a b : text) (c : Z) :
  p c = false -> is_nil (lstrip_by p (a ++ c :: b)) = false.
Proof.
  intros H. induction a as [|x a IH]; simpl; [rewrite H; reflexivity|].
  destruct (p x); [exact IH|reflexivity].
Qed.

Lemma py_strip_nonempty (c : Z) (s : text) : py_isspace c = false -> is_nil (py_strip (c :: s)) = false.
Proof.
  intros H. unfold py_strip, strip_by, rstrip_by. cbn [lstrip_by]. rewrite H.
  rewrite is_nil_rev. cbn [rev]. apply (lstrip_keeps _ _ [] c H).
Qed.

Lemma record_line_obj (kvs : dict) : record_line (JObj kvs) = 123%Z :: dumps_members kvs ++ [125%Z; 10%Z].
Proof. unfold record_line. rewrite dumps_obj. simpl. rewrite <- app_assoc. reflexivity. Qed.

Lemma load_fixup_obj (kvs : dict) : load_fixup (JObj kvs) = Ok (loaded_form (JObj kvs)).
Proof.
  unfold loaded_form. destruct (load_fixup (JObj kvs)) eqn:E; [reflexivity|].
  exfalso. unfold load_fixup in E. cbv zeta in E.
  repeat match type of E with
         | context [match ?x with _ => _ end] => destruct x
         end; discriminate.
Qed.

Lemma load_lines_record (f : option text) (kvs : dict) (ls : list text) (acc : list json) :
  wf_json (JObj kvs) = true ->
  load_lines f (record_line (JObj kvs) :: ls) acc
  = if filtered_out f (loaded_form (JObj kvs)) then load_lines f ls acc
    else load_lines f ls (loaded_form (JObj kvs) :: acc).
Proof.
  intros Hw. cbn [load_lines].
  rewrite record_line_obj at 1. rewrite py_strip_nonempty by reflexivity.
  unfold record_line. rewrite json_loads_line by exact Hw.
  rewrite load_fixup_obj. reflexivity.
Qed.

Lemma filtered_out_make_record (ts t : text) (p d : json) :
  filtered_out (Some t) (loaded_form (make_record ts t p d)) = false.
Proof.
  destruct t as [|c t']; [destruct (loaded_form _); reflexivity|].
  unfold loaded_form, load_fixup, make_record. cbv zeta.
  simpl. destruct d; simpl; rewrite ?Z.eqb_refl, ?text_eqb_refl; reflexivity.
Qed.

Lemma loaded_form_make_record (ts t : text) (p d : json) :
  t <> [] ->
  loaded_form (make_record ts t p d)
  = make_record ts t p (match d with
                        | JObj dd => JObj (if opt_truthy (dict_get (u "ticker") dd) then dd
                                           else dict_set (u "ticker") (JStr t) dd)
                        | _ => d
                        end).
Proof.
  destruct t as [|c t']; [congruence|]. intros _.
  unfold loaded_form, load_fixup, make_record. cbv zeta. simpl.
  destruct d; try reflexivity. rewrite andb_true_r.
  destruct (opt_truthy _); reflexivity.
Qed.

Lemma load_file_text (o : file_state) (f : option text) :
  load o f = load_lines f (read_lines (file_text o)) [].
Proof. destruct o; reflexivity. Qed.

(** C6 (as amended): when the file is missing or ends in a newline, and
    each record is a value [json.loads] can return and [json.dumps] writes
    back, within the recursion and int-digit limits, and UTF-8 can encode
    its line, [Storage.save] returns its record and appends exactly its
    line, with the timestamp defaulting to the clock; after two saves for
    [t], [load(t)] returns the second record, then the first (each as
    [load] reads it back), then what it returned before. *)
Theorem save_twice_then_load (o : file_state) (now1 now2 t : text) (d1 d2 p1 p2 : json)
  (ts1 ts2 : option text) :
  ends_line (file_text o) ->
  wf_json (make_record (choose_timestamp ts1 now1) t p1 d1) = true ->
  wf_json (make_record (choose_timestamp ts2 now2) t p2 d2) = true ->
  encodable (record_line (make_record (choose_timestamp ts1 now1) t p1 d1)) = true ->
  encodable (record_line (make_record (choose_timestamp ts2 now2) t p2 d2)) = true ->
  let r1 := make_record (choose_timestamp ts1 now1) t p1 d1 in
  let r2 := make_record (choose_timestamp ts2 now2) t p2 d2 in
  (ts1 = None -> choose_timestamp ts1 now1 = now1) /\
  save o now1 t d1 p1 ts1 = (Ok r1, Some (file_text o ++ record_line r1)) /\
  save (Some (file_text o ++ record_line r1)) now2 t d2 p2 ts2
    = (Ok r2, Some (file_text o ++ record_line r1 ++ record_line r2)) /\
  load (Some (file_text o ++ record_line r1 ++ record_line r2)) (Some t)
    = match load o (Some t) with
      | Ok l => Ok (loaded_form r2 :: loaded_form r1 :: l)
      | Err e => Err e
      end.
Proof.
  intros Ho W1 W2 He1 He2 r1 r2.
  pose proof (wf_json_raise _ W1) as R1. pose proof (wf_json_raise _ W2) as R2.
  split; [intros ->; reflexivity|].
  split; [unfold save, r1; cbv zeta; rewrite R1, He1; destruct o; reflexivity|].
  split; [unfold save, r2; cbv zeta; rewrite R2, He2; cbn [file_text]; rewrite app_assoc; reflexivity|].
  rewrite (load_file_text o). unfold load.
  rewrite (read_lines_app _ _ Ho).
  assert (E : record_line r1 ++ record_line r2 = dumps r1 ++ 10%Z :: (dumps r2 ++ 10%Z :: []))
    by (unfold record_line; rewrite <- app_assoc; reflexivity).
  rewrite E, read_lines_line, read_lines_line by (apply dumps_no_newline; assumption).
  change (read_lines []) with (@nil text).
  rewrite load_lines_app.
  destruct (load_lines (Some t) (read_lines (file_text o)) []) as [acc|e]; [|reflexivity].
  change (dumps r1 ++ [10%Z]) with (record_line r1). change (dumps r2 ++ [10%Z]) with (record_line r2).
  unfold r1, r2, make_record. rewrite !load_lines_record by assumption.
  fold (make_record (choose_timestamp ts1 now1) t p1 d1). fold (make_record (choose_timestamp ts2 now2) t p2 d2).
  rewrite !filtered_out_make_record. reflexivity.
Qed.

(* ================================================================= *)
(** ** [Storage.save_and_replace] *)

(* ================================================================= *)
(** ** Setting a schema key before normalizing *)
Lemma dict_get_set_same (k : text) (v : json) (d : dict) : dict_get k (dict_set k v d) = Some v.
Proof.
  induction d as [|[k' v'] d IH]; simpl; [rewrite text_eqb_refl; reflexivity|].
  destruct (text_eqb k k') eqn:E; simpl; rewrite ?E; [reflexivity|exact IH].
Qed.

Lemma dict_get_set_other (k k' : text) (v : json) (d : dict) :
  k <> k' -> dict_get k (dict_set k' v d) = dict_get k d.
Proof.
  intros Hne. induction d as [|[k0 v0] d IH]; simpl.
  - rewrite text_eqb_neq by exact Hne. reflexivity.
  - destruct (text_eqb k' k0) eqn:E; simpl.
    + apply text_eqb_eq in E. subst k0. rewrite text_eqb_neq by exact Hne. reflexivity.
    + destruct (text_eqb k k0); [reflexivity|exact IH].
Qed.

Lemma dict_set_map (k : text) (v : json) (g : text * json -> json) (l : dict) :
  NoDup (map fst l) -> In k (map fst l) ->
  dict_set k v (map (fun kv => (fst kv, g kv)) l)
  = map (fun kv => (fst kv, if text_eqb k (fst kv) then v else g kv)) l.
Proof.
  induction l as [|[k0 v0] l IH]; simpl; intros Hnd Hin; [contradiction|].
  inversion Hnd as [|? ? Hn Hnd']; subst.
  destruct (text_eqb k k0) eqn:E.
  - apply text_eqb_eq in E. subst k0. f_equal.
    apply map_ext_in. intros [k1 v1] H1. simpl.
    rewrite text_eqb_neq; [reflexivity|].
    intros ->. apply Hn. exact (in_map fst _ _ H1).
  - f_equal. apply IH; [exact Hnd'|].
    destruct Hin as [->|Hin]; [rewrite text_eqb_refl in E; discriminate|exact Hin].
Qed.

(** X1: setting a key of the Fixed Schema other than [ticker] to a
    non-null value commutes with [normalize_history_data]: normalizing
    the updated input gives the normalized input with that key set. *)
Lemma normalize_set_schema_key (d : dict) (h : option text) (k : text) (v : json) :
  In k schema_keys -> k <> u "ticker" -> is_null v = false ->
  normalize_history_data (JObj (dict_set k v d)) h = dict_set k v (normalize_history_data (JObj d) h).
Proof.
  intros Hk Ht Hv. rewrite !normalize_history_data_eq. unfold normalize_expected.
  rewrite dict_set_map; [| apply template_NoDup | rewrite template_keys; exact Hk].
  apply map_ext_in. intros [k0 dv] Hin. cbn [fst snd]. f_equal.
  destruct (text_eqb k k0) eqn:E.
  - apply text_eqb_eq in E. subst k0. rewrite (text_eqb_neq k (u "ticker") Ht). simpl.
    unfold pick. rewrite dict_get_set_same, Hv. reflexivity.
  - destruct (text_eqb k0 (u "ticker") && negb (is_nil (hint_text h))); [reflexivity|].
    unfold pick. rewrite dict_get_set_other; [reflexivity|].
    intros ->. rewrite text_eqb_refl in E. discriminate.
Qed.

(** Witness of X1. *)
Lemma normalize_set_schema_key_witness :
  normalize_history_data
    (JObj (dict_set (u "north_star_metrics") (JArr [JInt 1]) [(u "company_name", JStr (u "Apple"))]))
    (Some (u "AAPL"))
  = dict_set (u "north_star_metrics") (JArr [JInt 1])
      (normalize_history_data (JObj [(u "company_name", JStr (u "Apple"))]) (Some (u "AAPL"))).
Proof.
  apply normalize_set_schema_key; [vm_compute; do 6 right; left; reflexivity | text_ne | reflexivity].
Defined.

(* ================================================================= *)
(** ** [Storage.save_and_replace] and the other tickers *)
Lemma ticker_ne_price : u "ticker" <> u "price".
Proof. intro H. vm_compute in H. discriminate H. Qed.

Lemma ticker_ne_data : u "ticker" <> u "data".
Proof. intro H. vm_compute in H. discriminate H. Qed.

Lemma loaded_form_ticker (kvs : dict) :
  opt_truthy (dict_get (u "ticker") kvs) = true ->
  exists kvs', loaded_form (JObj kvs) = JObj kvs' /\ dict_get (u "ticker") kvs' = dict_get (u "ticker") kvs.
Proof.
  intros Ht. unfold loaded_form, load_fixup. cbv zeta.
  set (kvs1 := if dict_has (u "price") kvs return list (text * json) then kvs
               else dict_set (u "price") JNull kvs).
  assert (H1 : dict_get (u "ticker") kvs1 = dict_get (u "ticker") kvs)
    by (unfold kvs1; destruct (dict_has _ _); [reflexivity|apply dict_get_set_other, ticker_ne_price]).
  destruct (dict_get (u "data") kvs1) as [[| | | | | |d]|]; try (eexists; split; [reflexivity|exact H1]).
  rewrite dict_get_set_other by exact ticker_ne_data. rewrite H1, Ht. simpl.
  eexists; split; [reflexivity|]. rewrite dict_get_set_other by exact ticker_ne_data. exact H1.
Qed.

Lemma filtered_out_loaded_truthy (f : option text) (kvs : dict) :
  opt_truthy (dict_get (u "ticker") kvs) = true ->
  filtered_out f (loaded_form (JObj kvs)) = filtered_out f (JObj kvs).
Proof.
  intros Ht. destruct (loaded_form_ticker kvs Ht) as [kvs' [-> E]].
  destruct f; simpl; rewrite ?E; reflexivity.
Qed.

Lemma filtered_out_other_record (ts t uu : text) (p d : json) :
  t <> [] -> uu <> [] -> t <> uu ->
  filtered_out (Some uu) (loaded_form (make_record ts t p d)) = true.
Proof.
  intros Ht Hu Htu. unfold make_record.
  rewrite filtered_out_loaded_truthy by (destruct t; [congruence|reflexivity]).
  simpl. destruct uu; [congruence|]. simpl. rewrite text_eqb_neq by exact Htu. reflexivity.
Qed.

Lemma write_records_app (w : text) (K : list json) (r : json) :
  forallb wf_json K = true -> forallb (fun x => encodable (record_line x)) K = true ->
  dumps_raise recursion_room r = None ->
  write_records w (K ++ [r])
  = if encodable (record_line r) then (Ok tt, w ++ concat (map record_line K) ++ record_line r)
    else (Err UnicodeEncodeError, w ++ concat (map record_line K)).
Proof.
  intros Hw He Hr. revert w Hw He; induction K as [|k K IH]; intros w Hw H; simpl.
  - rewrite Hr, app_nil_r. destruct (encodable (record_line r)); reflexivity.
  - apply andb_prop in H as [Hk H]. apply andb_prop in Hw as [Hwk Hw].
    rewrite (wf_json_raise k Hwk), Hk, IH by assumption. rewrite !app_assoc. reflexivity.
Qed.

Lemma read_lines_records (K : list json) (x : text) :
  forallb wf_json K = true ->
  read_lines (concat (map record_line K) ++ x) = map record_line K ++ read_lines x.
Proof.
  induction K as [|k K IH]; intros H; [reflexivity|]. simpl in H. apply andb_prop in H as [Hk H].
  cbn [map concat]. unfold record_line at 1. rewrite <- !app_assoc. cbn [app].
  rewrite read_lines_line by (apply dumps_no_newline; exact Hk). rewrite IH by exact H. reflexivity.
Qed.

Lemma read_lines_record (r : json) : wf_json r = true -> read_lines (record_line r) = [record_line r].
Proof. intros H. unfold record_line. rewrite read_lines_line by (apply dumps_no_newline; exact H). reflexivity. Qed.

Lemma replace_keep_sub (t : text) (L : list text) (K : list json) :
  replace_keep t L = Ok K ->
  forall r, In r K -> exists l kvs, In l L /\ json_loads l = Ok r /\ r = JObj kvs /\
                               py_ne_str (dict_get (u "ticker") kvs) t = true.
Proof.
  revert K; induction L as [|l L IH]; intros K H r Hin; simpl in H.
  - injection H as <-. destruct Hin.
  - destruct (is_nil (py_strip l)).
    + destruct (IH K H r Hin) as [l' [kvs [? ?]]]. exists l', kvs. split; [right; assumption|assumption].
    + destruct (json_loads l) as [[| | | | | |kvs]|[m p|e]] eqn:Hj; try discriminate.
      * destruct (py_ne_str _ t) eqn:Hn.
        -- destruct (replace_keep t L) as [K'|] eqn:Hr; [|discriminate]. injection H as <-.
           destruct Hin as [<-|Hin].
           ++ exists l, kvs. repeat split; [left; reflexivity|exact Hj|exact Hn].
           ++ destruct (IH K' eq_refl r Hin) as [l' [kvs' [? ?]]]. exists l', kvs'. split; [right; assumption|assumption].
        -- destruct (IH K H r Hin) as [l' [kvs' [? ?]]]. exists l', kvs'. split; [right; assumption|assumption].
      * destruct (IH K H r Hin) as [l' [kvs' [? ?]]]. exists l', kvs'. split; [right; assumption|assumption].
Qed.

Lemma replace_keep_load (t uu : text) (L : list text) (K : list json) (acc : list json) :
  t <> [] -> uu <> [] -> t <> uu ->
  (forall l r, In l L -> json_loads l = Ok r -> wf_json r = true) ->
  replace_keep t L = Ok K ->
  load_lines (Some uu) L acc = load_lines (Some uu) (map record_line K) acc.
Proof.
  intros Ht Hu Htu. revert K acc; induction L as [|l L IH]; intros K acc Hwf H; simpl in H.
  - injection H as <-. reflexivity.
  - assert (Hwf' : forall l' r, In l' L -> json_loads l' = Ok r -> wf_json r = true)
      by (intros l' r Hl; apply Hwf; right; exact Hl).
    destruct (is_nil (py_strip l)) eqn:Hb.
    + rewrite load_lines_skip by (rewrite Hb; reflexivity). apply IH; assumption.
    + destruct (json_loads l) as [r|e] eqn:Hj.
      2: { destruct e as [m p|e]; [|discriminate].
           rewrite load_lines_skip by (rewrite Hj, orb_true_r; reflexivity). apply IH; assumption. }
      destruct r as [| | | | | |kvs]; try discriminate.
      cbn [load_lines]. rewrite Hb, Hj, load_fixup_obj.
      destruct (py_ne_str (dict_get (u "ticker") kvs) t) eqn:Hn.
      * destruct (replace_keep t L) as [K'|] eqn:Hr; [|discriminate]. injection H as <-.
        cbn [map]. rewrite load_lines_record by (apply (Hwf l); [left; reflexivity|exact Hj]).
        destruct (filtered_out _ _); apply IH; first [assumption|reflexivity].
      * unfold py_ne_str in Hn.
        destruct (dict_get (u "ticker") kvs) as [[| | | | s| |]|] eqn:Eg; try discriminate.
        apply negb_false_iff, text_eqb_eq in Hn. subst s.
        rewrite filtered_out_loaded_truthy by (rewrite Eg; destruct t; [congruence|reflexivity]).
        simpl. rewrite Eg. destruct uu; [congruence|]. simpl. rewrite text_eqb_neq by exact Htu.
        apply IH; assumption.
Qed.

Lemma replace_keep_ok (t : text) (L : list text) :
  (forall l, In l L -> match json_loads l with
                     | Ok r => exists kvs, r = JObj kvs
                     | Err (DecodeError _ _) => True
                     | Err (LoadsRaise _) => False
                     end) ->
  exists K, replace_keep t L = Ok K.
Proof.
  induction L as [|l L IH]; intros H; [exists []; reflexivity|]. simpl.
  destruct IH as [K HK]; [intros l' Hl; apply H; right; exact Hl|].
  destruct (is_nil (py_strip l)); [exists K; exact HK|].
  specialize (H l (or_introl eq_refl)).
  destruct (json_loads l) as [r|[m p|e]]; [|exists K; exact HK|contradiction].
  destruct H as [kvs ->]. rewrite HK.
  destruct (py_ne_str _ t); [exists (JObj kvs :: K)|exists K]; reflexivity.
Qed.

Lemma replace_keep_file (file : file_state) (t : text) :
  match file with None => Ok [] | Some s => replace_keep t (read_lines s) end
  = replace_keep t (read_lines (file_text file)).
Proof. destruct file; reflexivity. Qed.

Lemma kept_lines_filtered (t : text) (K : list json) (acc : list json) :
  t <> [] ->
  (forall r, In r K -> exists kvs, r = JObj kvs /\ opt_truthy (dict_get (u "ticker") kvs) = true /\
                              wf_json r = true /\ py_ne_str (dict_get (u "ticker") kvs) t = true) ->
  load_lines (Some t) (map record_line K) acc = Ok acc.
Proof.
  intros Ht. induction K as [|k K IH]; intros H; [reflexivity|].
  destruct (H k (or_introl eq_refl)) as [kvs [-> [Htr [Hw Hn]]]].
  cbn [map]. rewrite load_lines_record by exact Hw.
  rewrite filtered_out_loaded_truthy by exact Htr. simpl.
  destruct t; [congruence|]. simpl. rewrite Hn. apply IH.
  intros r Hr. apply H. right. exact Hr.
Qed.

Lemma tickered_replace_keep (file : file_state) (t : text) :
  t <> [] -> tickered_store file ->
  exists K, replace_keep t (read_lines (file_text file)) = Ok K /\
            forallb (fun x => encodable (record_line x)) K = true /\ forallb wf_json K = true /\
            (forall acc, load_lines (Some t) (map record_line K) acc = Ok acc).
Proof.
  intros Ht Hst.
  destruct (replace_keep_ok t (read_lines (file_text file))) as [K HK].
  { intros l Hl. specialize (Hst l Hl). destruct (json_loads l) as [r|[m p|e]]; try exact Hst.
    destruct Hst as [kvs [-> _]]. exists kvs. reflexivity. }
  assert (Hsub : forall r, In r K -> exists kvs, r = JObj kvs /\ opt_truthy (dict_get (u "ticker") kvs) = true /\
                   wf_json r = true /\ encodable (record_line r) = true /\
                   py_ne_str (dict_get (u "ticker") kvs) t = true).
  { intros r Hin. destruct (replace_keep_sub _ _ _ HK r Hin) as [l [kvs [Hl [Hj [-> Hn]]]]].
    specialize (Hst l Hl). rewrite Hj in Hst.
    destruct Hst as [kvs' [E [H1 [H2 H3]]]]. injection E as <-.
    exists kvs. repeat split; assumption. }
  exists K. repeat split; [exact HK| | |].
  - apply forallb_forall. intros r Hin. destruct (Hsub r Hin) as [kvs [_ [_ [_ [H _]]]]]. exact H.
  - apply forallb_forall. intros r Hin. destruct (Hsub r Hin) as [kvs [_ [_ [H _]]]]. exact H.
  - intros acc. apply kept_lines_filtered; [exact Ht|].
    intros r Hin. destruct (Hsub r Hin) as [kvs [H1 [H2 [H3 [_ H5]]]]]. exists kvs. repeat split; assumption.
Qed.

(** X2: when every line of the log that parses holds a value [json.dumps]
    writes back, [Storage.save_and_replace] for a non-empty ticker leaves
    [load] unchanged for every other non-empty ticker, whether the final
    write succeeds or not. *)
Theorem save_and_replace_keeps_other_tickers (file : file_state) (now t uu : text) (data price : json)
  (timestamp : option text) :
  t <> [] -> uu <> [] -> t <> uu -> well_stored file ->
  wf_json (make_record (choose_timestamp timestamp now) t price data) = true ->
  load (snd (save_and_replace file now t data price timestamp)) (Some uu) = load file (Some uu).
Proof.
  intros Ht Hu Htu Hst Hnew. unfold save_and_replace. rewrite replace_keep_file.
  destruct (replace_keep t (read_lines (file_text file))) as [K|e] eqn:Hr; [|reflexivity].
  cbv zeta.
  assert (HK : forall r, In r K -> wf_json r = true /\ encodable (record_line r) = true).
  { intros r Hin. destruct (replace_keep_sub _ _ _ Hr r Hin) as [l [kvs [Hl [Hj _]]]]. exact (Hst l r Hl Hj). }
  assert (HKe : forallb (fun x => encodable (record_line x)) K = true)
    by (apply forallb_forall; intros r Hin; apply HK, Hin).
  assert (HKw : forallb wf_json K = true) by (apply forallb_forall; intros r Hin; apply HK, Hin).
  rewrite write_records_app by first [exact HKe | exact HKw | exact (wf_json_raise _ Hnew)].
  rewrite (load_file_text file),
          (replace_keep_load t uu _ K [] Ht Hu Htu (fun l r Hl Hj => proj1 (Hst l r Hl Hj)) Hr).
  destruct (encodable (record_line _)); cbn [snd]; unfold load; rewrite app_nil_l.
  - rewrite read_lines_records, read_lines_record by assumption.
    rewrite load_lines_app. destruct (load_lines (Some uu) (map record_line K) []) as [acc|e]; [|reflexivity].
    unfold make_record at 1. rewrite load_lines_record by exact Hnew.
    pose proof (filtered_out_other_record (choose_timestamp timestamp now) t uu price data Ht Hu Htu) as Hf.
    unfold make_record in Hf. rewrite Hf. reflexivity.
  - rewrite <- (app_nil_r (concat _)). rewrite read_lines_records by exact HKw.
    rewrite app_nil_r. reflexivity.
Qed.

Lemma save_and_replace_alone (file : file_state) (now t : text) (data price : json)
  (timestamp : option text) :
  t <> [] -> tickered_store file ->
  wf_json (make_record (choose_timestamp timestamp now) t price data) = true ->
  encodable (record_line (make_record (choose_timestamp timestamp now) t price data)) = true ->
  fst (save_and_replace file now t data price timestamp)
    = Ok (make_record (choose_timestamp timestamp now) t price data) /\
  load (snd (save_and_replace file now t data price timestamp)) (Some t)
    = Ok [loaded_form (make_record (choose_timestamp timestamp now) t price data)].
Proof.
  intros Ht Hst Hw He.
  destruct (tickered_replace_keep file t Ht Hst) as [K [HK [HKe [HKw HKl]]]].
  unfold save_and_replace. rewrite replace_keep_file, HK. cbv zeta.
  rewrite write_records_app by first [exact HKe | exact HKw | exact (wf_json_raise _ Hw)].
  rewrite He. split; [reflexivity|].
  cbn [snd]. unfold load. rewrite app_nil_l, read_lines_records, read_lines_record by assumption.
  rewrite load_lines_app, HKl.
  unfold make_record at 1. rewrite load_lines_record by exact Hw.
  pose proof (filtered_out_make_record (choose_timestamp timestamp now) t price data) as Hf.
  unfold make_record in Hf. rewrite Hf. reflexivity.
Qed.

(** X3: for a non-empty ticker, on a log where every line that parses is
    a dict with a truthy [ticker] (as [save] writes them) that [json.dumps]
    writes back within the recursion and int-digit limits, and no line makes
    [json.loads] raise anything but [JSONDecodeError], when the new record is
    within those limits and UTF-8 can encode its line,
    [Storage.save_and_replace] returns the new record and afterwards [load]
    for its ticker gives that record alone. *)
Theorem save_and_replace_single_record (file : file_state) (now t : text) (data price : json)
  (timestamp : option text) :
  t <> [] -> tickered_store file ->
  wf_json (make_record (choose_timestamp timestamp now) t price data) = true ->
  encodable (record_line (make_record (choose_timestamp timestamp now) t price data)) = true ->
  fst (save_and_replace file now t data price timestamp)
    = Ok (make_record (choose_timestamp timestamp now) t price data) /\
  load (snd (save_and_replace file now t data price timestamp)) (Some t)
    = Ok [loaded_form (make_record (choose_timestamp timestamp now) t price data)].
Proof. exact (save_and_replace_alone file now t data price timestamp). Qed.

(** X4: for a non-empty ticker, on such a log (as in X3), if the new
    record is within the recursion and int-digit limits but UTF-8 cannot
    encode its line, [Storage.save_and_replace] raises [UnicodeEncodeError]
    after the file has been rewritten without the ticker's records: [load]
    for that ticker then returns nothing. *)
Theorem save_and_replace_failed_write (file : file_state) (now t : text) (data price : json)
  (timestamp : option text) :
  t <> [] -> tickered_store file ->
  wf_json (make_record (choose_timestamp timestamp now) t price data) = true ->
  encodable (record_line (make_record (choose_timestamp timestamp now) t price data)) = false ->
  fst (save_and_replace file now t data price timestamp) = Err UnicodeEncodeError /\
  load (snd (save_and_replace file now t data price timestamp)) (Some t) = Ok [].
Proof.
  intros Ht Hst Hw He.
  destruct (tickered_replace_keep file t Ht Hst) as [K [HK [HKe [HKw HKl]]]].
  unfold save_and_replace. rewrite replace_keep_file, HK. cbv zeta.
  rewrite write_records_app by first [exact HKe | exact HKw | exact (wf_json_raise _ Hw)]. rewrite He. split; [reflexivity|].
  cbn [snd]. unfold load. rewrite app_nil_l, <- (app_nil_r (concat _)), read_lines_records by exact HKw.
  rewrite app_nil_r. apply HKl.
Qed.

(* ================================================================= *)
(** ** Model replies: [AIEngine._clean_json] and [json.loads] *)
Lemma drop_prefix_app (p x : text) : drop_prefix p (p ++ x) = Some x.
Proof. induction p as [|c p IH]; simpl; [reflexivity|]. rewrite Z.eqb_refl. exact IH. Qed.

Lemma lstrip_spaces (p : Z -> bool) (ws x : text) :
  forallb p ws = true -> lstrip_by p (ws ++ x) = lstrip_by p x.
Proof.
  induction ws as [|c ws IH]; simpl; intros H; [reflexivity|].
  apply andb_prop in H as [Hc H]. rewrite Hc. apply IH, H.
Qed.

Lemma forallb_rev_eq (p : Z -> bool) (l : text) : forallb p (rev l) = forallb p l.
Proof.
  induction l as [|c l IH]; simpl; [reflexivity|].
  rewrite forallb_app, IH. simpl. rewrite andb_true_r, andb_comm. reflexivity.
Qed.

Lemma py_strip_around (ws1 ws2 m : text) (c d : Z) :
  forallb py_isspace ws1 = true -> forallb py_isspace ws2 = true ->
  py_isspace c = false -> py_isspace d = false ->
  py_strip (ws1 ++ c :: m ++ d :: ws2) = c :: m ++ [d].
Proof.
  intros H1 H2 Hc Hd. unfold py_strip, strip_by, rstrip_by.
  rewrite lstrip_spaces by exact H1. cbn [lstrip_by]. rewrite Hc.
  replace (rev (c :: m ++ d :: ws2)) with (rev ws2 ++ d :: rev m ++ [c])
    by (simpl; rewrite rev_app_distr; simpl; rewrite <- !app_assoc; reflexivity || (simpl; reflexivity)).
  rewrite lstrip_spaces by (rewrite forallb_rev_eq; exact H2).
  cbn [lstrip_by]. rewrite Hd.
  simpl. rewrite rev_app_distr, rev_involutive. simpl. rewrite <- ?app_assoc. reflexivity.
Qed.

Lemma json_loads_dumps (v : json) : wf_json v = true -> json_loads (dumps v) = Ok v.
Proof.
  intros Hwf. rewrite <- (app_nil_r (dumps v)). apply json_loads_with_dumps; [exact Hwf|reflexivity].
Qed.

Lemma dumps_obj_ends (kvs : dict) : dumps (JObj kvs) = 123%Z :: dumps_members kvs ++ [125%Z].
Proof. rewrite dumps_obj. reflexivity. Qed.

Lemma sub_fence_close_end (y : text) : sub_fence_close (y ++ 10%Z :: u "```") = y.
Proof.
  unfold sub_fence_close. rewrite rev_app_distr.
  change (rev (10%Z :: u "```")) with (rev (10%Z :: u "```")).
  rewrite drop_prefix_app, rev_involutive. reflexivity.
Qed.

Lemma drop_prefix_some (p x y : text) : drop_prefix p x = Some y -> x = p ++ y.
Proof.
  revert x; induction p as [|c p IH]; intros x H; simpl in H.
  - injection H as <-. reflexivity.
  - destruct x as [|c' x]; [discriminate|]. destruct (Z.eqb_spec c c'); [|discriminate].
    subst c'. simpl. f_equal. apply IH, H.
Qed.

Lemma drop_prefix_common (p q x : text) : drop_prefix (p ++ q) (p ++ x) = drop_prefix q x.
Proof. induction p as [|c p IH]; simpl; [reflexivity|]. rewrite Z.eqb_refl. exact IH. Qed.

Lemma newline_split (a b x y : text) :
  no_newline a = true -> no_newline b = true -> a ++ 10%Z :: x = b ++ 10%Z :: y -> a = b.
Proof.
  revert b; induction a as [|c a IH]; intros [|d b] Ha Hb E; simpl in *.
  - reflexivity.
  - injection E as E _. subst d. discriminate.
  - injection E as E _. subst c. discriminate.
  - injection E as <- E. apply andb_prop in Ha as [_ Ha]. apply andb_prop in Hb as [_ Hb].
    f_equal. exact (IH b Ha Hb E).
Qed.

Lemma lstrip_keep_last (p : Z -> bool) (a : text) (c : Z) :
  p c = false -> exists a', lstrip_by p (a ++ [c]) = a' ++ [c].
Proof.
  intros Hc. induction a as [|x a IH]; simpl.
  - rewrite Hc. exists []. reflexivity.
  - destruct (p x); [exact IH|]. exists (x :: a). reflexivity.
Qed.

Lemma py_strip_head (c : Z) (s : text) : py_isspace c = false -> exists r, py_strip (c :: s) = c :: r.
Proof.
  intros Hc. unfold py_strip, strip_by, rstrip_by. cbn [lstrip_by]. rewrite Hc. cbn [rev].
  destruct (lstrip_keep_last py_isspace (rev s) c Hc) as [a' ->].
  rewrite rev_app_distr. exists (rev a'). reflexivity.
Qed.

Lemma json_loads_backtick (r : text) : decode_failed (json_loads (96%Z :: r)) = true.
Proof.
  unfold json_loads, json_loads_with. change (skip_ws (96%Z :: r)) with (96%Z :: r).
  rewrite scan_value_no_start by reflexivity. reflexivity.
Qed.

Lemma parse_reply_dumps_obj (kvs : dict) (ws1 ws2 : text) :
  wf_json (JObj kvs) = true -> forallb py_isspace ws1 = true -> forallb py_isspace ws2 = true ->
  parse_reply (ws1 ++ dumps (JObj kvs) ++ ws2) = Ok (JObj kvs) /\
  parse_reply (ws1 ++ u "```json" ++ [10%Z] ++ dumps (JObj kvs) ++ [10%Z] ++ u "```" ++ ws2) = Ok (JObj kvs) /\
  parse_reply (ws1 ++ u "```" ++ [10%Z] ++ dumps (JObj kvs) ++ [10%Z] ++ u "```" ++ ws2) = Ok (JObj kvs).
Proof.
  intros Hw H1 H2. unfold parse_reply, clean_json.
  assert (Hd : py_strip (dumps (JObj kvs)) = dumps (JObj kvs)).
  { rewrite dumps_obj_ends. rewrite <- (app_nil_l (123%Z :: _)).
    rewrite py_strip_around by reflexivity. reflexivity. }
  repeat split.
  - rewrite dumps_obj_ends.
    replace (ws1 ++ (123%Z :: dumps_members kvs ++ [125%Z]) ++ ws2)
      with (ws1 ++ 123%Z :: dumps_members kvs ++ 125%Z :: ws2)
      by (simpl; rewrite <- !app_assoc; reflexivity).
    rewrite py_strip_around by (assumption || reflexivity).
    replace (drop_prefix (u "```") (123%Z :: dumps_members kvs ++ [125%Z])) with (@None text)
      by reflexivity.
    rewrite <- dumps_obj_ends, Hd, json_loads_dumps by exact Hw. reflexivity.
  - replace (ws1 ++ u "```json" ++ [10%Z] ++ dumps (JObj kvs) ++ [10%Z] ++ u "```" ++ ws2)
      with (ws1 ++ 96%Z :: (u "``json" ++ [10%Z] ++ dumps (JObj kvs) ++ [10%Z] ++ u "``") ++ 96%Z :: ws2)
      by (simpl; rewrite <- !app_assoc; reflexivity).
    rewrite py_strip_around by (assumption || reflexivity).
    replace (96%Z :: (u "``json" ++ [10%Z] ++ dumps (JObj kvs) ++ [10%Z] ++ u "``") ++ [96%Z])
      with ((u "```json" ++ [10%Z]) ++ dumps (JObj kvs) ++ 10%Z :: u "```")
      by (simpl; rewrite <- !app_assoc; reflexivity).
    destruct (drop_prefix (u "```") _) eqn:E; [|simpl in E; discriminate].
    unfold sub_fence_open. rewrite drop_prefix_app.
    rewrite sub_fence_close_end, Hd, json_loads_dumps by exact Hw. reflexivity.
  - replace (ws1 ++ u "```" ++ [10%Z] ++ dumps (JObj kvs) ++ [10%Z] ++ u "```" ++ ws2)
      with (ws1 ++ 96%Z :: (u "``" ++ [10%Z] ++ dumps (JObj kvs) ++ [10%Z] ++ u "``") ++ 96%Z :: ws2)
      by (simpl; rewrite <- !app_assoc; reflexivity).
    rewrite py_strip_around by (assumption || reflexivity).
    replace (96%Z :: (u "``" ++ [10%Z] ++ dumps (JObj kvs) ++ [10%Z] ++ u "``") ++ [96%Z])
      with ((u "```" ++ [10%Z]) ++ dumps (JObj kvs) ++ 10%Z :: u "```")
      by (simpl; rewrite <- !app_assoc; reflexivity).
    destruct (drop_prefix (u "```") _) eqn:E; [|simpl in E; discriminate].
    unfold sub_fence_open.
    destruct (drop_prefix (u "```json" ++ [10%Z]) _) eqn:E2; [simpl in E2; discriminate|].
    rewrite drop_prefix_app.
    rewrite sub_fence_close_end, Hd, json_loads_dumps by exact Hw. reflexivity.
Qed.

(** X5: a reply holding [json.dumps] of an object, bare or in a
    [```json] or [```] fence, with whitespace around, parses back to that
    object. *)
Theorem parse_reply_object (kvs : dict) (ws1 ws2 : text) :
  wf_json (JObj kvs) = true -> forallb py_isspace ws1 = true -> forallb py_isspace ws2 = true ->
  parse_reply (ws1 ++ dumps (JObj kvs) ++ ws2) = Ok (JObj kvs) /\
  parse_reply (ws1 ++ u "```json" ++ [10%Z] ++ dumps (JObj kvs) ++ [10%Z] ++ u "```" ++ ws2) = Ok (JObj kvs) /\
  parse_reply (ws1 ++ u "```" ++ [10%Z] ++ dumps (JObj kvs) ++ [10%Z] ++ u "```" ++ ws2) = Ok (JObj kvs).
Proof. exact (parse_reply_dumps_obj kvs ws1 ws2). Qed.

(** X6: a reply fenced with any other tag on the opening line (for
    example [```JSON]) keeps its opening fence, so parsing it raises
    [ValueError]. *)
Theorem parse_reply_other_fence (tag body ws1 ws2 : text) :
  forallb py_isspace ws1 = true -> forallb py_isspace ws2 = true ->
  tag <> [] -> tag <> u "json" -> no_newline tag = true ->
  parse_reply (ws1 ++ u "```" ++ tag ++ [10%Z] ++ body ++ [10%Z] ++ u "```" ++ ws2) = Err ValueError.
Proof.
  intros H1 H2 Hne Hjs Hnl. unfold parse_reply, clean_json.
  replace (ws1 ++ u "```" ++ tag ++ [10%Z] ++ body ++ [10%Z] ++ u "```" ++ ws2)
    with (ws1 ++ 96%Z :: (u "``" ++ tag ++ [10%Z] ++ body ++ [10%Z] ++ u "``") ++ 96%Z :: ws2)
    by (repeat progress (simpl; rewrite <- ?app_assoc); reflexivity).
  rewrite py_strip_around by (assumption || reflexivity).
  replace (96%Z :: (u "``" ++ tag ++ [10%Z] ++ body ++ [10%Z] ++ u "``") ++ [96%Z])
    with (u "```" ++ tag ++ 10%Z :: body ++ 10%Z :: u "```")
    by (repeat progress (simpl; rewrite <- ?app_assoc); reflexivity).
  rewrite drop_prefix_app.
  assert (Hopen : sub_fence_open (u "```" ++ tag ++ 10%Z :: body ++ 10%Z :: u "```")
                  = u "```" ++ tag ++ 10%Z :: body ++ 10%Z :: u "```").
  { unfold sub_fence_open.
    destruct (drop_prefix (u "```json" ++ [10%Z]) _) as [y|] eqn:E.
    - exfalso. apply drop_prefix_some in E. simpl in E. injection E as E.
      apply Hjs. symmetry. refine (newline_split (u "json") tag y _ eq_refl Hnl _).
      rewrite E. reflexivity.
    - destruct tag as [|c tag]; [congruence|].
      simpl in Hnl. apply andb_prop in Hnl as [Hc _].
      rewrite drop_prefix_common. cbn [app drop_prefix].
      destruct (Z.eqb_spec 10 c); [subst c; discriminate|reflexivity]. }
  rewrite Hopen.
  replace (u "```" ++ tag ++ 10%Z :: body ++ 10%Z :: u "```")
    with ((u "```" ++ tag ++ 10%Z :: body) ++ 10%Z :: u "```")
    by (rewrite <- !app_assoc; reflexivity).
  rewrite sub_fence_close_end. cbn [u list_ascii_of_string map app].
  destruct (py_strip_head 96 (96%Z :: 96%Z :: tag ++ 10%Z :: body) eq_refl) as [r Hr].
  change (nat_of_ascii "`") with 96%nat. simpl Z.of_nat. rewrite Hr.
  pose proof (json_loads_backtick r) as Hf.
  destruct (json_loads _) as [|[m p|e]]; [discriminate|reflexivity|discriminate].
Qed.

(* ================================================================= *)
(** ** Routes that save: [/api/save], [/api/update-metrics], [/api/update-header] *)
Lemma normalize_ticker_hint (data : json) (t : text) :
  t <> [] -> dict_get (u "ticker") (normalize_history_data data (Some t)) = Some (JStr t).
Proof.
  intros Ht. rewrite normalize_history_data_eq. unfold normalize_expected.
  destruct t as [|c t]; [congruence|]. reflexivity.
Qed.

Lemma load_after_line (o : text) (f : option text) (kvs : dict) :
  ends_line o -> wf_json (JObj kvs) = true ->
  load (Some (o ++ record_line (JObj kvs))) f
  = match load (Some o) f with
    | Ok acc => Ok (if filtered_out f (loaded_form (JObj kvs)) then acc else loaded_form (JObj kvs) :: acc)
    | Err e => Err e
    end.
Proof.
  intros Ho Hw. unfold load. rewrite read_lines_app by exact Ho.
  rewrite read_lines_record by exact Hw. rewrite load_lines_app.
  destruct (load_lines f (read_lines o) []) as [acc|e]; [|reflexivity].
  rewrite load_lines_record by exact Hw. destruct (filtered_out _ _); reflexivity.
Qed.

Lemma load_after_record (o : text) (f : option text) (ts t : text) (p d : json) :
  ends_line o -> wf_json (make_record ts t p d) = true ->
  load (Some (o ++ record_line (make_record ts t p d))) f
  = match load (Some o) f with
    | Ok acc => Ok (if filtered_out f (loaded_form (make_record ts t p d)) then acc
                    else loaded_form (make_record ts t p d) :: acc)
    | Err e => Err e
    end.
Proof. unfold make_record. apply load_after_line. Qed.

Lemma load_some_file_text (file : file_state) (f : option text) : load (Some (file_text file)) f = load file f.
Proof. destruct file; reflexivity. Qed.

Lemma loaded_form_normalized (ts t : text) (p : json) (d : json) :
  t <> [] -> loaded_form (make_record ts t p (JObj (normalize_history_data d (Some t))))
            = make_record ts t p (JObj (normalize_history_data d (Some t))).
Proof.
  intros Ht. rewrite loaded_form_make_record by exact Ht.
  rewrite normalize_ticker_hint by exact Ht. destruct t; [congruence|]. reflexivity.
Qed.

(** X7: [POST /api/save] with a non-empty [str] ticker, a dict [data] and
    no timestamp, on a log that is missing or ends in a newline, when the
    new record is within the recursion and int-digit limits of [json.dumps]
    and [json.loads] and UTF-8 can encode its line, answers
    [{"status": "saved"}]; afterwards [get_latest] for the ticker returns the
    record with the normalized data, unless reading the old log raises. *)
Theorem api_save_then_latest (file : file_state) (now t : text) (item d : dict) :
  dict_get (u "ticker") item = Some (JStr t) -> t <> [] ->
  dict_get (u "data") item = Some (JObj d) -> dict_get (u "timestamp") item = None ->
  ends_line (file_text file) ->
  wf_json (make_record now t (opt_json (dict_get (u "price") item))
             (JObj (normalize_history_data (JObj d) (Some t)))) = true ->
  encodable (record_line (make_record now t (opt_json (dict_get (u "price") item))
             (JObj (normalize_history_data (JObj d) (Some t))))) = true ->
  exists file',
    api_save file now item = Some (HttpOk (JObj [(u "status", JStr (u "saved"))]), file') /\
    get_latest file' (Some t)
    = match load file (Some t) with
      | Ok _ => Ok (Some (make_record now t (opt_json (dict_get (u "price") item))
                           (JObj (normalize_history_data (JObj d) (Some t)))))
      | Err e => Err e
      end.
Proof.
  intros Htk Ht Hd Hts Hend Hw He. unfold api_save. rewrite Htk, Hts, Hd. cbv zeta.
  unfold save. cbv zeta. change (choose_timestamp None now) with now. rewrite (wf_json_raise _ Hw), He.
  eexists. split; [reflexivity|].
  unfold get_latest.
  replace (match file with Some t0 => t0 | None => [] end) with (file_text file) by (destruct file; reflexivity).
  rewrite load_after_record, load_some_file_text by assumption.
  rewrite filtered_out_make_record, loaded_form_normalized by exact Ht.
  destruct (load file (Some t)); reflexivity.
Qed.

Lemma nsm_in_schema : In (u "north_star_metrics") schema_keys.
Proof. unfold schema_keys. simpl. do 6 right. left. reflexivity. Qed.

Lemma fs_in_schema : In (u "financial_snapshot") schema_keys.
Proof. unfold schema_keys. simpl. repeat (first [left; reflexivity | right]). Qed.

Lemma nsm_ne_ticker : u "north_star_metrics" <> u "ticker".
Proof. intro H. vm_compute in H. discriminate H. Qed.

Lemma fs_ne_ticker : u "financial_snapshot" <> u "ticker".
Proof. intro H. vm_compute in H. discriminate H. Qed.

Lemma save_and_replace_body (file : file_state) (now t : text) (d price : json) :
  match save_and_replace file now t d price None with
  | (Ok saved, f') => (HttpOk (updated_body saved), f')
  | (Err _, f') => (HttpError 500, f')
  end
  = match save_and_replace file now t d price None with
    | (Ok _, f') => (HttpOk (JObj [(u "status", JStr (u "updated")); (u "data", d)]), f')
    | (Err _, f') => (HttpError 500, f')
    end.
Proof.
  unfold save_and_replace.
  destruct (match file with None => Ok [] | Some s => replace_keep t (read_lines s) end); [|reflexivity].
  cbv zeta. destruct (write_records _ _) as [[]]; reflexivity.
Qed.

(** X8: when the ticker has a latest record, [POST /api/update-metrics]
    saves with [save_and_replace] the normalized stored data with only
    [north_star_metrics] replaced, under the stored price and the current
    time, and answers with that data (500 if the save raises). *)
Theorem update_metrics_result (file : file_state) (now t : text) (ms : list json) (kvs : dict) :
  get_latest file (Some t) = Ok (Some (JObj kvs)) -> kvs <> [] ->
  update_metrics file now t ms =
  match save_and_replace file now t
          (JObj (dict_set (u "north_star_metrics") (JArr ms)
                   (normalize_history_data (JObj (stored_data kvs)) (Some t))))
          (opt_json (dict_get (u "price") kvs)) None with
  | (Ok _, f') =>
    (HttpOk (JObj [(u "status", JStr (u "updated"));
                   (u "data", JObj (dict_set (u "north_star_metrics") (JArr ms)
                                      (normalize_history_data (JObj (stored_data kvs)) (Some t))))]), f')
  | (Err _, f') => (HttpError 500, f')
  end.
Proof.
  intros Hl Hk. unfold update_metrics. rewrite Hl.
  destruct kvs as [|kv kvs]; [congruence|]. cbn [truthy is_nil negb]. cbv zeta.
  rewrite normalize_set_schema_key by (exact nsm_in_schema || exact nsm_ne_ticker || reflexivity).
  apply save_and_replace_body.
Qed.

(** X9: when the ticker has a latest record whose [financial_snapshot] is
    a dict or missing, [POST /api/update-header] saves the normalized stored
    data with only [financial_snapshot] replaced by the old snapshot updated
    with the request's, under the request's price or else the stored one. *)
Theorem update_header_result (file : file_state) (now t : text) (price : json) (fs : dict)
  (kvs o : dict) :
  get_latest file (Some t) = Ok (Some (JObj kvs)) -> kvs <> [] ->
  (dict_get (u "financial_snapshot") (stored_data kvs) = Some (JObj o) \/
   (dict_get (u "financial_snapshot") (stored_data kvs) = None /\ o = [])) ->
  update_header file now t price fs =
  match save_and_replace file now t
          (JObj (dict_set (u "financial_snapshot") (JObj (dict_update o fs))
                   (normalize_history_data (JObj (stored_data kvs)) (Some t))))
          (if is_null price then opt_json (dict_get (u "price") kvs) else price) None with
  | (Ok _, f') =>
    (HttpOk (JObj [(u "status", JStr (u "updated"));
                   (u "data", JObj (dict_set (u "financial_snapshot") (JObj (dict_update o fs))
                                      (normalize_history_data (JObj (stored_data kvs)) (Some t))))]), f')
  | (Err _, f') => (HttpError 500, f')
  end.
Proof.
  intros Hl Hk Ho. unfold update_header. rewrite Hl.
  destruct kvs as [|kv kvs]; [congruence|]. cbn [truthy is_nil negb]. cbv zeta.
  destruct Ho as [-> | [-> ->]];
  rewrite normalize_set_schema_key by (exact fs_in_schema || exact fs_ne_ticker || reflexivity);
  apply save_and_replace_body.
Qed.

(** X10: when the latest record's [financial_snapshot] is present but not
    a dict ([null] included), [POST /api/update-header] answers 500 and
    leaves the log unchanged. *)
Theorem update_header_bad_snapshot (file : file_state) (now t : text) (price : json) (fs : dict)
  (kvs : dict) (v : json) :
  get_latest file (Some t) = Ok (Some (JObj kvs)) ->
  dict_get (u "financial_snapshot") (stored_data kvs) = Some v -> (forall o, v <> JObj o) ->
  update_header file now t price fs = (HttpError 500, file).
Proof.
  intros Hl Hv Hno. unfold update_header. rewrite Hl.
  destruct kvs as [|kv kvs]; [discriminate|]. cbn [truthy is_nil negb]. cbv zeta.
  rewrite Hv. destruct v; try reflexivity. exfalso. exact (Hno kvs0 eq_refl).
Qed.

(* ================================================================= *)
(** ** Routes that call the model: [/api/analyze], [/api/react] *)
(** X11: for a non-empty ticker, on a log as in X3, [POST /api/analyze]
    whose model reply is a [```json] fenced [json.dumps] of an object
    returns that object and leaves it, not normalized, as the ticker's only
    record, when the object and the new record are within the recursion and
    int-digit limits and UTF-8 can encode the record's line. *)
Theorem api_analyze_fenced_reply (file : file_state) (now t : text) (price : json) (kvs : dict)
  (ws1 ws2 : text) :
  t <> [] -> tickered_store file ->
  wf_json (JObj kvs) = true -> forallb py_isspace ws1 = true -> forallb py_isspace ws2 = true ->
  wf_json (make_record now t price (JObj kvs)) = true ->
  encodable (record_line (make_record now t price (JObj kvs))) = true ->
  exists file',
    api_analyze file true now t price
      (ws1 ++ u "```json" ++ [10%Z] ++ dumps (JObj kvs) ++ [10%Z] ++ u "```" ++ ws2)
    = (HttpOk (JObj kvs), file') /\
    load file' (Some t) = Ok [loaded_form (make_record now t price (JObj kvs))].
Proof.
  intros Ht Hst Hw H1 H2 Hrw Hre. unfold api_analyze. cbn [negb].
  destruct (parse_reply_dumps_obj kvs ws1 ws2 Hw H1 H2) as [_ [-> _]].
  destruct (save_and_replace_alone file now t (JObj kvs) price None Ht Hst Hrw Hre) as [Hf Hl].
  destruct (save_and_replace file now t (JObj kvs) price None) as [r f'] eqn:E.
  cbn [fst snd] in Hf, Hl. subst r. exists f'. split; [reflexivity|exact Hl].
Qed.

(** X12: [POST /api/react] calls [AIEngine.react_earnings] with the keyword
    [context], which is not one of its parameters, and leaves [old_context]
    unbound; the call raises [TypeError] and the route answers 500 for
    every request without touching the log. *)
Theorem api_react_always_500 (file : file_state) (env_ok : bool) (now : text)
  (old_context financial_snapshot : dict) (price : json) (reply_qual reply_val : text) :
  api_react file env_ok now old_context financial_snapshot price reply_qual reply_val
  = Some (HttpError 500, file).
Proof. unfold api_react. destruct env_ok; reflexivity. Qed.

(* ================================================================= *)
(** ** [parse_llm_json] on what [json.dumps] writes *)
Lemma strip_by_around (p : Z -> bool) (ws1 ws2 m : text) (c d : Z) :
  forallb p ws1 = true -> forallb p ws2 = true -> p c = false -> p d = false ->
  strip_by p (ws1 ++ c :: m ++ d :: ws2) = c :: m ++ [d].
Proof.
  intros H1 H2 Hc Hd. unfold strip_by, rstrip_by.
  rewrite lstrip_spaces by exact H1. cbn [lstrip_by]. rewrite Hc.
  replace (rev (c :: m ++ d :: ws2)) with (rev ws2 ++ d :: rev m ++ [c])
    by (simpl; rewrite rev_app_distr; simpl; rewrite <- !app_assoc; reflexivity).
  rewrite lstrip_spaces by (rewrite forallb_rev_eq; exact H2).
  cbn [lstrip_by]. rewrite Hd.
  simpl. rewrite rev_app_distr, rev_involutive. simpl. rewrite <- ?app_assoc. reflexivity.
Qed.

Lemma strip_by_between (p : Z -> bool) (ws1 ws2 X : text) :
  forallb p ws1 = true -> forallb p ws2 = true ->
  (exists c m d, X = c :: m ++ [d] /\ p c = false /\ p d = false) ->
  strip_by p (ws1 ++ X ++ ws2) = X.
Proof.
  intros H1 H2 [c [m [d [-> [Hc Hd]]]]].
  replace (ws1 ++ (c :: m ++ [d]) ++ ws2) with (ws1 ++ c :: m ++ d :: ws2)
    by (simpl; rewrite <- !app_assoc; reflexivity).
  apply strip_by_around; assumption.
Qed.

Lemma break_at_quote_split (s a b : text) :
  LangChain.break_at_quote s = Some (a, b) -> s = a ++ 34%Z :: b.
Proof.
  revert a; induction s as [|c s IH]; intros a H; simpl in H; [discriminate|].
  destruct (Z.eqb_spec c 34) as [->|Hc].
  - injection H as <- <-. reflexivity.
  - destruct (LangChain.break_at_quote s) as [[a' b']|] eqn:E; [|discriminate].
    injection H as <- <-. simpl. f_equal. apply IH. reflexivity.
Qed.

Lemma lstrip_split (p : Z -> bool) (s : text) : exists pre, s = pre ++ lstrip_by p s.
Proof.
  induction s as [|c s [pre IH]]; [exists []; reflexivity|]. simpl.
  destruct (p c); [exists (c :: pre); simpl; f_equal; exact IH|exists []; reflexivity].
Qed.

(** A match of [_custom_parser]'s pattern is a split of the text: the
    prefix up to the opening quote, group 2, the closing quote, the rest. *)
Lemma match_action_input_split (s g1 g2 rest : text) :
  LangChain.match_action_input s = Some (g1, g2, rest) -> s = g1 ++ g2 ++ 34%Z :: rest.
Proof.
  unfold LangChain.match_action_input.
  destruct (drop_prefix LangChain.action_input_key s) as [[|c r1]|] eqn:D; try discriminate.
  destruct (Z.eqb_spec c 58) as [->|]; [|discriminate].
  destruct (lstrip_split py_isspace r1) as [pre Hpre].
  destruct (lstrip_by py_isspace r1) as [|q r3] eqn:Ls; [discriminate|].
  destruct (Z.eqb_spec q 34) as [->|]; [|discriminate].
  destruct (LangChain.break_at_quote r3) as [[a b]|] eqn:B; [|discriminate].
  intros H. injection H as <- <- <-.
  apply drop_prefix_some in D. apply break_at_quote_split in B. subst r3.
  rewrite Hpre in D |- *.
  rewrite length_app. cbn [length].
  replace (length pre + S (length (a ++ 34%Z :: b)) - S (length (a ++ 34%Z :: b))) with (length pre) by lia.
  rewrite firstn_app, firstn_all, Nat.sub_diag, firstn_O, app_nil_r.
  rewrite D. simpl. rewrite <- ?app_assoc. reflexivity.
Qed.

Lemma match_action_input_other (c : Z) (r : text) :
  (c =? 34)%Z = false -> LangChain.match_action_input (c :: r) = None.
Proof.
  intros Hc. unfold LangChain.match_action_input, LangChain.action_input_key.
  change ([34%Z] ++ u "action_input" ++ [34%Z]) with (34%Z :: (u "action_input" ++ [34%Z])).
  rewrite drop_prefix_cons_ne by (intros E; subst c; discriminate Hc). reflexivity.
Qed.

Lemma escape_ws_id (s : text) : above_cr s = true -> flat_map LangChain.escape_ws s = s.
Proof.
  induction s as [|c s IH]; simpl; intros H; [reflexivity|].
  apply andb_true_iff in H as [Hc H]. apply Z.leb_le in Hc.
  unfold LangChain.escape_ws.
  rewrite (proj2 (Z.eqb_neq c 10)), (proj2 (Z.eqb_neq c 13)), (proj2 (Z.eqb_neq c 9)) by lia.
  simpl. f_equal. apply IH, H.
Qed.

(** [_custom_parser] changes nothing in a text without raw tabs, newlines
    or carriage returns: group 2 is written back as it was. *)
Lemma custom_parser_go_id (f : nat) : forall s, above_cr s = true -> LangChain.custom_parser_go f s = s.
Proof.
  induction f as [|f IH]; intros s H; [reflexivity|].
  destruct s as [|c r]; [reflexivity|]. cbn [LangChain.custom_parser_go].
  destruct (LangChain.match_action_input (c :: r)) as [[[g1 g2] rest]|] eqn:M.
  - pose proof (match_action_input_split _ _ _ _ M) as E. rewrite E in H |- *.
    rewrite !above_cr_app in H. apply andb_true_iff in H as [_ H]. apply andb_true_iff in H as [H2 H3].
    unfold above_cr in H3. simpl in H3. fold (above_cr rest) in H3.
    rewrite escape_ws_id, IH by assumption. reflexivity.
  - simpl in H. apply andb_true_iff in H as [_ H]. f_equal. apply IH, H.
Qed.

Lemma custom_parser_go_prefix (pre : text) : forall f D,
  forallb (fun c => negb (c =? 34)%Z) pre = true ->
  LangChain.custom_parser_go (length pre + f) (pre ++ D) = pre ++ LangChain.custom_parser_go f D.
Proof.
  induction pre as [|c pre IH]; intros f D H; [reflexivity|].
  simpl in H. apply andb_true_iff in H as [Hc H]. apply negb_true_iff in Hc.
  change (length (c :: pre) + f) with (S (length pre + f)). cbn [LangChain.custom_parser_go app].
  rewrite match_action_input_other by exact Hc. rewrite IH by exact H. reflexivity.
Qed.

Lemma custom_parser_id (pre D : text) :
  forallb (fun c => negb (c =? 34)%Z) pre = true -> above_cr D = true ->
  LangChain.custom_parser (pre ++ D) = pre ++ D.
Proof.
  intros Hp HD. unfold LangChain.custom_parser. rewrite length_app.
  rewrite custom_parser_go_prefix by exact Hp. rewrite custom_parser_go_id by exact HD. reflexivity.
Qed.

(** The walk of [parse_partial_json] outside strings copies a character
    that is no quote or bracket as one piece. *)
Lemma walk_out_chars (s : text) : forall st acc r,
  forallb walk_plain s = true ->
  LangChain.walk false false st acc (s ++ r)
  = LangChain.walk false false st (rev (map (fun c : Z => [c]) s) ++ acc) r.
Proof.
  induction s as [|c s IH]; intros st acc r H; [reflexivity|].
  simpl in H. apply andb_true_iff in H as [Hc H]. unfold walk_plain in Hc.
  destruct (c =? 34)%Z eqn:E1; [discriminate|]. destruct (c =? 123)%Z eqn:E2; [discriminate|].
  destruct (c =? 91)%Z eqn:E3; [discriminate|]. destruct (c =? 125)%Z eqn:E4; [discriminate|].
  destruct (c =? 93)%Z eqn:E5; [discriminate|].
  cbn [app LangChain.walk]. rewrite E1, E2, E3, E4, E5. cbn [orb].
  rewrite IH by exact H. cbn [map rev]. rewrite <- app_assoc. reflexivity.
Qed.

Lemma walk_in_plain (c : Z) (st : text) (acc : list text) (r : text) :
  (c =? 34)%Z = false -> (c =? 10)%Z = false -> (c =? 92)%Z = false ->
  LangChain.walk true false st acc (c :: r) = LangChain.walk true false st ([c] :: acc) r.
Proof. intros H1 H2 H3. cbn [LangChain.walk]. rewrite H1, H2, H3. reflexivity. Qed.

Lemma walk_in_escape (x : Z) (st : text) (acc : list text) (r : text) :
  LangChain.walk true false st acc (92%Z :: x :: r) = LangChain.walk true false st ([x] :: [92%Z] :: acc) r.
Proof.
  cbn [LangChain.walk]. cbn [negb andb Z.eqb Pos.eqb].
  rewrite !andb_false_r. destruct (x =? 92)%Z; reflexivity.
Qed.

Lemma hex_lower_ok (n : Z) : (0 <= n)%Z ->
  (hex_lower n =? 34)%Z = false /\ (hex_lower n =? 10)%Z = false /\ (hex_lower n =? 92)%Z = false.
Proof.
  intros H. unfold hex_lower. destruct (Z.ltb_spec n 10);
  repeat split; apply Z.eqb_neq; lia.
Qed.

Lemma walk_escape_char (c : Z) (st : text) (acc : list text) (r : text) : (0 <= c)%Z ->
  LangChain.walk true false st acc (escape_char c ++ r)
  = LangChain.walk true false st (rev (map (fun c : Z => [c]) (escape_char c)) ++ acc) r.
Proof.
  intros H. unfold escape_char.
  destruct (c =? 34)%Z eqn:E1; [apply walk_in_escape|].
  destruct (c =? 92)%Z eqn:E2; [apply walk_in_escape|].
  destruct (c =? 10)%Z eqn:E3; [apply walk_in_escape|].
  destruct (c =? 13)%Z eqn:E4; [apply walk_in_escape|].
  destruct (c =? 9)%Z eqn:E5; [apply walk_in_escape|].
  destruct (c =? 8)%Z eqn:E6; [apply walk_in_escape|].
  destruct (c =? 12)%Z eqn:E7; [apply walk_in_escape|].
  destruct (c <? 32)%Z eqn:E8.
  - destruct (hex_lower_ok (c / 16)) as [A1 [A2 A3]]; [apply Z.div_pos; lia|].
    destruct (hex_lower_ok (c mod 16)) as [B1 [B2 B3]]; [apply Z.mod_pos_bound; lia|].
    cbn [app]. rewrite walk_in_escape.
    rewrite !walk_in_plain by (assumption || reflexivity). reflexivity.
  - cbn [app]. rewrite walk_in_plain by assumption. reflexivity.
Qed.

Lemma walk_escaped_text (s : text) : forall st acc r, wf_text s = true ->
  LangChain.walk true false st acc (flat_map escape_char s ++ r)
  = LangChain.walk true false st (rev (map (fun c : Z => [c]) (flat_map escape_char s)) ++ acc) r.
Proof.
  induction s as [|c s IH]; intros st acc r H; [reflexivity|].
  simpl in H. apply andb_true_iff in H as [Hc H]. unfold wf_char in Hc.
  apply andb_true_iff in Hc as [Hc _]. apply Z.leb_le in Hc.
  cbn [flat_map]. rewrite <- app_assoc, walk_escape_char by exact Hc. rewrite IH by exact H.
  rewrite map_app, rev_app_distr, <- app_assoc. reflexivity.
Qed.

Lemma walk_dumps_str (s : text) (st : text) (acc : list text) (r : text) : wf_text s = true ->
  LangChain.walk false false st acc (dumps_str s ++ r)
  = LangChain.walk false false st (rev (map (fun c : Z => [c]) (dumps_str s)) ++ acc) r.
Proof.
  intros H. unfold dumps_str. rewrite <- !app_assoc. cbn [app LangChain.walk]. cbn [Z.eqb Pos.eqb].
  rewrite walk_escaped_text by exact H. cbn [LangChain.walk]. cbn [Z.eqb Pos.eqb negb andb].
  change (34%Z :: flat_map escape_char s ++ [34%Z]) with ([34%Z] ++ flat_map escape_char s ++ [34%Z]).
  rewrite !map_app, !rev_app_distr. cbn [map rev app]. rewrite <- !app_assoc. reflexivity.
Qed.

Lemma walk_plain_digits (s : text) : forallb is_digit s = true -> forallb walk_plain s = true.
Proof.
  induction s as [|c s IH]; simpl; intros H; [reflexivity|].
  apply andb_true_iff in H as [Hc H]. unfold is_digit in Hc. apply andb_true_iff in Hc as [A B].
  apply Z.leb_le in A. apply Z.leb_le in B. rewrite IH by exact H.
  unfold walk_plain. rewrite (proj2 (Z.eqb_neq c 34)), (proj2 (Z.eqb_neq c 123)), (proj2 (Z.eqb_neq c 91)),
    (proj2 (Z.eqb_neq c 125)), (proj2 (Z.eqb_neq c 93)) by lia. reflexivity.
Qed.

Lemma walk_plain_exponent (ex : text) : wf_exponent ex = true -> forallb walk_plain ex = true.
Proof.
  destruct ex as [|e r]; [reflexivity|]. simpl. intros H.
  apply andb_true_iff in H as [He H].
  assert (Hb : walk_plain e = true)
    by (apply orb_true_iff in He as [He|He]; apply Z.eqb_eq in He; subst; reflexivity).
  rewrite Hb. simpl. destruct r as [|c ds]; [discriminate|].
  destruct ((c =? 43)%Z || (c =? 45)%Z) eqn:Hc.
  - apply andb_true_iff in H as [_ H]. simpl.
    assert (Hcb : walk_plain c = true)
      by (apply orb_true_iff in Hc as [Hc|Hc]; apply Z.eqb_eq in Hc; subst; reflexivity).
    rewrite Hcb. apply walk_plain_digits, H.
  - apply walk_plain_digits, H.
Qed.

Lemma walk_plain_scalar (v : json) :
  wf_value v = true ->
  match v with JStr _ | JArr _ | JObj _ => True | _ => forallb walk_plain (dumps v) = true end.
Proof.
  intros Hwf. destruct v as [|b|z|f|s|xs|kvs]; try exact I.
  - reflexivity.
  - destruct b; reflexivity.
  - change (dumps (JInt z)) with (dumps_int z). unfold dumps_int.
    destruct (Z.ltb_spec z 0).
    + destruct (digits_of_wf (- z)) as [Hw _]; [lia|]. simpl. apply walk_plain_digits, wf_ipart_digits, Hw.
    + destruct (digits_of_wf z) as [Hw _]; [lia|]. apply walk_plain_digits, wf_ipart_digits, Hw.
  - destruct f as [|neg|neg ip fr ex]; [reflexivity|destruct neg; reflexivity|].
    simpl in Hwf. unfold wf_float in Hwf.
    apply andb_true_iff in Hwf as [Hwf _]. apply andb_true_iff in Hwf as [Hwf Hex].
    apply andb_true_iff in Hwf as [Hip Hfr].
    change (dumps (JFloat (FLit neg ip fr ex)))
      with ((if neg then [45%Z] else []) ++ ip ++ (if is_nil fr then [] else 46%Z :: fr) ++ ex).
    pose proof (walk_plain_digits ip (wf_ipart_digits ip Hip)) as A.
    pose proof (walk_plain_digits fr Hfr) as B. pose proof (walk_plain_exponent ex Hex) as C.
    rewrite !forallb_app, A, C.
    destruct neg, (is_nil fr); simpl; rewrite ?B; reflexivity.
Qed.

(** The walk over what [json.dumps] writes copies it character by
    character and ends with the stack it started with. *)
Lemma walk_dumps (v : json) : wf_value v = true -> forall st acc r,
  LangChain.walk false false st acc (dumps v ++ r)
  = LangChain.walk false false st (rev (map (fun c : Z => [c]) (dumps v)) ++ acc) r.
Proof.
  induction v as [|b|z|f|s|xs IH|kvs IH] using json_ind'; intros Hwf st acc r.
  1-4: apply walk_out_chars; exact (walk_plain_scalar _ Hwf).
  - apply walk_dumps_str, Hwf.
  - rewrite wf_arr in Hwf. rewrite dumps_arr, <- !app_assoc.
    cbn [app LangChain.walk]. cbn [Z.eqb Pos.eqb orb].
    assert (Hitems : forall st acc r, LangChain.walk false false st acc (dumps_items xs ++ r)
              = LangChain.walk false false st (rev (map (fun c : Z => [c]) (dumps_items xs)) ++ acc) r).
    { clear st acc r. induction xs as [|x xs IHxs]; intros st acc r; [reflexivity|].
      inversion IH as [|? ? Hx IH']; subst. simpl in Hwf. apply andb_true_iff in Hwf as [Hw Hwf].
      cbn [dumps_items]. rewrite <- !app_assoc, Hx by exact Hw.
      destruct (is_nil xs).
      - cbn [app]. rewrite IHxs by assumption. pieces_norm; reflexivity.
      - change ([44; 32]%Z ++ dumps_items xs ++ r) with (44%Z :: 32%Z :: dumps_items xs ++ r).
        cbn [LangChain.walk]. cbn [Z.eqb Pos.eqb orb].
        rewrite IHxs by assumption. pieces_norm; reflexivity. }
    rewrite Hitems. cbn [LangChain.walk]. cbn [Z.eqb Pos.eqb orb].
    pieces_norm; reflexivity.
  - rewrite wf_obj in Hwf. apply andb_true_iff in Hwf as [_ Hwf].
    rewrite dumps_obj, <- !app_assoc.
    cbn [app LangChain.walk]. cbn [Z.eqb Pos.eqb orb].
    assert (Hmem : forall st acc r, LangChain.walk false false st acc (dumps_members kvs ++ r)
              = LangChain.walk false false st (rev (map (fun c : Z => [c]) (dumps_members kvs)) ++ acc) r).
    { clear st acc r. induction kvs as [|[k x] kvs IHk]; intros st acc r; [reflexivity|].
      inversion IH as [|? ? Hx IH']; subst. simpl in Hwf, Hx.
      apply andb_true_iff in Hwf as [Hw Hwf]. apply andb_true_iff in Hw as [Hk Hw].
      cbn [dumps_members]. rewrite <- !app_assoc, walk_dumps_str by exact Hk.
      change ([58; 32]%Z ++ dumps x ++ (if is_nil kvs then [] else [44; 32]%Z) ++ dumps_members kvs ++ r)
        with (58%Z :: 32%Z :: dumps x ++ (if is_nil kvs then [] else [44; 32]%Z) ++ dumps_members kvs ++ r).
      cbn [LangChain.walk]. cbn [Z.eqb Pos.eqb orb].
      rewrite Hx by exact Hw.
      destruct (is_nil kvs).
      - cbn [app]. rewrite IHk by assumption. pieces_norm; reflexivity.
      - change ([44; 32]%Z ++ dumps_members kvs ++ r) with (44%Z :: 32%Z :: dumps_members kvs ++ r).
        cbn [LangChain.walk]. cbn [Z.eqb Pos.eqb orb].
        rewrite IHk by assumption. pieces_norm; reflexivity. }
    rewrite Hmem. cbn [LangChain.walk]. cbn [Z.eqb Pos.eqb orb].
    pieces_norm; reflexivity.
Qed.

Lemma json_ws_walk_plain (s : text) : forallb json_ws s = true -> forallb walk_plain s = true.
Proof.
  induction s as [|c s IH]; simpl; intros H; [reflexivity|].
  apply andb_true_iff in H as [Hc H]. rewrite IH by exact H.
  unfold json_ws in Hc. repeat rewrite orb_true_iff in Hc. rewrite !Z.eqb_eq in Hc.
  destruct Hc as [[[->| ->]| ->]| ->]; reflexivity.
Qed.

Lemma json_ws_strip_char (s : text) : forallb json_ws s = true -> forallb LangChain.json_strip_char s = true.
Proof.
  induction s as [|c s IH]; simpl; intros H; [reflexivity|].
  apply andb_true_iff in H as [Hc H]. rewrite IH by exact H.
  unfold json_ws in Hc. repeat rewrite orb_true_iff in Hc. rewrite !Z.eqb_eq in Hc.
  destruct Hc as [[[->| ->]| ->]| ->]; reflexivity.
Qed.

Lemma json_ws_no_quote (s : text) : forallb json_ws s = true -> forallb (fun c => negb (c =? 34)%Z) s = true.
Proof.
  induction s as [|c s IH]; simpl; intros H; [reflexivity|].
  apply andb_true_iff in H as [Hc H]. rewrite IH by exact H.
  unfold json_ws in Hc. repeat rewrite orb_true_iff in Hc. rewrite !Z.eqb_eq in Hc.
  destruct Hc as [[[->| ->]| ->]| ->]; reflexivity.
Qed.

Lemma json_loads_no_start (strict : bool) (c : Z) (X : text) :
  value_start c = false -> json_ws c = false -> (c =? 65279)%Z = false ->
  decode_failed (json_loads_with strict (c :: X)) = true.
Proof.
  intros H1 H2 H3. unfold json_loads_with. cbv beta iota zeta. rewrite H3.
  replace (skip_ws (c :: X)) with (c :: X) by (simpl; rewrite H2; reflexivity).
  rewrite scan_value_no_start by exact H1. reflexivity.
Qed.

(** The retry loop of [parse_partial_json] gives up when the text starts
    with a character no JSON value starts with. *)
Lemma retry_no_start (closers : text) (c : Z) :
  value_start c = false -> json_ws c = false -> (c =? 65279)%Z = false ->
  forall Ls, LangChain.retry closers (Ls ++ [[c]]) = None.
Proof.
  intros H1 H2 H3. induction Ls as [|y Ls IH].
  - cbn [app LangChain.retry].
    change (concat (rev [[c]]) ++ closers) with (c :: closers).
    pose proof (json_loads_no_start false c closers H1 H2 H3) as H.
    destruct (json_loads_with false (c :: closers)) as [|[m p|e]]; [discriminate|reflexivity|discriminate].
  - cbn [app LangChain.retry].
    match goal with
    | |- context [json_loads_with false ?X] =>
      assert (Ec : X = c :: (concat (rev Ls ++ [y]) ++ closers))
        by (cbn [rev]; rewrite rev_app_distr; reflexivity);
      rewrite Ec
    end.
    pose proof (json_loads_no_start false c (concat (rev Ls ++ [y]) ++ closers) H1 H2 H3) as H.
    destruct (json_loads_with false _) as [|[m p|e]]; [discriminate|exact IH|discriminate].
Qed.

Lemma parse_partial_json_dumps (v : json) : wf_json v = true -> LangChain.parse_partial_json (dumps v) = Ok v.
Proof.
  intros Hw. unfold LangChain.parse_partial_json.
  rewrite <- (app_nil_r (dumps v)), json_loads_with_dumps by (exact Hw || reflexivity). reflexivity.
Qed.

Lemma dumps_container_ends (v : json) :
  (exists kvs, v = JObj kvs) \/ (exists xs, v = JArr xs) ->
  exists c m d, dumps v = c :: m ++ [d] /\ py_isspace c = false /\ py_isspace d = false /\
    LangChain.json_strip_char c = false /\ LangChain.json_strip_char d = false /\ (c =? 34)%Z = false.
Proof.
  intros [[kvs ->]|[xs ->]].
  - exists 123%Z, (dumps_members kvs), 125%Z. rewrite dumps_obj. repeat split.
  - exists 91%Z, (dumps_items xs), 93%Z. rewrite dumps_arr. repeat split.
Qed.

Lemma py_strip_between (ws1 ws2 X : text) :
  forallb py_isspace ws1 = true -> forallb py_isspace ws2 = true ->
  (exists c m d, X = c :: m ++ [d] /\ py_isspace c = false /\ py_isspace d = false) ->
  py_strip (ws1 ++ X ++ ws2) = X.
Proof. unfold py_strip. apply strip_by_between. Qed.

Lemma py_strip_self (X : text) :
  (exists c m d, X = c :: m ++ [d] /\ py_isspace c = false /\ py_isspace d = false) -> py_strip X = X.
Proof.
  intros H. pose proof (py_strip_between [] [] X eq_refl eq_refl H) as E.
  cbn [app] in E. rewrite app_nil_r in E. exact E.
Qed.

Lemma fence_body_json (X : text) : LangChain.fence_body (u "```json" ++ X) = Some X.
Proof.
  change (u "```json" ++ X) with (96%Z :: (96%Z :: 96%Z :: u "json" ++ X)). cbn [LangChain.fence_body].
  change (96%Z :: 96%Z :: 96%Z :: u "json" ++ X) with (u "```" ++ u "json" ++ X).
  rewrite drop_prefix_app, drop_prefix_app. reflexivity.
Qed.

Lemma walk_json_tag (v : json) (ws3 : text) : wf_value v = true -> forallb json_ws ws3 = true ->
  LangChain.walk false false [] [] (u "json" ++ ws3 ++ dumps v)
  = Some (false, false, [], rev (map (fun c : Z => [c]) (u "json" ++ ws3 ++ dumps v))).
Proof.
  intros Hv Hws.
  replace (u "json" ++ ws3 ++ dumps v) with ((u "json" ++ ws3) ++ dumps v ++ []) at 1
    by (rewrite app_nil_r, app_assoc; reflexivity).
  rewrite walk_out_chars by (rewrite forallb_app, (json_ws_walk_plain ws3 Hws); reflexivity).
  rewrite walk_dumps by exact Hv. cbn [LangChain.walk]. rewrite app_nil_r.
  f_equal. f_equal. pieces_norm. reflexivity.
Qed.

Section Reply.
Variable v : json.
Hypothesis Hcont : (exists kvs, v = JObj kvs) \/ (exists xs, v = JArr xs).
Hypothesis Hwf : wf_json v = true.

Lemma parse_json_around (L R : text) :
  forallb LangChain.json_strip_char L = true -> forallb LangChain.json_strip_char R = true ->
  LangChain.parse_json (L ++ dumps v ++ R) = Ok v.
Proof.
  intros HL HR. destruct (dumps_container_ends v Hcont) as [c [m [d [E [_ [_ [Hc [Hd _]]]]]]]].
  unfold LangChain.parse_json.
  rewrite (strip_by_between LangChain.json_strip_char L R (dumps v) HL HR) by (exists c, m, d; auto).
  pose proof (custom_parser_id [] (dumps v) eq_refl (dumps_big v (wf_json_value v Hwf))) as Hcp.
  cbn [app] in Hcp. rewrite Hcp. apply parse_partial_json_dumps, Hwf.
Qed.

(** With a [```json] fence, the first [_parse_json] of
    [parse_json_markdown] keeps the tag [json] in front of the value and
    fails with [JSONDecodeError]. *)
Lemma parse_json_json_tag (ws3 ws4 : text) :
  forallb json_ws ws3 = true -> forallb json_ws ws4 = true ->
  decode_failed (LangChain.parse_json (u "```json" ++ ws3 ++ dumps v ++ ws4 ++ u "```")) = true.
Proof.
  intros H3 H4. destruct (dumps_container_ends v Hcont) as [c [m [d [E [_ [_ [Hc [Hd Hq]]]]]]]].
  unfold LangChain.parse_json.
  replace (u "```json" ++ ws3 ++ dumps v ++ ws4 ++ u "```")
    with (u "```" ++ (u "json" ++ ws3 ++ dumps v) ++ (ws4 ++ u "```"))
    by (rewrite <- !app_assoc; reflexivity).
  rewrite strip_by_between;
    [| reflexivity | rewrite forallb_app, (json_ws_strip_char ws4 H4); reflexivity |].
  2: { exists 106%Z, (u "son" ++ ws3 ++ c :: m), d. split; [|split; [reflexivity|exact Hd]].
       rewrite E. simpl. rewrite <- !app_assoc. reflexivity. }
  rewrite app_assoc, custom_parser_id, <- app_assoc;
    [| rewrite forallb_app, (json_ws_no_quote ws3 H3); reflexivity | exact (dumps_big v (wf_json_value v Hwf))].
  unfold LangChain.parse_partial_json.
  assert (Hj : decode_failed (json_loads_with false (u "json" ++ ws3 ++ dumps v)) = true)
    by (apply (json_loads_no_start false 106); reflexivity).
  destruct (json_loads_with false (u "json" ++ ws3 ++ dumps v)) as [|[m' p|e]] eqn:Ej;
    [discriminate| |discriminate].
  rewrite walk_json_tag by (exact (wf_json_value v Hwf) || exact H3). cbv beta iota zeta.
  replace (rev (map (fun c : Z => [c]) (u "json" ++ ws3 ++ dumps v)))
    with (rev (map (fun c : Z => [c]) (u "son" ++ ws3 ++ dumps v)) ++ [[106%Z]]) by reflexivity.
  rewrite retry_no_start by reflexivity. reflexivity.
Qed.

(** [JsonOutputParser().parse] on the stripped reply gives back the value
    [json.dumps] wrote: bare, in a [```json] fence or in a [```] fence,
    with whitespace around. *)
Lemma output_parser_parse_dumps (ws1 ws2 ws3 ws4 : text) :
  forallb py_isspace ws1 = true -> forallb py_isspace ws2 = true ->
  forallb json_ws ws3 = true -> forallb json_ws ws4 = true ->
  LangChain.output_parser_parse (py_strip (ws1 ++ dumps v ++ ws2)) = Ok v /\
  LangChain.output_parser_parse (py_strip (ws1 ++ u "```json" ++ ws3 ++ dumps v ++ ws4 ++ u "```" ++ ws2)) = Ok v /\
  LangChain.output_parser_parse (py_strip (ws1 ++ u "```" ++ ws3 ++ dumps v ++ ws4 ++ u "```" ++ ws2)) = Ok v.
Proof.
  intros H1 H2 H3 H4. destruct (dumps_container_ends v Hcont) as [c [m [d [E [Hc [Hd _]]]]]].
  assert (Hs4 : forallb LangChain.json_strip_char (ws4 ++ u "```") = true)
    by (rewrite forallb_app, (json_ws_strip_char ws4 H4); reflexivity).
  split; [|split].
  - rewrite py_strip_between by (assumption || (exists c, m, d; auto)).
    unfold LangChain.output_parser_parse. rewrite py_strip_self by (exists c, m, d; auto).
    unfold LangChain.parse_json_markdown.
    pose proof (parse_json_around [] [] eq_refl eq_refl) as P. cbn [app] in P. rewrite app_nil_r in P.
    rewrite P. reflexivity.
  - set (F := u "```json" ++ ws3 ++ dumps v ++ ws4 ++ u "```").
    assert (HF : exists c m d, F = c :: m ++ [d] /\ py_isspace c = false /\ py_isspace d = false).
    { exists 96%Z, (u "``json" ++ ws3 ++ dumps v ++ ws4 ++ u "``"), 96%Z.
      split; [|split; reflexivity]. unfold F. simpl. rewrite <- !app_assoc. reflexivity. }
    replace (ws1 ++ u "```json" ++ ws3 ++ dumps v ++ ws4 ++ u "```" ++ ws2) with (ws1 ++ F ++ ws2)
      by (unfold F; rewrite <- !app_assoc; reflexivity).
    rewrite py_strip_between by assumption.
    unfold LangChain.output_parser_parse. rewrite py_strip_self by exact HF.
    unfold LangChain.parse_json_markdown.
    pose proof (parse_json_json_tag ws3 ws4 H3 H4) as Hfail. fold F in Hfail.
    destruct (LangChain.parse_json F) as [|[m' p|e]]; [discriminate| |discriminate].
    unfold F. rewrite fence_body_json.
    apply parse_json_around; [apply json_ws_strip_char, H3|exact Hs4].
  - set (F := u "```" ++ ws3 ++ dumps v ++ ws4 ++ u "```").
    assert (HF : exists c m d, F = c :: m ++ [d] /\ py_isspace c = false /\ py_isspace d = false).
    { exists 96%Z, (u "``" ++ ws3 ++ dumps v ++ ws4 ++ u "``"), 96%Z.
      split; [|split; reflexivity]. unfold F. simpl. rewrite <- !app_assoc. reflexivity. }
    replace (ws1 ++ u "```" ++ ws3 ++ dumps v ++ ws4 ++ u "```" ++ ws2) with (ws1 ++ F ++ ws2)
      by (unfold F; rewrite <- !app_assoc; reflexivity).
    rewrite py_strip_between by assumption.
    unfold LangChain.output_parser_parse. rewrite py_strip_self by exact HF.
    unfold LangChain.parse_json_markdown.
    replace F with ((u "```" ++ ws3) ++ dumps v ++ (ws4 ++ u "```"))
      by (unfold F; rewrite <- !app_assoc; reflexivity).
    rewrite parse_json_around; [reflexivity| |exact Hs4].
    rewrite forallb_app, (json_ws_strip_char ws3 H3). reflexivity.
Qed.
End Reply.



(** Nested lists: [n] opening brackets followed by [n] closing ones, the
    text [json.dumps] writes for a list nested [n] deep. *)
Lemma forallb_repeat (f : Z -> bool) (x : Z) (n : nat) :
  f x = true -> forallb f (repeat x n) = true.
Proof. intros H. induction n as [|n IH]; simpl; [reflexivity|]. rewrite H, IH. reflexivity. Qed.

Lemma repeat_snoc (x : Z) (n : nat) : repeat x (S n) = repeat x n ++ [x].
Proof. induction n as [|n IH]; [reflexivity|]. change (x :: repeat x (S n) = x :: repeat x n ++ [x]). rewrite IH. reflexivity. Qed.

Lemma nested_split (n : nat) :
  repeat 91%Z (S n) ++ repeat 93%Z (S n) = 91%Z :: (repeat 91%Z n ++ repeat 93%Z n) ++ [93%Z].
Proof. rewrite (repeat_snoc 93%Z n), app_assoc. reflexivity. Qed.

Lemma scan_value_nested (strict : bool) (room n : nat) (X : text) :
  room < n -> scan_value strict room (repeat 91%Z n ++ X) = DecodeRaise RecursionError.
Proof.
  revert n; induction room as [|room IH]; intros n Hn.
  - destruct n as [|n]; [lia|]. reflexivity.
  - destruct n as [|n]; [lia|]. cbn [repeat app]. rewrite scan_value_unfold.
    cbn [Z.eqb Pos.eqb]. cbv iota beta. unfold scan_array.
    destruct n as [|n]; [lia|]. cbn [repeat app skip_ws json_ws Z.eqb Pos.eqb orb]. cbv iota beta.
    cbn [length]. rewrite array_items_S.
    change (91%Z :: repeat 91%Z n ++ X) with (repeat 91%Z (S n) ++ X).
    rewrite (IH (S n)) by lia. reflexivity.
Qed.

Lemma json_loads_nested (strict : bool) (n : nat) (X : text) :
  recursion_room < n -> json_loads_with strict (repeat 91%Z n ++ X) = Err (LoadsRaise RecursionError).
Proof.
  intros Hn. destruct n as [|n]; [lia|]. unfold json_loads_with. cbv zeta.
  cbn [repeat app skip_ws json_ws Z.eqb Pos.eqb orb]. cbv iota beta.
  change (91%Z :: repeat 91%Z n ++ X) with (repeat 91%Z (S n) ++ X).
  rewrite scan_value_nested by exact Hn. reflexivity.
Qed.

Lemma load_nested_line (f : option text) (n : nat) (c : text) :
  recursion_room < n -> load (Some (repeat 91%Z n ++ 10%Z :: c)) f = Err (JsonRaise RecursionError).
Proof.
  intros Hn. unfold load.
  rewrite read_lines_line by (apply forallb_repeat; reflexivity).
  apply load_lines_raise. apply json_loads_nested. exact Hn.
Qed.

Lemma parse_llm_json_nested (n : nat) :
  recursion_room < n ->
  parse_llm_json (repeat 91%Z n ++ repeat 93%Z n)
  = MalformedResponse (firstn 800 (repeat 91%Z n ++ repeat 93%Z n)) (LoadsRaise RecursionError).
Proof.
  intros Hn. destruct n as [|n]; [lia|].
  set (D := repeat 91%Z (S n) ++ repeat 93%Z (S n)).
  set (M := repeat 91%Z n ++ repeat 93%Z n).
  assert (ED : D = 91%Z :: M ++ [93%Z]) by apply nested_split.
  assert (Hstrip : forall p, p 91%Z = false -> p 93%Z = false -> strip_by p D = D).
  { intros p H1 H2. rewrite ED. exact (strip_by_around p [] [] M 91 93 eq_refl eq_refl H1 H2). }
  assert (Hpy : py_strip D = D) by (apply Hstrip; reflexivity).
  assert (Hj : forall strict, json_loads_with strict D = Err (LoadsRaise RecursionError)).
  { intros strict. apply json_loads_nested. exact Hn. }
  assert (Hpj : LangChain.parse_json D = Err (LoadsRaise RecursionError)).
  { unfold LangChain.parse_json. rewrite Hstrip by reflexivity.
    rewrite <- (app_nil_l D), custom_parser_id; [|reflexivity|].
    - cbn [app]. unfold LangChain.parse_partial_json. rewrite Hj. reflexivity.
    - unfold above_cr, D. rewrite forallb_app, !forallb_repeat; reflexivity. }
  assert (Hmd : LangChain.parse_json_markdown D = Err (LoadsRaise RecursionError)).
  { unfold LangChain.parse_json_markdown. rewrite Hpj. reflexivity. }
  assert (Hcl : clean_fences D = D).
  { unfold clean_fences.
    assert (E1 : strip_leading_fence D = D) by (unfold strip_leading_fence; rewrite ED; reflexivity).
    assert (E2 : strip_trailing_fence D = D).
    { assert (R : rev D = 93%Z :: rev (91%Z :: M)).
      { rewrite ED, app_comm_cons, rev_app_distr. reflexivity. }
      unfold strip_trailing_fence. cbv zeta. rewrite R. reflexivity. }
    rewrite E1, E2. exact Hpy. }
  assert (Hspan : first_json_span D = Some D).
  { rewrite ED. cbn [first_json_span Z.eqb Pos.eqb andb].
    rewrite existsb_app. cbn [existsb Z.eqb Pos.eqb orb]. rewrite orb_true_r.
    unfold upto_last. rewrite rev_app_distr. cbn [rev app lstrip_by Z.eqb Pos.eqb negb].
    rewrite rev_involutive. reflexivity. }
  unfold parse_llm_json. fold D. rewrite Hpy.
  unfold LangChain.output_parser_parse. rewrite Hpy, Hmd, Hcl, Hmd, Hspan.
  unfold json_loads. rewrite Hj. reflexivity.
Qed.

(** C1 (as amended): [parse_llm_json] tries its stages in a fixed order and
    returns the first success. A success of the LangChain parser on the
    stripped text is returned whatever the later stages would give; the
    greedy substring stage is reached only when both LangChain stages
    failed, and its value is returned when the substring parses. An object
    or array that [json.dumps] writes and [json.loads] reads back within
    the interpreter's limits is returned when the reply is that JSON alone,
    or that JSON in a [```json] or [```] fence, with whitespace around; the
    spec's prose example gives [{"a": 1, "b": [1, 2]}]. *)
Theorem parse_llm_json_stage_order :
  (forall txt v,
      LangChain.output_parser_parse (py_strip txt) = Ok v -> parse_llm_json txt = Parsed v) /\
  (forall txt cand v,
      failed (LangChain.output_parser_parse (py_strip txt)) = true ->
      failed (LangChain.parse_json_markdown (clean_fences (py_strip txt))) = true ->
      first_json_span (clean_fences (py_strip txt)) = Some cand ->
      json_loads cand = Ok v ->
      parse_llm_json txt = Parsed v) /\
  (forall v ws1 ws2 ws3 ws4,
      (exists kvs, v = JObj kvs) \/ (exists xs, v = JArr xs) -> wf_json v = true ->
      forallb py_isspace ws1 = true -> forallb py_isspace ws2 = true ->
      forallb json_ws ws3 = true -> forallb json_ws ws4 = true ->
      parse_llm_json (ws1 ++ dumps v ++ ws2) = Parsed v /\
      parse_llm_json (ws1 ++ u "```json" ++ ws3 ++ dumps v ++ ws4 ++ u "```" ++ ws2) = Parsed v /\
      parse_llm_json (ws1 ++ u "```" ++ ws3 ++ dumps v ++ ws4 ++ u "```" ++ ws2) = Parsed v) /\
  (2 <= recursion_room ->
   parse_llm_json (uq "Here is the result: {'a': 1, 'b': [1,2]} Thanks")
   = Parsed (JObj [(u "a", JInt 1); (u "b", JArr [JInt 1; JInt 2])])).
Proof.
  split; [|split; [|split]].
  - intros txt v H. unfold parse_llm_json. rewrite H. reflexivity.
  - intros txt cand v H1 H2 H3 H4. unfold parse_llm_json.
    destruct (LangChain.output_parser_parse (py_strip txt)); [discriminate|].
    destruct (LangChain.parse_json_markdown (clean_fences (py_strip txt))); [discriminate|].
    rewrite H3, H4. reflexivity.
  - intros v ws1 ws2 ws3 ws4 Hc Hw H1 H2 H3 H4.
    destruct (output_parser_parse_dumps v Hc Hw ws1 ws2 ws3 ws4 H1 H2 H3 H4) as [P1 [P2 P3]].
    unfold parse_llm_json. rewrite P1, P2, P3. repeat split.
  - destruct LIM as [[|[|[|room]]] [|lim]]; intros Hr; cbn in Hr; try lia; vm_compute; reflexivity.
Qed.

End Proofs.

(* ================================================================= *)
(** ** Evaluations with CPython's default limits *)

Example json_loads_ex1 :
  json_loads (uq "{'a': 1, 'b': [1,2]}") = Ok (JObj [(u "a", JInt 1); (u "b", JArr [JInt 1; JInt 2])]).
Proof. vm_compute. reflexivity. Qed.

Example parse_llm_ex_prose :
  parse_llm_json (uq "Here is the result: {'a': 1, 'b': [1,2]} Thanks")
  = Parsed (JObj [(u "a", JInt 1); (u "b", JArr [JInt 1; JInt 2])]).
Proof. vm_compute. reflexivity. Qed.

Example parse_llm_ex_fence :
  parse_llm_json (uq "```json
{'a':1}
```") = Parsed (JObj [(u "a", JInt 1)]).
Proof. vm_compute. reflexivity. Qed.

Example parse_llm_ex_bad :
  exists e, parse_llm_json (u "not json at all") = MalformedResponse (u "not json at all") e.
Proof. vm_compute. eexists. reflexivity. Qed.

Example parse_llm_ex_two :
  exists e, parse_llm_json (uq "A {'x': 1} B {'y': 2}") = MalformedResponse (uq "A {'x': 1} B {'y': 2}") e.
Proof. vm_compute. eexists. reflexivity. Qed.

Example parse_llm_ex_stray :
  parse_llm_json (uq "} {'a': 1}") = Parsed JNull.
Proof. vm_compute. reflexivity. Qed.

Lemma parse_llm_json_stage_order_witness :
  parse_llm_json (uq "{'a': 1}") = Parsed (JObj [(u "a", JInt 1)]) /\
  parse_llm_json (uq "Note: {'a': 1}") = Parsed (JObj [(u "a", JInt 1)]) /\
  parse_llm_json ([32%Z] ++ u "```json" ++ [10%Z] ++ dumps (JObj [(u "a", JInt 1)]) ++ [10%Z]
                  ++ u "```" ++ [10%Z]) = Parsed (JObj [(u "a", JInt 1)]) /\
  parse_llm_json (uq "Here is the result: {'a': 1, 'b': [1,2]} Thanks")
  = Parsed (JObj [(u "a", JInt 1); (u "b", JArr [JInt 1; JInt 2])]).
Proof.
  split; [|split; [|split]].
  - apply (proj1 parse_llm_json_stage_order). vm_compute. reflexivity.
  - apply (proj1 (proj2 parse_llm_json_stage_order) _ (uq "{'a': 1}"));
      vm_compute; reflexivity.
  - refine (proj1 (proj2 (proj1 (proj2 (proj2 parse_llm_json_stage_order))
                            (JObj [(u "a", JInt 1)]) [32%Z] [10%Z] [10%Z] [10%Z]
                            _ _ eq_refl eq_refl eq_refl eq_refl))).
    + left. eexists. reflexivity.
    + vm_compute. reflexivity.
  - apply (proj2 (proj2 (proj2 parse_llm_json_stage_order))).
    apply Nat.leb_le. vm_compute. reflexivity.
Defined.

(** C1 counterexample: the text [A {"x": 1} B {"y": 2}] contains the valid
    object [{"x": 1}], yet every stage fails (the greedy span runs from the
    first brace to the last one); in [} {"a": 1}] the stray closing brace
    makes the LangChain stage return [None] instead of the object; and the
    valid array nested 100000 deep, which [json.dumps] writes with no
    limit, makes every stage raise [RecursionError] (each stage catches
    [Exception]), so [parse_llm_json] raises MalformedResponse. *)
Lemma parse_llm_json_misses_embedded_json :
  json_loads (firstn 8 (skipn 2 (uq "A {'x': 1} B {'y': 2}"))) = Ok (JObj [(u "x", JInt 1)]) /\
  parse_llm_json (uq "A {'x': 1} B {'y': 2}")
  = MalformedResponse (uq "A {'x': 1} B {'y': 2}") (DecodeError "Expecting value" 0) /\
  json_loads (skipn 2 (uq "} {'a': 1}")) = Ok (JObj [(u "a", JInt 1)]) /\
  parse_llm_json (uq "} {'a': 1}") = Parsed JNull /\
  exists s, parse_llm_json (repeat 91%Z 100000 ++ repeat 93%Z 100000)
            = MalformedResponse s (LoadsRaise RecursionError).
Proof.
  split; [vm_compute; reflexivity|].
  split; [vm_compute; reflexivity|].
  split; [vm_compute; reflexivity|].
  split; [vm_compute; reflexivity|].
  eexists. apply parse_llm_json_nested. apply Nat.ltb_lt. vm_compute. reflexivity.
Qed.

Lemma parse_llm_json_all_stages_fail_witness :
  parse_llm_json (u "not json at all")
  = MalformedResponse (u "not json at all") (DecodeError "Expecting value" 0).
Proof.
  apply (parse_llm_json_all_stages_fail (u "not json at all")); vm_compute; reflexivity.
Defined.

(** C7, on the spec's file, with a corrupt line skipped and a line of
    5000 digits raising. *)
Lemma load_skips_bad_lines_witness :
  load (Some (uq "{'ticker': 'A'}" ++ [10%Z] ++ u "{oops" ++ [10%Z] ++ uq "{'ticker': 'B'}" ++ [10%Z])) None
  = load (Some (uq "{'ticker': 'A'}" ++ [10%Z] ++ uq "{'ticker': 'B'}" ++ [10%Z])) None /\
  load (Some ([] ++ (repeat 49%Z 5000 ++ u "x") ++ 10%Z :: uq "{'ticker': 'B'}" ++ [10%Z])) None
  = Err (JsonRaise IntDigitsError) /\
  match load (Some (uq "{'ticker': 'A'}" ++ [10%Z] ++ u "{oops" ++ [10%Z] ++ uq "{'ticker': 'B'}" ++ [10%Z])) None with
  | Ok l => length l = 2
  | Err _ => False
  end.
Proof.
  split; [|split].
  - apply (proj1 (proj2 (load_skips_bad_lines None))
             (uq "{'ticker': 'A'}" ++ [10%Z]) (u "{oops") (uq "{'ticker': 'B'}" ++ [10%Z])).
    + right. exists (uq "{'ticker': 'A'}"). reflexivity.
    + reflexivity.
    + vm_compute. reflexivity.
  - apply (proj1 (proj2 (proj2 (load_skips_bad_lines None)))
             [] (repeat 49%Z 5000 ++ u "x") (uq "{'ticker': 'B'}" ++ [10%Z]) IntDigitsError []).
    + left. reflexivity.
    + vm_compute. reflexivity.
    + vm_compute. reflexivity.
    + reflexivity.
  - apply (proj2 (proj2 (proj2 (load_skips_bad_lines None)))).
    apply Nat.ltb_lt. vm_compute. reflexivity.
Defined.

(** C7, counterexample to the unamended claim: [Storage.load] does not
    skip every line it cannot use. A line that parses to a number or a list
    raises [TypeError]; a line nesting 100000 brackets makes [json.loads]
    raise [RecursionError]; a line of 5000 digits followed by [x] makes it
    raise the [ValueError] of the int-digit limit. Each aborts the whole
    load. *)
Lemma load_aborts_on_some_lines :
  load (Some (u "42" ++ [10%Z])) None = Err TypeError /\
  load (Some (u "[1]" ++ [10%Z] ++ uq "{'ticker': 'B'}" ++ [10%Z])) None = Err TypeError /\
  load (Some (repeat 91%Z 100000 ++ [10%Z] ++ uq "{'ticker': 'B'}" ++ [10%Z])) None
  = Err (JsonRaise RecursionError) /\
  load (Some (repeat 49%Z 5000 ++ u "x" ++ [10%Z] ++ uq "{'ticker': 'B'}" ++ [10%Z])) None
  = Err (JsonRaise IntDigitsError).
Proof.
  split; [vm_compute; reflexivity|].
  split; [vm_compute; reflexivity|].
  split; [|vm_compute; reflexivity].
  apply load_nested_line. apply Nat.ltb_lt. vm_compute. reflexivity.
Qed.

(** C9, on a one-line file. *)
Lemma get_latest_first_of_load_witness :
  get_latest (Some (uq "{'ticker': 'A'}" ++ [10%Z])) None
  = Ok (Some (JObj [(u "ticker", JStr (u "A")); (u "price", JNull)])).
Proof.
  apply (proj2 (proj2 (get_latest_first_of_load _ None)) _ []). vm_compute. reflexivity.
Defined.

(** C6, two saves into a missing file. *)
Lemma save_twice_then_load_witness :
  load (Some (record_line (make_record (u "2024-01-01T00:00:00") (u "AAPL") JNull (JObj [(u "x", JInt 1)]))
              ++ record_line (make_record (u "2024-01-02T00:00:00") (u "AAPL") JNull (JObj []))))
       (Some (u "AAPL"))
  = Ok [make_record (u "2024-01-02T00:00:00") (u "AAPL") JNull (JObj [(u "ticker", JStr (u "AAPL"))]);
        make_record (u "2024-01-01T00:00:00") (u "AAPL") JNull
          (JObj [(u "x", JInt 1); (u "ticker", JStr (u "AAPL"))])].
Proof.
  destruct (save_twice_then_load (LIM := cpython_defaults) None (u "2024-01-01T00:00:00") (u "2024-01-02T00:00:00") (u "AAPL")
              (JObj [(u "x", JInt 1)]) (JObj []) JNull JNull None None
              (or_introl eq_refl) ltac:(vm_compute; reflexivity) ltac:(vm_compute; reflexivity)
              ltac:(vm_compute; reflexivity) ltac:(vm_compute; reflexivity)) as [_ [_ [_ H]]].
  refine (eq_trans H _). vm_compute. reflexivity.
Defined.

(** C6, counterexample to the unamended claim: when the last line lacks its
    newline, [save] glues the new record onto it; that line no longer
    parses, so both the old record and the first saved one are lost to
    [load]. *)
Lemma save_after_unterminated_line_loses_records :
  load (Some old_no_newline) (Some (u "u"))
  = Ok [JObj [(u "ticker", JStr (u "u")); (u "data", JObj [(u "ticker", JStr (u "u"))]); (u "price", JNull)]] /\
  save (Some old_no_newline) (u "t1") (u "u") (JObj [(u "x", JInt 1)]) JNull None
  = (Ok (make_record (u "t1") (u "u") JNull (JObj [(u "x", JInt 1)])),
     Some (old_no_newline ++ record_line (make_record (u "t1") (u "u") JNull (JObj [(u "x", JInt 1)])))) /\
  load (Some (old_no_newline ++ record_line (make_record (u "t1") (u "u") JNull (JObj [(u "x", JInt 1)]))
              ++ record_line (make_record (u "t2") (u "u") JNull (JObj []))))
       (Some (u "u"))
  = Ok [make_record (u "t2") (u "u") JNull (JObj [(u "ticker", JStr (u "u"))])].
Proof. split; [|split]; vm_compute; reflexivity. Qed.

(** C10: [save_and_replace("AAPL", ...)] keeps older lines whose top-level
    ticker is empty or missing but whose [data.ticker] is ["AAPL"], while
    [load("AAPL")] fills the ticker from [data.ticker], so it returns them
    next to the new record. *)
Lemma replace_keeps_cross_filled_line :
  save_and_replace (Some (legacy_line_empty_ticker ++ legacy_line_no_ticker))
    (u "2024-06-01T00:00:00") (u "AAPL") (JObj []) JNull None
  = (Ok (make_record (u "2024-06-01T00:00:00") (u "AAPL") JNull (JObj [])),
     Some (legacy_line_empty_ticker ++ legacy_line_no_ticker
           ++ record_line (make_record (u "2024-06-01T00:00:00") (u "AAPL") JNull (JObj [])))) /\
  load (Some (legacy_line_empty_ticker ++ legacy_line_no_ticker
              ++ record_line (make_record (u "2024-06-01T00:00:00") (u "AAPL") JNull (JObj []))))
       (Some (u "AAPL"))
  = Ok [make_record (u "2024-06-01T00:00:00") (u "AAPL") JNull (JObj [(u "ticker", JStr (u "AAPL"))]);
        JObj [(u "data", JObj [(u "ticker", JStr (u "AAPL"))]); (u "price", JNull); (u "ticker", JStr (u "AAPL"))];
        make_record (u "2024-01-01T00:00:00") (u "AAPL") JNull (JObj [(u "ticker", JStr (u "AAPL"))])].
Proof. split; vm_compute; reflexivity. Qed.

(** C2, the failing input: after [save_and_replace("AAPL", ...)] on a log
    holding an older AAPL record whose ticker is only in [data.ticker], the
    log holds two records that [load] reports for AAPL, not one. *)
Lemma replace_leaves_two_records_for_ticker :
  save_and_replace (Some legacy_line_empty_ticker) (u "2024-06-01T00:00:00") (u "AAPL") (JObj []) JNull None
  = (Ok (make_record (u "2024-06-01T00:00:00") (u "AAPL") JNull (JObj [])),
     Some (legacy_line_empty_ticker
           ++ record_line (make_record (u "2024-06-01T00:00:00") (u "AAPL") JNull (JObj [])))) /\
  load (Some (legacy_line_empty_ticker
              ++ record_line (make_record (u "2024-06-01T00:00:00") (u "AAPL") JNull (JObj []))))
       None
  = Ok [make_record (u "2024-06-01T00:00:00") (u "AAPL") JNull (JObj [(u "ticker", JStr (u "AAPL"))]);
        make_record (u "2024-01-01T00:00:00") (u "AAPL") JNull (JObj [(u "ticker", JStr (u "AAPL"))])].
Proof. split; vm_compute; reflexivity. Qed.

(** Witness of X2. *)
Lemma save_and_replace_keeps_other_tickers_witness :
  load (snd (save_and_replace
               (Some (record_line (make_record (u "2024-01-01T00:00:00") (u "AAPL") JNull (JObj []))
                      ++ record_line (make_record (u "2024-01-02T00:00:00") (u "MSFT") (JInt 10) (JObj []))))
               (u "2024-06-01T00:00:00") (u "AAPL") (JObj []) JNull None))
       (Some (u "MSFT"))
  = load (Some (record_line (make_record (u "2024-01-01T00:00:00") (u "AAPL") JNull (JObj []))
                ++ record_line (make_record (u "2024-01-02T00:00:00") (u "MSFT") (JInt 10) (JObj []))))
         (Some (u "MSFT")).
Proof.
  apply save_and_replace_keeps_other_tickers;
    [text_ne | text_ne | text_ne | store_lines_check; split; vm_compute; reflexivity | vm_compute; reflexivity].
Defined.

(** Witness of X3. *)
Lemma save_and_replace_single_record_witness :
  fst (save_and_replace
         (Some (record_line (make_record (u "2024-01-01T00:00:00") (u "AAPL") JNull (JObj []))
                ++ record_line (make_record (u "2024-01-02T00:00:00") (u "MSFT") (JInt 10) (JObj []))))
         (u "2024-06-01T00:00:00") (u "AAPL") (JObj []) (JInt 150) None)
    = Ok (make_record (u "2024-06-01T00:00:00") (u "AAPL") (JInt 150) (JObj [])) /\
  load (snd (save_and_replace
               (Some (record_line (make_record (u "2024-01-01T00:00:00") (u "AAPL") JNull (JObj []))
                      ++ record_line (make_record (u "2024-01-02T00:00:00") (u "MSFT") (JInt 10) (JObj []))))
               (u "2024-06-01T00:00:00") (u "AAPL") (JObj []) (JInt 150) None))
       (Some (u "AAPL"))
    = Ok [loaded_form (make_record (u "2024-06-01T00:00:00") (u "AAPL") (JInt 150) (JObj []))].
Proof.
  apply save_and_replace_single_record;
    [text_ne | tickered_lines_check | vm_compute; reflexivity | vm_compute; reflexivity].
Defined.

(** Witness of X4. *)
Lemma save_and_replace_failed_write_witness :
  fst (save_and_replace
         (Some (record_line (make_record (u "2024-01-01T00:00:00") (u "AAPL") JNull (JObj []))
                ++ record_line (make_record (u "2024-01-02T00:00:00") (u "MSFT") (JInt 10) (JObj []))))
         (u "2024-06-01T00:00:00") (u "AAPL") (JObj [(u "note", JStr [55296%Z])]) JNull None)
    = Err UnicodeEncodeError /\
  load (snd (save_and_replace
               (Some (record_line (make_record (u "2024-01-01T00:00:00") (u "AAPL") JNull (JObj []))
                      ++ record_line (make_record (u "2024-01-02T00:00:00") (u "MSFT") (JInt 10) (JObj []))))
               (u "2024-06-01T00:00:00") (u "AAPL") (JObj [(u "note", JStr [55296%Z])]) JNull None))
       (Some (u "AAPL"))
    = Ok [].
Proof.
  apply save_and_replace_failed_write;
    [text_ne | tickered_lines_check | vm_compute; reflexivity | vm_compute; reflexivity].
Defined.

(** Witness of X5. *)
Lemma parse_reply_object_witness :
  parse_reply ([32%Z] ++ dumps (JObj [(u "a", JInt 1)]) ++ [10%Z]) = Ok (JObj [(u "a", JInt 1)]) /\
  parse_reply ([32%Z] ++ u "```json" ++ [10%Z] ++ dumps (JObj [(u "a", JInt 1)]) ++ [10%Z] ++ u "```" ++ [10%Z])
    = Ok (JObj [(u "a", JInt 1)]) /\
  parse_reply ([32%Z] ++ u "```" ++ [10%Z] ++ dumps (JObj [(u "a", JInt 1)]) ++ [10%Z] ++ u "```" ++ [10%Z])
    = Ok (JObj [(u "a", JInt 1)]).
Proof. apply parse_reply_object; vm_compute; reflexivity. Defined.

(** Witness of X6. *)
Lemma parse_reply_other_fence_witness :
  parse_reply (u "```JSON" ++ [10%Z] ++ dumps (JObj [(u "a", JInt 1)]) ++ [10%Z] ++ u "```")
  = Err ValueError.
Proof.
  apply (parse_reply_other_fence (u "JSON") (dumps (JObj [(u "a", JInt 1)])) [] []);
    [reflexivity | reflexivity | text_ne | text_ne | reflexivity].
Defined.

(** Witness of X7. *)
Lemma api_save_then_latest_witness :
  exists file',
    api_save (Some (record_line (make_record (u "2024-01-02T00:00:00") (u "MSFT") (JInt 10) (JObj []))))
      (u "2024-06-01T00:00:00")
      [(u "ticker", JStr (u "AAPL")); (u "data", JObj [(u "company_name", JStr (u "Apple"))]);
       (u "price", JInt 150)]
    = Some (HttpOk (JObj [(u "status", JStr (u "saved"))]), file') /\
    get_latest file' (Some (u "AAPL"))
    = match load (Some (record_line (make_record (u "2024-01-02T00:00:00") (u "MSFT") (JInt 10) (JObj []))))
              (Some (u "AAPL")) with
      | Ok _ => Ok (Some (make_record (u "2024-06-01T00:00:00") (u "AAPL") (JInt 150)
                           (JObj (normalize_history_data (JObj [(u "company_name", JStr (u "Apple"))])
                                    (Some (u "AAPL"))))))
      | Err e => Err e
      end.
Proof.
  apply (api_save_then_latest
           (Some (record_line (make_record (u "2024-01-02T00:00:00") (u "MSFT") (JInt 10) (JObj []))))
           (u "2024-06-01T00:00:00") (u "AAPL")
           [(u "ticker", JStr (u "AAPL")); (u "data", JObj [(u "company_name", JStr (u "Apple"))]);
            (u "price", JInt 150)]
           [(u "company_name", JStr (u "Apple"))]);
    [reflexivity | text_ne | reflexivity | reflexivity
    | right; eexists; reflexivity | vm_compute; reflexivity | vm_compute; reflexivity].
Defined.

(** Witness of X8. *)
Lemma update_metrics_result_witness :
  update_metrics
    (Some (record_line (make_record (u "2024-01-01T00:00:00") (u "AAPL") JNull (JObj []))))
    (u "2024-06-01T00:00:00") (u "AAPL") [JObj [(u "name", JStr (u "users"))]]
  = match save_and_replace
            (Some (record_line (make_record (u "2024-01-01T00:00:00") (u "AAPL") JNull (JObj []))))
            (u "2024-06-01T00:00:00") (u "AAPL")
            (JObj (dict_set (u "north_star_metrics") (JArr [JObj [(u "name", JStr (u "users"))]])
                     (normalize_history_data (JObj [(u "ticker", JStr (u "AAPL"))]) (Some (u "AAPL")))))
            JNull None with
    | (Ok _, f') =>
      (HttpOk (JObj [(u "status", JStr (u "updated"));
                     (u "data", JObj (dict_set (u "north_star_metrics") (JArr [JObj [(u "name", JStr (u "users"))]])
                                        (normalize_history_data (JObj [(u "ticker", JStr (u "AAPL"))])
                                           (Some (u "AAPL")))))]), f')
    | (Err _, f') => (HttpError 500, f')
    end.
Proof.
  apply (update_metrics_result _ _ _ _
           [(u "timestamp", JStr (u "2024-01-01T00:00:00")); (u "ticker", JStr (u "AAPL"));
            (u "price", JNull); (u "data", JObj [(u "ticker", JStr (u "AAPL"))])]);
    [vm_compute; reflexivity | discriminate].
Defined.

(** Witness of X9. *)
Lemma update_header_result_witness :
  update_header
    (Some (record_line (make_record (u "2024-01-01T00:00:00") (u "AAPL") JNull (JObj []))))
    (u "2024-06-01T00:00:00") (u "AAPL") (JInt 150) [(u "pe_ttm", JInt 20)]
  = match save_and_replace
            (Some (record_line (make_record (u "2024-01-01T00:00:00") (u "AAPL") JNull (JObj []))))
            (u "2024-06-01T00:00:00") (u "AAPL")
            (JObj (dict_set (u "financial_snapshot") (JObj (dict_update [] [(u "pe_ttm", JInt 20)]))
                     (normalize_history_data (JObj [(u "ticker", JStr (u "AAPL"))]) (Some (u "AAPL")))))
            (if is_null (JInt 150) then JNull else JInt 150) None with
    | (Ok _, f') =>
      (HttpOk (JObj [(u "status", JStr (u "updated"));
                     (u "data", JObj (dict_set (u "financial_snapshot")
                                        (JObj (dict_update [] [(u "pe_ttm", JInt 20)]))
                                        (normalize_history_data (JObj [(u "ticker", JStr (u "AAPL"))])
                                           (Some (u "AAPL")))))]), f')
    | (Err _, f') => (HttpError 500, f')
    end.
Proof.
  apply (update_header_result _ _ _ _ _
           [(u "timestamp", JStr (u "2024-01-01T00:00:00")); (u "ticker", JStr (u "AAPL"));
            (u "price", JNull); (u "data", JObj [(u "ticker", JStr (u "AAPL"))])] []);
    [vm_compute; reflexivity | discriminate | right; split; [vm_compute; reflexivity | reflexivity]].
Defined.

(** Witness of X10. *)
Lemma update_header_bad_snapshot_witness :
  update_header
    (Some (record_line (make_record (u "2024-01-01T00:00:00") (u "AAPL") JNull
                          (JObj [(u "financial_snapshot", JNull)]))))
    (u "2024-06-01T00:00:00") (u "AAPL") (JInt 150) [(u "pe_ttm", JInt 20)]
  = (HttpError 500,
     Some (record_line (make_record (u "2024-01-01T00:00:00") (u "AAPL") JNull
                          (JObj [(u "financial_snapshot", JNull)])))).
Proof.
  apply (update_header_bad_snapshot _ _ _ _ _
           [(u "timestamp", JStr (u "2024-01-01T00:00:00")); (u "ticker", JStr (u "AAPL"));
            (u "price", JNull);
            (u "data", JObj [(u "financial_snapshot", JNull); (u "ticker", JStr (u "AAPL"))])] JNull);
    [vm_compute; reflexivity | vm_compute; reflexivity | intros o Ho; discriminate Ho].
Defined.

(** Witness of X11. *)
Lemma api_analyze_fenced_reply_witness :
  exists file',
    api_analyze
      (Some (record_line (make_record (u "2024-01-01T00:00:00") (u "AAPL") JNull (JObj []))
             ++ record_line (make_record (u "2024-01-02T00:00:00") (u "MSFT") (JInt 10) (JObj []))))
      true (u "2024-06-01T00:00:00") (u "AAPL") (JInt 150)
      ([] ++ u "```json" ++ [10%Z] ++ dumps (JObj [(u "company_name", JStr (u "Apple"))]) ++ [10%Z]
          ++ u "```" ++ [10%Z])
    = (HttpOk (JObj [(u "company_name", JStr (u "Apple"))]), file') /\
    load file' (Some (u "AAPL"))
    = Ok [loaded_form (make_record (u "2024-06-01T00:00:00") (u "AAPL") (JInt 150)
                         (JObj [(u "company_name", JStr (u "Apple"))]))].
Proof.
  apply api_analyze_fenced_reply;
    [text_ne | tickered_lines_check | vm_compute; reflexivity | reflexivity | reflexivity | vm_compute; reflexivity | vm_compute; reflexivity].
Defined.
